(** * Query orchestration pipeline: a shallow embedding and its properties

    The development follows the Python sources of the search backend:

    - [backend/core/user_context.py]      (UserContext, assigned_play_ids)
    - [backend/pipeline/retriever.py]     (build_pinecone_filter, retrieve_chunks)
    - [backend/core/llm_factory.py]       (get_llm)
    - [backend/pipeline/generator.py]     (grounded and general generation)
    - [backend/pipeline/intent_classifier.py] (classify_intent)
    - [backend/pipeline/recommender.py]   (get_recommendations)
    - [backend/pipeline/orchestrator.py]  (_apply_mode, _play_id_set_from_chunks,
                                           Orchestrator.run, Orchestrator.run_stream)

    Python [str] values are sequences of Unicode code points and are
    modelled as [list N]; [float] is IEEE binary64 and is modelled by the
    primitive floats; a [set] of strings is a [gset]; a [dict] read with
    [.get] is a [gmap].  Calls to the outside world (embedding service,
    vector index, chat model) thread an abstract world and append to a
    trace of observable actions. *)

From Stdlib Require Import ZArith NArith List Floats.
From Stdlib Require Import Strings.String Strings.Ascii DecimalString.
From stdpp Require Import gmap list sorting.

Set Warnings "-inexact-float,-register-all".
Local Open Scope Z_scope.

(** ** Python strings *)

(** A Python [str]: its code points, in order. *)
Abbreviation str := (list N).

(** An ASCII literal of the source as a [str]. *)
Definition lit (s : string) : str :=
  map N_of_ascii (list_ascii_of_string s).

Module PyStr.

(** [str.isspace] for one code point (the characters [str.strip] removes
    when called without argument). *)
Definition isspace (c : N) : bool :=
  ((9 <=? c) && (c <=? 13) || (28 <=? c) && (c <=? 32)
   || (c =? 133) || (c =? 160) || (c =? 5760)
   || (8192 <=? c) && (c <=? 8202) || (c =? 8232) || (c =? 8233)
   || (c =? 8239) || (c =? 8287) || (c =? 12288))%N.

(** [s.lstrip()] *)
Fixpoint lstrip (s : str) : str :=
  match s with
  | c :: s' => if isspace c then lstrip s' else s
  | [] => []
  end.

(** [s.rstrip()] *)
Definition rstrip (s : str) : str := rev (lstrip (rev s)).

(** [s.strip()] *)
Definition strip (s : str) : str := rstrip (lstrip s).

(** [s.startswith(p)] *)
Fixpoint startswith (s p : str) : bool :=
  match p, s with
  | [], _ => true
  | _ :: _, [] => false
  | a :: p', b :: s' => (a =? b)%N && startswith s' p'
  end.

(** [s.split(sep)] for a non-empty separator: the pieces between the
    non-overlapping occurrences of [sep], scanned left to right.  [skip]
    counts the code points of a separator still to be passed over and
    [cur] holds the current piece, reversed. *)
Fixpoint split_from (sep : str) (skip : nat) (cur : str) (s : str) : list str :=
  match s with
  | [] => [rev cur]
  | c :: s' =>
      match skip with
      | S k => split_from sep k cur s'
      | O =>
          if startswith s sep
          then rev cur :: split_from sep (length sep - 1) [] s'
          else split_from sep 0 (c :: cur) s'
      end
  end.

Definition split_on (s sep : str) : list str := split_from sep 0 [] s.

(** [s.split()]: the maximal runs of non-whitespace code points. *)
Fixpoint words_from (cur : str) (s : str) : list str :=
  match s with
  | [] => match cur with [] => [] | _ => [rev cur] end
  | c :: s' =>
      if isspace c
      then match cur with
           | [] => words_from [] s'
           | _ => rev cur :: words_from [] s'
           end
      else words_from (c :: cur) s'
  end.

Definition split (s : str) : list str := words_from [] s.

(** [sep.join(parts)] *)
Fixpoint join (sep : str) (parts : list str) : str :=
  match parts with
  | [] => []
  | [p] => p
  | p :: ps => p ++ sep ++ join sep ps
  end.

(** [str(n)] for an [int]. *)
Definition of_int (n : Z) : str := lit (NilZero.string_of_int (Z.to_int n)).

End PyStr.

(** ** User context ([backend/core/user_context.py]) *)

Record AssignedPlay := {
  ap_play_id : str;
  ap_play_title : str;
  ap_status : str;
  ap_completed_at : option str;
}.

Record UserContext := {
  user_id : str;
  username : str;
  display_name : str;
  company_id : str;
  company_name : str;
  assigned_plays : list AssignedPlay;
}.

(** The [assigned_play_ids] property. *)
Definition assigned_play_ids (ctx : UserContext) : list str :=
  map ap_play_id (assigned_plays ctx).

(** ** Metadata filters ([backend/pipeline/retriever.py]) *)

(** The filter dictionaries the builder writes: [{field: {"$eq": v}}],
    [{field: {"$in": vs}}], [{"$and": [...]}] and [{"$or": [...]}]. *)
Inductive filter_expr :=
| FEq (field : str) (value : str)
| FIn (field : str) (values : list str)
| FAnd (conjuncts : list filter_expr)
| FOr (disjuncts : list filter_expr).

Definition company_fence (user_context : UserContext) : filter_expr :=
  FEq (lit "company_id") (company_id user_context).

Definition knowledge_filter (user_context : UserContext) : filter_expr :=
  FAnd [ company_fence user_context;
         FEq (lit "content_type") (lit "knowledge");
         FIn (lit "play_id") (assigned_play_ids user_context) ].

Definition submission_filter (user_context : UserContext) : filter_expr :=
  FAnd [ company_fence user_context;
         FEq (lit "content_type") (lit "submission");
         FEq (lit "user_id") (user_id user_context) ].

Definition combined_filter (user_context : UserContext) : filter_expr :=
  FAnd [ company_fence user_context;
         FOr [ FAnd [ FEq (lit "content_type") (lit "knowledge");
                      FIn (lit "play_id") (assigned_play_ids user_context) ];
               FAnd [ FEq (lit "content_type") (lit "submission");
                      FEq (lit "user_id") (user_id user_context) ] ] ].

Definition build_pinecone_filter (user_context : UserContext) (intent : str) : filter_expr :=
  if bool_decide (intent = lit "performance_history") then
    submission_filter user_context
  else if bool_decide (intent = lit "combined") then
    combined_filter user_context
  else
    knowledge_filter user_context.

(** *** Records of the vector index

    The metadata stored with a vector, as the ingestion job writes it
    ([backend/ingestion/metadata_builder.py]): a dictionary whose values
    are scalars, strings for the identifiers and texts, integers for page
    numbers and scores. *)
Record metadata := {
  str_fields : gmap str str;
  int_fields : gmap str Z;
}.

(** A filter on a record: [$eq] compares the stored string with the given
    one, [$in] asks for membership in the given list, [$and] and [$or]
    combine. A field that is absent satisfies neither [$eq] nor [$in]. *)
Fixpoint matches_filter (meta : metadata) (f : filter_expr) : bool :=
  match f with
  | FEq field value =>
      match str_fields meta !! field with
      | Some v => bool_decide (v = value)
      | None => false
      end
  | FIn field values =>
      match str_fields meta !! field with
      | Some v => bool_decide (v ∈ values)
      | None => false
      end
  | FAnd fs => forallb (matches_filter meta) fs
  | FOr fs => existsb (matches_filter meta) fs
  end.


(** ** Schemas ([backend/models/api_schemas.py], [backend/models/domain.py]) *)

Record SourceChunk := {
  asset_id : str;
  asset_type : str;
  play_id : option str;
  play_title : str;
  rep_title : str;
  chunk_text : str;
  page_number : option Z;
  timestamp_start : option str;
  timestamp_end : option str;
  score : option float;
  section_id : option str;
  heading : option str;
  feedback_score : option Z;
}.

Record IntentResult := {
  intent : str;
  confidence : float;
  reasoning : str;
}.

Record Recommendation := {
  rec_play_id : str;
  rec_play_title : str;
  rec_rep_id : option str;
  rec_rep_title : option str;
  rec_status : str;
  rec_reason : str;
}.

Inductive tier := tier1 | tier2 | tier3 | grounded.

Record SearchResponse := {
  sr_intent : IntentResult;
  response_tier : tier;
  answer : str;
  sources : list SourceChunk;
  recommendations : list Recommendation;
}.

Record Rep := {
  rep_id : str;
  prompt_text : str;
  prompt_title : str;
  prompt_type : str;
  rep_play_id : str;
  rep_company_id : str;
  rep_asset_id : option str;
}.

(** The part of the in-memory store the pipeline reads: the values of its
    [_reps] dictionary, in insertion order. *)
Record DataStore := {
  _reps : list Rep;
}.

Definition get_reps_for_play (store : DataStore) (play_id : str) : list Rep :=
  filter (λ r, rep_play_id r = play_id) (_reps store).

(** ** Settings ([backend/config.py]) *)

Record Settings := {
  anthropic_api_key : str;
  openai_api_key : str;
  google_api_key : str;
  pinecone_api_key : str;
  pinecone_index_name : str;
  model : str;
  embedding_model : str;
  embedding_dimensions : Z;
  pinecone_top_k : Z;
  similarity_threshold : float;
}.

(** ** The outside world *)

(** A raised [Exception]; [str(exc)] is its message. *)
Record exn := Exception { exn_message : str }.

Inductive result (A : Type) :=
| Ok (a : A)
| Raised (e : exn).
Arguments Ok {A} a.
Arguments Raised {A} e.

(** One entry of the [matches] of a query response. The client returns
    objects with [score] and [metadata] attributes; the retriever also
    accepts plain dictionaries, whose keys may be missing. *)
Inductive scored_match :=
| MatchObject (score : float) (meta : metadata)
| MatchDict (score : option float) (meta : option metadata).

Inductive provider := ChatAnthropic | ChatOpenAI | ChatGoogleGenerativeAI.

(** A chat model as [get_llm] constructs it. *)
Record chat_model := {
  cm_provider : provider;
  cm_model : str;
  cm_api_key : str;
  cm_max_tokens : Z;
  cm_temperature : float;
}.

Inductive message :=
| SystemMessage (content : str)
| HumanMessage (content : str).

(** The dictionaries sent as server-sent events. *)
Inductive sse_data :=
| MetaEvent (intent : IntentResult) (response_tier : tier)
            (sources : list SourceChunk) (recommendations : list Recommendation)
| ChunkEvent (content : str)
| DoneEvent (is_insufficient : bool)
| ErrorEvent (message : str).

(** A value decoded by [json.loads]. *)
Inductive json :=
| JNull
| JBool (b : bool)
| JInt (z : Z)
| JFloat (f : float)
| JStr (s : str)
| JList (items : list json)
| JDict (items : list (str * json)).

(** What a run can be observed to do, in order. [Delivered] marks an
    increment handed over by a streaming chat model; [Recommend] marks a
    call of the recommender with its exclusion set; [Yield] is an event
    string handed to the client by the streaming surface. *)
Inductive action :=
| EmbeddingsCreate (model input : str) (dimensions : Z)
| IndexQuery (index_name : str) (vector : list float) (top_k : Z)
             (flt : filter_expr)
| LLMInvoke (llm : chat_model) (messages : list message)
| LLMStream (llm : chat_model) (messages : list message)
| Delivered (text : str)
| Recommend (retrieved_play_ids : gset str)
| Yield (event : str).

(** The collaborators of the pipeline. The providers are functions of an
    abstract world, so that two calls with equal arguments may answer
    differently; a streaming call delivers finitely many increments and
    then stops or fails. [json_loads], [py_float], [str_lower] and
    [json_dumps] stand for Python's [json.loads], [float], [str.lower] and
    [json.dumps]; a failing [json.loads] or [float] is [None]. The prompt
    texts are those of the source modules. *)
Class Env := {
  World : Type;
  settings : Settings;
  store : DataStore;
  langchain_google_genai_installed : bool;
  embeddings_create :
    str → str → str → Z → World → result (list float) * World;
  index_query :
    str → str → list float → Z → filter_expr → World →
    result (option (list scored_match)) * World;
  llm_invoke : chat_model → list message → World → result str * World;
  llm_astream :
    chat_model → list message → World → (list str * option exn) * World;
  json_loads : str → option json;
  py_float : json → option float;
  str_lower : str → str;
  json_dumps : sse_data → str;
  GROUNDED_SYSTEM_PROMPT : str;
  GENERAL_PROFESSIONAL_PROMPT : str;
  INTENT_SYSTEM_PROMPT : str;
  few_shot_examples : str;
}.

(** ** Computations with failure and a trace *)

Section Pipeline.

Context {env : Env}.

Record state := {
  world : World;
  trace : list action;
}.

Definition M (A : Type) : Type := state → result A * state.

Definition ret {A} (a : A) : M A := λ s, (Ok a, s).

Definition bind {A B} (m : M A) (k : A → M B) : M B :=
  λ s, match m s with
       | (Ok a, s') => k a s'
       | (Raised e, s') => (Raised e, s')
       end.

Definition raise {A} (e : exn) : M A := λ s, (Raised e, s).

(** [try: m except Exception as exc: handler(exc)] *)
Definition try_except {A} (m : M A) (handler : exn → M A) : M A :=
  λ s, match m s with
       | (Ok a, s') => (Ok a, s')
       | (Raised e, s') => handler e s'
       end.

Definition log (a : action) : M unit :=
  λ s, (Ok tt, {| world := world s; trace := trace s ++ [a] |}).

(** A provider call: it is recorded, then the provider answers. *)
Definition call {A} (a : action) (p : World → result A * World) : M A :=
  λ s, let '(r, w) := p (world s) in
       (r, {| world := w; trace := trace s ++ [a] |}).

End Pipeline.

Notation "x <~ m ;; k" := (bind m (λ x, k))
  (at level 100, m at next level, right associativity, only parsing).

(** ** Retrieval ([backend/pipeline/retriever.py]) *)

Section Retriever.

Context {env : Env}.

(** [meta.get(key, default)] for a string-valued key. *)
Definition meta_get_str (meta : metadata) (key : string) (dflt : str) : str :=
  default dflt (str_fields meta !! lit key).

(** [meta.get(key)] *)
Definition meta_get_opt_str (meta : metadata) (key : string) : option str :=
  str_fields meta !! lit key.

Definition meta_get_opt_int (meta : metadata) (key : string) : option Z :=
  int_fields meta !! lit key.

Definition empty_metadata : metadata :=
  {| str_fields := ∅; int_fields := ∅ |}.

(** [match.score if hasattr(match, "score") else match.get("score", 0.0)] *)
Definition match_score (m : scored_match) : float :=
  match m with
  | MatchObject score _ => score
  | MatchDict score _ => default 0%float score
  end.

(** [match.metadata if hasattr(match, "metadata") else match.get("metadata", {})] *)
Definition match_metadata (m : scored_match) : metadata :=
  match m with
  | MatchObject _ meta => meta
  | MatchDict _ meta => default empty_metadata meta
  end.

Definition source_chunk_of (meta : metadata) (score : float) : SourceChunk :=
  {| asset_id := meta_get_str meta "asset_id" (lit "");
     asset_type := meta_get_str meta "asset_type" (lit "");
     play_id := meta_get_opt_str meta "play_id";
     play_title := meta_get_str meta "play_title" (lit "");
     rep_title := meta_get_str meta "rep_title" (lit "");
     chunk_text := meta_get_str meta "chunk_text" (lit "");
     page_number := meta_get_opt_int meta "page_number";
     timestamp_start := meta_get_opt_str meta "timestamp_start";
     timestamp_end := meta_get_opt_str meta "timestamp_end";
     score := Some score;
     section_id := meta_get_opt_str meta "section_id";
     heading := meta_get_opt_str meta "heading";
     feedback_score := meta_get_opt_int meta "feedback_score" |}.

(** A match is kept when its score is not below the threshold, and a
    kept match becomes this chunk. *)
Definition kept (m : scored_match) : Prop :=
  PrimFloat.ltb (match_score m) (similarity_threshold settings) = false.

#[global] Instance kept_dec (m : scored_match) : Decision (kept m).
Proof. unfold kept. apply _. Defined.

Definition chunk_of_match (m : scored_match) : SourceChunk :=
  source_chunk_of (match_metadata m) (match_score m).

(** The loop over [raw_matches]: [chunks] is the list built so far. *)
Fixpoint collect_chunks (raw_matches : list scored_match)
    (chunks : list SourceChunk) : list SourceChunk :=
  match raw_matches with
  | [] => chunks
  | m :: rest =>
      let score := match_score m in
      if PrimFloat.ltb score (similarity_threshold settings) then
        collect_chunks rest chunks
      else
        let meta := match_metadata m in
        collect_chunks rest (chunks ++ [source_chunk_of meta score])
  end.

Definition retrieve_chunks (query : str) (user_context : UserContext)
    (intent : str) : M (list SourceChunk) :=
  if bool_decide (assigned_play_ids user_context = [])
     && negb (bool_decide (intent = lit "performance_history"))
  then ret []
  else
    query_vector <~ call
      (EmbeddingsCreate (embedding_model settings) query
         (embedding_dimensions settings))
      (embeddings_create (openai_api_key settings) (embedding_model settings)
         query (embedding_dimensions settings)) ;;
    let pinecone_filter := build_pinecone_filter user_context intent in
    results <~ call
      (IndexQuery (pinecone_index_name settings) query_vector
         (pinecone_top_k settings) pinecone_filter)
      (index_query (pinecone_api_key settings) (pinecone_index_name settings)
         query_vector (pinecone_top_k settings) pinecone_filter) ;;
    let raw_matches := default [] results in
    ret (collect_chunks raw_matches []).

End Retriever.

(** ** Chat model selection ([backend/core/llm_factory.py]) *)

Section LLMFactory.

Context {env : Env}.

Definition get_llm (model : str) (max_tokens : Z) (temperature : float)
    : M chat_model :=
  let name := str_lower model in
  if PyStr.startswith name (lit "claude-") then
    ret {| cm_provider := ChatAnthropic; cm_model := model;
           cm_api_key := anthropic_api_key settings;
           cm_max_tokens := max_tokens; cm_temperature := temperature |}
  else if PyStr.startswith name (lit "gpt-")
          || PyStr.startswith name (lit "o1-")
          || PyStr.startswith name (lit "o3-")
          || PyStr.startswith name (lit "o4-") then
    ret {| cm_provider := ChatOpenAI; cm_model := model;
           cm_api_key := openai_api_key settings;
           cm_max_tokens := max_tokens; cm_temperature := temperature |}
  else if PyStr.startswith name (lit "gemini-") then
    if langchain_google_genai_installed then
      ret {| cm_provider := ChatGoogleGenerativeAI; cm_model := model;
             cm_api_key := google_api_key settings;
             cm_max_tokens := max_tokens; cm_temperature := temperature |}
    else
      raise (Exception
        (lit "Google Generative AI support requires 'langchain-google-genai'. "
         ++ lit "Install it: pip install langchain-google-genai"))
  else
    raise (Exception
      (lit "Cannot determine LLM provider for model '" ++ model ++ lit "'. "
       ++ lit "Expected prefix: 'claude-', 'gpt-', 'o1-', 'o3-', 'o4-', or 'gemini-'.")).

(** [llm.invoke(messages).content] *)
Definition invoke (llm : chat_model) (messages : list message) : M str :=
  call (LLMInvoke llm messages) (llm_invoke llm messages).

(** [async for chunk in llm.astream(messages)]: the increments the model
    will deliver and the failure, if any, that ends them. *)
Definition astream (llm : chat_model) (messages : list message)
    : M (list str * option exn) :=
  λ s, let '(d, w) := llm_astream llm messages (world s) in
       (Ok d, {| world := w; trace := trace s ++ [LLMStream llm messages] |}).

(** The loop over a stream. Each increment is delivered in turn; a
    non-empty one is handed to [body], the code that consumes what the
    generator yields, which updates the consumer's variables [acc]. *)
Fixpoint astream_for {A} (texts : list str) (failure : option exn)
    (body : A → str → M A) (acc : A) : M A :=
  match texts with
  | [] =>
      match failure with
      | None => ret acc
      | Some e => raise e
      end
  | text :: rest =>
      _ <~ log (Delivered text) ;;
      acc' <~ (if bool_decide (text = []) then ret acc else body acc text) ;;
      astream_for rest failure body acc'
  end.

End LLMFactory.

(** ** Answer generation ([backend/pipeline/generator.py]) *)

Section Generator.

Context {env : Env}.

Definition nl : str := [10%N].

(** [f"{x}"] for an optional integer and an optional string. *)
Definition fmt_opt_int (o : option Z) : str :=
  match o with Some n => PyStr.of_int n | None => lit "None" end.

Definition fmt_opt_str (o : option str) : str :=
  match o with Some s => s | None => lit "None" end.

(** Truth value of an optional integer and of an optional string. *)
Definition truthy_int (o : option Z) : bool :=
  match o with Some n => negb (n =? 0) | None => false end.

Definition truthy_str (o : option str) : bool :=
  match o with Some s => negb (bool_decide (s = [])) | None => false end.

Definition citation_hint (chunk : SourceChunk) : str :=
  if truthy_int (page_number chunk) then
    lit "[Page " ++ fmt_opt_int (page_number chunk) ++ lit "]"
  else if truthy_str (timestamp_start chunk) then
    lit "[" ++ fmt_opt_str (timestamp_start chunk) ++ [8211%N]
    ++ fmt_opt_str (timestamp_end chunk) ++ lit "]"
  else if bool_decide (is_Some (feedback_score chunk)) then
    lit "[Score: " ++ fmt_opt_int (feedback_score chunk) ++ lit "/10]"
  else lit "".

(** The [parts] of [_build_context_block], numbering from [i]. *)
Fixpoint context_parts (i : Z) (chunks : list SourceChunk) : list str :=
  match chunks with
  | [] => []
  | chunk :: rest =>
      (lit "--- Chunk " ++ PyStr.of_int i ++ lit " ---" ++ nl
       ++ lit "Play: " ++ play_title chunk ++ nl
       ++ lit "Rep: " ++ rep_title chunk ++ nl
       ++ lit "Type: " ++ asset_type chunk ++ lit " " ++ citation_hint chunk ++ nl
       ++ lit "Content: " ++ chunk_text chunk ++ nl)
      :: context_parts (i + 1) rest
  end.

Definition _build_context_block (chunks : list SourceChunk) : str :=
  PyStr.join nl (context_parts 1 chunks).

Definition INSUFFICIENT_CONTEXT : str := lit "INSUFFICIENT_CONTEXT".

Definition grounded_messages (query : str) (chunks : list SourceChunk)
    : list message :=
  let context_block := _build_context_block chunks in
  [ SystemMessage GROUNDED_SYSTEM_PROMPT;
    HumanMessage (lit "Context chunks:" ++ nl ++ context_block ++ nl ++ nl
                  ++ lit "User query: " ++ query) ].

Definition general_messages (query : str) : list message :=
  [ SystemMessage GENERAL_PROFESSIONAL_PROMPT; HumanMessage query ].

(** Returns [(answer_text, is_sufficient)]. *)
Definition generate_grounded_answer (query : str) (chunks : list SourceChunk)
    : M (str * bool) :=
  llm <~ get_llm (model settings) 1024 0.1%float ;;
  let messages := grounded_messages query chunks in
  response <~ invoke llm messages ;;
  let answer := PyStr.strip response in
  if bool_decide (answer = INSUFFICIENT_CONTEXT) then
    ret (answer, false)
  else
    ret (answer, true).

Definition generate_general_answer (query : str) : M str :=
  llm <~ get_llm (model settings) 512 0.3%float ;;
  let messages := general_messages query in
  response <~ invoke llm messages ;;
  ret (PyStr.strip response).

(** The streaming generators: [body] is run on every token they yield. *)
Definition stream_grounded_answer {A} (query : str)
    (chunks : list SourceChunk) (body : A → str → M A) (acc : A) : M A :=
  llm <~ get_llm (model settings) 1024 0.1%float ;;
  let messages := grounded_messages query chunks in
  d <~ astream llm messages ;;
  astream_for (fst d) (snd d) body acc.

Definition stream_general_answer {A} (query : str)
    (body : A → str → M A) (acc : A) : M A :=
  llm <~ get_llm (model settings) 512 0.3%float ;;
  let messages := general_messages query in
  d <~ astream llm messages ;;
  astream_for (fst d) (snd d) body acc.

End Generator.

(** ** Intent classification ([backend/pipeline/intent_classifier.py]) *)

Section IntentClassifier.

Context {env : Env}.

(** The values the [intent] field of an [IntentResult] admits. *)
Definition INTENTS : list str :=
  [ lit "assigned_knowledge"; lit "performance_history"; lit "combined";
    lit "general_professional"; lit "out_of_scope" ].

(** Removal of a markdown fence around the model's output. The index
    [[1]] into the pieces of the split raises when there is no second
    piece; [None] stands for that. *)
Definition strip_fences (content : str) : option str :=
  let raw := PyStr.strip content in
  raw ←
    (if PyStr.startswith raw (lit "```") then
       raw ← PyStr.split_on raw (lit "```") !! 1%nat;
       Some (if PyStr.startswith raw (lit "json") then drop 4 raw else raw)
     else Some raw);
  Some (PyStr.strip raw).

(** [d[key]] and [d.get(key, default)] on a decoded value; only a
    dictionary supports them. *)
Fixpoint assoc (key : str) (items : list (str * json)) : option json :=
  match items with
  | [] => None
  | (k, v) :: rest => if bool_decide (k = key) then Some v else assoc key rest
  end.

Definition getitem (parsed : json) (key : str) : option json :=
  match parsed with
  | JDict items => assoc key items
  | _ => None
  end.

Definition dict_get (parsed : json) (key : str) (dflt : json) : option json :=
  match parsed with
  | JDict items => Some (default dflt (assoc key items))
  | _ => None
  end.

(** The body of the [try]: decoding, field access, conversion and the
    validation of the [IntentResult] model; [None] when any of them
    raises. *)
Definition parse_intent_result (raw : str) : option IntentResult :=
  parsed ← json_loads raw;
  intent_value ← getitem parsed (lit "intent");
  confidence_value ← dict_get parsed (lit "confidence") (JFloat 0.9%float);
  confidence ← py_float confidence_value;
  reasoning_value ← dict_get parsed (lit "reasoning") (JStr (lit ""));
  match intent_value, reasoning_value with
  | JStr intent, JStr reasoning =>
      if bool_decide (intent ∈ INTENTS) then
        Some {| intent := intent; confidence := confidence;
                reasoning := reasoning |}
      else None
  | _, _ => None
  end.

Definition classification_default : IntentResult :=
  {| intent := lit "assigned_knowledge";
     confidence := 0.5%float;
     reasoning := lit "Classification failed, defaulting to knowledge search." |}.

Definition classifier_messages (query : str) : list message :=
  [ SystemMessage INTENT_SYSTEM_PROMPT;
    HumanMessage (few_shot_examples ++ nl ++ lit "Query: " ++ query) ].

Definition classify_intent (query : str) : M IntentResult :=
  llm <~ get_llm (model settings) 256 0%float ;;
  let messages := classifier_messages query in
  response <~ invoke llm messages ;;
  match strip_fences response with
  | None => raise (Exception (lit "list index out of range"))
  | Some raw =>
      match parse_intent_result raw with
      | Some r => ret r
      | None => ret classification_default
      end
  end.

End IntentClassifier.

(** ** Recommendations ([backend/pipeline/recommender.py]) *)

Section Recommender.

Context {env : Env}.

Definition STATUS_PRIORITY : gmap str Z :=
  list_to_map [ (lit "in-progress", 0); (lit "in_progress", 0);
                (lit "assigned", 1); (lit "completed", 2) ].

Definition _status_rank (status : str) : Z :=
  default 3 (STATUS_PRIORITY !! str_lower status).

Definition _query_relevance_score (query play_title : str) : Z :=
  let query_words : gset str := list_to_set (PyStr.split (str_lower query)) in
  let title_words : gset str := list_to_set (PyStr.split (str_lower play_title)) in
  Z.of_nat (size (query_words ∩ title_words)).

(** [list.sort(key=...)]: a stable sort; [le] compares two keys. *)
Fixpoint insert_by {A K} (le : K → K → bool) (key : A → K) (x : A)
    (l : list A) : list A :=
  match l with
  | [] => [x]
  | y :: l' =>
      if le (key x) (key y) then x :: l else y :: insert_by le key x l'
  end.

Definition sort_by_key {A K} (le : K → K → bool) (key : A → K)
    (l : list A) : list A :=
  foldr (insert_by le key) [] l.

(** Order of pairs of integers, as Python compares tuples. *)
Definition tuple_le (a b : Z * Z) : bool :=
  (a.1 <? b.1) || (a.1 =? b.1) && (a.2 <=? b.2).

Definition reason_for (relevance : Z) (ap : AssignedPlay) : str :=
  if 0 <? relevance then
    lit "'" ++ ap_play_title ap ++ lit "' covers content related to your query."
  else if bool_decide (ap_status ap ∈ [lit "in_progress"; lit "in-progress"]) then
    lit "You are currently working through '" ++ ap_play_title ap
    ++ lit "'. Continue where you left off."
  else if bool_decide (ap_status ap = lit "assigned") then
    lit "'" ++ ap_play_title ap
    ++ lit "' has been assigned to you and is ready to start."
  else
    lit "You've completed '" ++ ap_play_title ap
    ++ lit "'. Review it to reinforce your knowledge.".

Definition recommendation_for (store : DataStore) (query : option str)
    (ap : AssignedPlay) : Recommendation :=
  let reps := get_reps_for_play store (ap_play_id ap) in
  let next_rep :=
    match find (λ rep, bool_decide (prompt_type rep = lit "watch")) reps with
    | Some rep => Some rep
    | None => head reps
    end in
  let relevance := _query_relevance_score (default (lit "") query)
                                          (ap_play_title ap) in
  {| rec_play_id := ap_play_id ap;
     rec_play_title := ap_play_title ap;
     rec_rep_id := rep_id <$> next_rep;
     rec_rep_title := prompt_title <$> next_rep;
     rec_status := ap_status ap;
     rec_reason := reason_for relevance ap |}.

Definition get_recommendations (user_context : UserContext)
    (retrieved_play_ids : gset str) (store : DataStore) (max_recs : nat)
    (query : option str) : list Recommendation :=
  let candidates :=
    filter (λ ap, ap_play_id ap ∉ retrieved_play_ids)
           (assigned_plays user_context) in
  let candidates :=
    match query with
    | Some q =>
        if bool_decide (q = []) then
          sort_by_key Z.leb (λ ap, _status_rank (ap_status ap)) candidates
        else
          sort_by_key tuple_le
            (λ ap, (- _query_relevance_score q (ap_play_title ap),
                    _status_rank (ap_status ap)))
            candidates
    | None =>
        sort_by_key Z.leb (λ ap, _status_rank (ap_status ap)) candidates
    end in
  map (recommendation_for store query) (take max_recs candidates).

End Recommender.

(** ** Orchestration ([backend/pipeline/orchestrator.py]) *)

Section Orchestrator.

Context {env : Env}.

Definition OUT_OF_SCOPE_ANSWER : str :=
  lit "I am a specialized search engine for your assigned BigSpring materials. "
  ++ lit "I cannot assist with queries outside of your professional scope.".

Definition TIER3_ANSWER : str :=
  lit "I couldn't find any specific information in your assigned training materials that "
  ++ lit "addresses this query. This may be because the topic isn't covered in your current "
  ++ lit "plays, or your query may be too specific. Try rephrasing your question or explore "
  ++ lit "the recommendations below.".

(** Format a dictionary as a single event. *)
Definition _sse (data : sse_data) : str :=
  lit "data: " ++ json_dumps data ++ nl ++ nl.

(** The update is made in place on the classifier's result. *)
Definition _apply_mode (intent_result : IntentResult) (mode : option str)
    : IntentResult :=
  if bool_decide (mode = Some (lit "knowledge")) then
    {| intent := lit "assigned_knowledge";
       confidence := confidence intent_result;
       reasoning := reasoning intent_result |}
  else if bool_decide (mode = Some (lit "performance")) then
    {| intent := lit "performance_history";
       confidence := confidence intent_result;
       reasoning := reasoning intent_result |}
  else intent_result.

(** [{c.play_id for c in chunks if c.play_id}] *)
Definition _play_id_set_from_chunks (chunks : list SourceChunk) : gset str :=
  list_to_set
    (omap (λ c, if truthy_str (play_id c) then play_id c else None) chunks).

(** The call [get_recommendations(user_context, ids, self._store,
    query=query)], recorded with the set it is given. *)
Definition recommend (user_context : UserContext)
    (retrieved_play_ids : gset str) (query : str) : M (list Recommendation) :=
  _ <~ log (Recommend retrieved_play_ids) ;;
  ret (get_recommendations user_context retrieved_play_ids store 3 (Some query)).

Definition run (query : str) (mode : option str) (user_context : UserContext)
    : M SearchResponse :=
  intent_result <~ classify_intent query ;;
  let intent_result := _apply_mode intent_result mode in
  if bool_decide (intent intent_result = lit "out_of_scope") then
    ret {| sr_intent := intent_result; response_tier := tier1;
           answer := OUT_OF_SCOPE_ANSWER; sources := [];
           recommendations := [] |}
  else if bool_decide (intent intent_result = lit "general_professional") then
    answer <~ generate_general_answer query ;;
    recommendations <~ recommend user_context ∅ query ;;
    ret {| sr_intent := intent_result; response_tier := tier2;
           answer := answer; sources := [];
           recommendations := recommendations |}
  else
    chunks <~ retrieve_chunks query user_context (intent intent_result) ;;
    if bool_decide (chunks = []) then
      recommendations <~ recommend user_context ∅ query ;;
      ret {| sr_intent := intent_result; response_tier := tier3;
             answer := TIER3_ANSWER; sources := [];
             recommendations := recommendations |}
    else
      generated <~ generate_grounded_answer query chunks ;;
      let '(answer, is_sufficient) := generated in
      if negb is_sufficient then
        recommendations <~ recommend user_context ∅ query ;;
        ret {| sr_intent := intent_result; response_tier := tier3;
               answer := TIER3_ANSWER; sources := [];
               recommendations := recommendations |}
      else
        let play_id_set := _play_id_set_from_chunks chunks in
        recommendations <~ recommend user_context play_id_set query ;;
        ret {| sr_intent := intent_result; response_tier := grounded;
               answer := answer; sources := chunks;
               recommendations := recommendations |}.

(** [yield _sse(data)] *)
Definition yield_sse (data : sse_data) : M unit := log (Yield (_sse data)).

(** [for token in token_buffer: yield _sse(chunk)] *)
Fixpoint yield_tokens (token_buffer : list str) : M unit :=
  match token_buffer with
  | [] => ret tt
  | token :: rest =>
      _ <~ yield_sse (ChunkEvent token) ;;
      yield_tokens rest
  end.

Definition run_stream (query : str) (mode : option str)
    (user_context : UserContext) : M unit :=
  try_except
    (intent_result <~ classify_intent query ;;
     let intent_result := _apply_mode intent_result mode in
     if bool_decide (intent intent_result = lit "out_of_scope") then
       _ <~ yield_sse (MetaEvent intent_result tier1 [] []) ;;
       _ <~ yield_sse (ChunkEvent OUT_OF_SCOPE_ANSWER) ;;
       yield_sse (DoneEvent false)
     else if bool_decide (intent intent_result = lit "general_professional") then
       recommendations <~ recommend user_context ∅ query ;;
       _ <~ yield_sse (MetaEvent intent_result tier2 [] recommendations) ;;
       _ <~ stream_general_answer query
              (λ _ token, yield_sse (ChunkEvent token)) tt ;;
       yield_sse (DoneEvent false)
     else
       chunks <~ retrieve_chunks query user_context (intent intent_result) ;;
       if bool_decide (chunks = []) then
         recommendations <~ recommend user_context ∅ query ;;
         _ <~ yield_sse (MetaEvent intent_result tier3 [] recommendations) ;;
         _ <~ yield_sse (ChunkEvent TIER3_ANSWER) ;;
         yield_sse (DoneEvent false)
       else
         let play_id_set := _play_id_set_from_chunks chunks in
         recommendations <~ recommend user_context play_id_set query ;;
         _ <~ yield_sse (MetaEvent intent_result grounded chunks recommendations) ;;
         token_buffer <~ stream_grounded_answer query chunks
                           (λ token_buffer token, ret (token_buffer ++ [token]))
                           [] ;;
         let accumulated := concat token_buffer in
         let is_insufficient :=
           bool_decide (PyStr.strip accumulated = INSUFFICIENT_CONTEXT) in
         _ <~ (if is_insufficient then yield_sse (ChunkEvent TIER3_ANSWER)
               else yield_tokens token_buffer) ;;
         yield_sse (DoneEvent is_insufficient))
    (λ exc, yield_sse (ErrorEvent (exn_message exc))).

End Orchestrator.

(** ** Observations on traces *)

(** The exclusion sets the recommender was called with, in order. *)
Definition recommender_calls (t : list action) : list (gset str) :=
  omap (λ a, match a with Recommend ids => Some ids | _ => None end) t.

(** The provider calls of a trace. *)
Definition is_provider_call (a : action) : bool :=
  match a with
  | EmbeddingsCreate _ _ _ | IndexQuery _ _ _ _
  | LLMInvoke _ _ | LLMStream _ _ => true
  | _ => false
  end.

(** The event strings handed to the client, in order. *)
Definition emitted (t : list action) : list str :=
  omap (λ a, match a with Yield event => Some event | _ => None end) t.

(** A computation is quiet when, whatever its outcome, it only appends
    provider calls to the trace: it neither calls the recommender nor
    hands an event to the client. *)
Definition quiet {env : Env} {A} (m : M A) : Prop :=
  ∀ s r s', m s = (r, s') →
    ∃ t, trace s' = trace s ++ t ∧ forallb is_provider_call t = true.

(** The state after one more action. *)
Definition logged {env : Env} (s : state) (a : action) : state :=
  {| world := world s; trace := trace s ++ [a] |}.

(** The five ways in which [run] returns a response: the classifier
    answers, the mode is applied, and then the request is refused (tier1),
    answered from general knowledge (tier2), found without material
    (tier3, after an empty retrieval or an insufficient generation) or
    answered from the retrieved chunks (grounded). *)
Inductive run_path {env : Env} (query : str) (mode : option str)
    (ctx : UserContext) (s : state) : SearchResponse → state → Prop :=
| path_tier1 ir s1 :
    classify_intent query s = (Ok ir, s1) →
    intent (_apply_mode ir mode) = lit "out_of_scope" →
    run_path query mode ctx s
      {| sr_intent := _apply_mode ir mode; response_tier := tier1;
         answer := OUT_OF_SCOPE_ANSWER; sources := []; recommendations := [] |}
      s1
| path_tier2 ir s1 text s2 :
    classify_intent query s = (Ok ir, s1) →
    intent (_apply_mode ir mode) ≠ lit "out_of_scope" →
    intent (_apply_mode ir mode) = lit "general_professional" →
    generate_general_answer query s1 = (Ok text, s2) →
    run_path query mode ctx s
      {| sr_intent := _apply_mode ir mode; response_tier := tier2;
         answer := text; sources := [];
         recommendations := get_recommendations ctx ∅ store 3 (Some query) |}
      (logged s2 (Recommend ∅))
| path_tier3_empty ir s1 s2 :
    classify_intent query s = (Ok ir, s1) →
    intent (_apply_mode ir mode) ≠ lit "out_of_scope" →
    intent (_apply_mode ir mode) ≠ lit "general_professional" →
    retrieve_chunks query ctx (intent (_apply_mode ir mode)) s1 = (Ok [], s2) →
    run_path query mode ctx s
      {| sr_intent := _apply_mode ir mode; response_tier := tier3;
         answer := TIER3_ANSWER; sources := [];
         recommendations := get_recommendations ctx ∅ store 3 (Some query) |}
      (logged s2 (Recommend ∅))
| path_tier3_insufficient ir s1 chunks s2 text s3 :
    classify_intent query s = (Ok ir, s1) →
    intent (_apply_mode ir mode) ≠ lit "out_of_scope" →
    intent (_apply_mode ir mode) ≠ lit "general_professional" →
    retrieve_chunks query ctx (intent (_apply_mode ir mode)) s1
    = (Ok chunks, s2) →
    chunks ≠ [] →
    generate_grounded_answer query chunks s2 = (Ok (text, false), s3) →
    run_path query mode ctx s
      {| sr_intent := _apply_mode ir mode; response_tier := tier3;
         answer := TIER3_ANSWER; sources := [];
         recommendations := get_recommendations ctx ∅ store 3 (Some query) |}
      (logged s3 (Recommend ∅))
| path_grounded ir s1 chunks s2 text s3 :
    classify_intent query s = (Ok ir, s1) →
    intent (_apply_mode ir mode) ≠ lit "out_of_scope" →
    intent (_apply_mode ir mode) ≠ lit "general_professional" →
    retrieve_chunks query ctx (intent (_apply_mode ir mode)) s1
    = (Ok chunks, s2) →
    chunks ≠ [] →
    generate_grounded_answer query chunks s2 = (Ok (text, true), s3) →
    run_path query mode ctx s
      {| sr_intent := _apply_mode ir mode; response_tier := grounded;
         answer := text; sources := chunks;
         recommendations :=
           get_recommendations ctx (_play_id_set_from_chunks chunks) store 3
             (Some query) |}
      (logged s3 (Recommend (_play_id_set_from_chunks chunks))).

(** The play ids of a chunk list that are not null, as a set. *)
Definition non_null_play_ids (chunks : list SourceChunk) : gset str :=
  list_to_set (omap play_id chunks).

(** ** Test doubles

    A small environment in the manner of the repository's tests: one
    company, one assigned play, an index that answers with three scored
    matches, and a chat model whose replies are given. The world counts the
    provider calls. [json_loads] is defined on the two documents used,
    [{"intent": "combined"}] and [{}]; [str_lower] covers the ASCII
    letters. *)
Module Fixtures.

Definition make_ctx (company user : string) (play_ids : list string)
    : UserContext :=
  {| user_id := lit user;
     username := lit "testuser";
     display_name := lit "Test User";
     company_id := lit company;
     company_name := lit "Test Co";
     assigned_plays :=
       map (λ pid, {| ap_play_id := lit pid;
                      ap_play_title := lit "Play " ++ lit pid;
                      ap_status := lit "assigned";
                      ap_completed_at := None |}) play_ids |}.

Definition ctx_veldra : UserContext :=
  make_ctx "comp-veldra-001" "user-test-001" ["play-001"%string].

Definition ctx_aetheris : UserContext :=
  make_ctx "comp-aetheris-002" "user-test-002" ["play-001"%string].

Definition ctx_unassigned : UserContext :=
  make_ctx "comp-veldra-001" "user-test-003" [].

Definition test_settings : Settings :=
  {| anthropic_api_key := lit "sk-ant-test";
     openai_api_key := lit "sk-test";
     google_api_key := lit "";
     pinecone_api_key := lit "pc-test";
     pinecone_index_name := lit "search-agent-index";
     model := lit "gpt-4o-mini";
     embedding_model := lit "text-embedding-3-large";
     embedding_dimensions := 3072;
     pinecone_top_k := 6;
     similarity_threshold := 0.35%float |}.

Definition knowledge_meta (asset play_id : string) (page : Z) : metadata :=
  {| str_fields :=
       list_to_map
         [ (lit "company_id", lit "comp-veldra-001");
           (lit "content_type", lit "knowledge");
           (lit "asset_id", lit asset);
           (lit "asset_type", lit "pdf");
           (lit "play_id", lit play_id);
           (lit "play_title", lit "GridMaster Basics");
           (lit "rep_title", lit "Overview");
           (lit "chunk_text", lit "GridMaster is a grid controller.") ];
     int_fields := list_to_map [ (lit "page_number", page) ] |}.

Definition test_matches : list scored_match :=
  [ MatchObject 0.6%float (knowledge_meta "asset-001" "play-001" 3);
    MatchObject 0.2%float (knowledge_meta "asset-002" "play-001" 4);
    MatchDict (Some 0.4%float) (Some (knowledge_meta "asset-003" "play-001" 7)) ].

Definition ascii_lower (s : str) : str :=
  map (λ c, if ((65 <=? c) && (c <=? 90))%N then (c + 32)%N else c) s.

Definition dq : str := [34%N].

Definition doc_combined : str :=
  lit "{" ++ dq ++ lit "intent" ++ dq ++ lit ": " ++ dq ++ lit "combined"
  ++ dq ++ lit "}".

Definition test_json_loads (raw : str) : option json :=
  if bool_decide (raw = doc_combined) then
    Some (JDict [ (lit "intent", JStr (lit "combined")) ])
  else if bool_decide (raw = lit "{}") then Some (JDict [])
  else None.

Definition test_py_float (v : json) : option float :=
  match v with
  | JFloat f => Some f
  | _ => None
  end.

Definition test_json_dumps (data : sse_data) : str :=
  match data with
  | MetaEvent i t srcs recs =>
      lit "{meta " ++ intent i ++ lit " "
      ++ match t with
         | tier1 => lit "tier1" | tier2 => lit "tier2"
         | tier3 => lit "tier3" | grounded => lit "grounded"
         end
      ++ lit " " ++ PyStr.of_int (Z.of_nat (length srcs))
      ++ lit " " ++ PyStr.of_int (Z.of_nat (length recs)) ++ lit "}"
  | ChunkEvent c => lit "{chunk " ++ c ++ lit "}"
  | DoneEvent b => if b then lit "{done true}" else lit "{done false}"
  | ErrorEvent m => lit "{error " ++ m ++ lit "}"
  end.

(** The chat model answers [classifier_reply] to the classifier (which
    asks for 256 tokens) and [answer_reply] to the generators; a
    streaming call delivers [deliveries]. *)
Definition test_env (classifier_reply answer_reply : str)
    (deliveries : list str) : Env :=
  {| World := nat;
     settings := test_settings;
     store := {| _reps := [] |};
     langchain_google_genai_installed := false;
     embeddings_create := λ _ _ _ _ w, (Ok [0.25%float; 0.5%float], S w);
     index_query := λ _ _ _ _ _ w, (Ok (Some test_matches), S w);
     llm_invoke := λ llm _ w,
       (Ok (if cm_max_tokens llm =? 256 then classifier_reply
            else answer_reply), S w);
     llm_astream := λ _ _ w, ((deliveries, None), S w);
     json_loads := test_json_loads;
     py_float := test_py_float;
     str_lower := ascii_lower;
     json_dumps := test_json_dumps;
     GROUNDED_SYSTEM_PROMPT := lit "Answer ONLY from the provided context.";
     GENERAL_PROFESSIONAL_PROMPT := lit "You are a professional sales training coach.";
     INTENT_SYSTEM_PROMPT := lit "You are an intent classifier.";
     few_shot_examples := lit "Now classify this query:" |}.

(** The classifier's output is not JSON; the generator answers. *)
Definition env_answering : Env :=
  test_env (lit "I cannot classify this.")
           (lit " GridMaster is a grid controller. ")
           [lit "GridMaster is "; lit ""; lit "a grid controller."].

(** The classifier's output is not JSON; the generator finds the
    context insufficient. *)
Definition env_sentinel : Env :=
  test_env (lit "I cannot classify this.")
           (lit "  INSUFFICIENT_CONTEXT  ")
           [lit "INSUFFICIENT"; lit ""; lit "_CONTEXT"; [10%N]].

(** The state before a request: no call made, nothing observed. *)
Definition start_answering : @state env_answering :=
  {| world := 0%nat : @World env_answering; trace := [] |}.

Definition start_sentinel : @state env_sentinel :=
  {| world := 0%nat : @World env_sentinel; trace := [] |}.

(** The classifier's output is the document [{"intent": "combined"}]
    inside a markdown fence. *)
Definition fenced_combined : str :=
  lit "```json" ++ [10%N] ++ doc_combined ++ [10%N] ++ lit "```".

Definition env_combined : Env :=
  test_env fenced_combined (lit "You scored 8/10 on the pitch.") [].

Definition start_combined : @state env_combined :=
  {| world := 0%nat : @World env_combined; trace := [] |}.

Definition test_chunk (play : option str) : SourceChunk :=
  {| asset_id := lit "asset-001"; asset_type := lit "pdf";
     play_id := play; play_title := lit "Test Play";
     rep_title := lit "Test Rep"; chunk_text := lit "some content";
     page_number := None; timestamp_start := None; timestamp_end := None;
     score := None; section_id := None; heading := None;
     feedback_score := None |}.

Definition chunk_with_empty_play_id : SourceChunk :=
  {| asset_id := lit "asset-001"; asset_type := lit "pdf";
     play_id := Some (lit ""); play_title := lit "Test Play";
     rep_title := lit "Test Rep"; chunk_text := lit "some content";
     page_number := None; timestamp_start := None; timestamp_end := None;
     score := None; section_id := None; heading := None;
     feedback_score := None |}.

Definition query_gridmaster : str := lit "What is GridMaster?".

End Fixtures.

(** ** Further observations on traces *)

(** The filters the index was queried with, in order. *)
Definition index_filters (t : list action) : list filter_expr :=
  omap (λ a, match a with IndexQuery _ _ _ flt => Some flt | _ => None end) t.

(** The provider calls of a trace, in order. *)
Definition provider_calls (t : list action) : list action :=
  filter (λ a, is_provider_call a = true) t.

(** A filter is fenced to a company when it is an [$and] whose first
    conjunct asks for that company id. *)
Definition fenced (company : str) (f : filter_expr) : Prop :=
  ∃ rest, f = FAnd (FEq (lit "company_id") company :: rest).

(** An action is fenced when it is not an index query or its filter is. *)
Definition fenced_action (company : str) (a : action) : Prop :=
  match a with
  | IndexQuery _ _ _ flt => fenced company flt
  | _ => True
  end.

(** A computation appends only actions with the property [P], whatever
    its outcome. *)
Definition appends {env : Env} {A} (P : action → Prop) (m : M A) : Prop :=
  ∀ s r s', m s = (r, s') → ∃ t, trace s' = trace s ++ t ∧ Forall P t.

(** A string is trimmed when neither its first nor its last code point is
    whitespace. *)
Definition trimmed (x : str) : Prop :=
  (∀ c x', x = c :: x' → PyStr.isspace c = false)
  ∧ (∀ x' c, x = x' ++ [c] → PyStr.isspace c = false).

Definition all_space (l : str) : Prop :=
  Forall (λ c, PyStr.isspace c = true) l.

(** ** The order of recommendations *)

(** The sort key of a recommendation, read from its title and status:
    with a non-empty query the pair of the negated relevance and the
    status rank, otherwise the status rank alone (paired with 0). *)
Definition recommendation_key {env : Env} (query : option str)
    (r : Recommendation) : Z * Z :=
  match query with
  | Some q =>
      if bool_decide (q = []) then (0, _status_rank (rec_status r))
      else (- _query_relevance_score q (rec_play_title r),
            _status_rank (rec_status r))
  | None => (0, _status_rank (rec_status r))
  end.

(** The assigned plays that are not excluded, in assignment order. *)
Definition candidates_of (ctx : UserContext) (excluded : gset str)
    : list AssignedPlay :=
  filter (λ ap, ap_play_id ap ∉ excluded) (assigned_plays ctx).

(** The candidates in the order in which they are recommended. *)
Definition sorted_candidates {env : Env} (ctx : UserContext)
    (excluded : gset str) (query : option str) : list AssignedPlay :=
  match query with
  | Some q =>
      if bool_decide (q = []) then
        sort_by_key Z.leb (λ ap, _status_rank (ap_status ap))
          (candidates_of ctx excluded)
      else
        sort_by_key tuple_le
          (λ ap, (- _query_relevance_score q (ap_play_title ap),
                  _status_rank (ap_status ap)))
          (candidates_of ctx excluded)
  | None =>
      sort_by_key Z.leb (λ ap, _status_rank (ap_status ap))
        (candidates_of ctx excluded)
  end.

(** ** The guarded body of the streaming surface *)

(** What a stream that relays every increment appends: each increment is
    delivered and, unless it is empty, handed on at once. *)
Definition relayed {env : Env} (texts : list str) : list action :=
  flat_map
    (λ text, Delivered text
             :: (if bool_decide (text = []) then []
                 else [Yield (_sse (ChunkEvent text))]))
    texts.

(** The body of the [try] of [run_stream]. *)
Definition stream_body {env : Env} (query : str) (mode : option str)
    (user_context : UserContext) : M unit :=
  intent_result <~ classify_intent query ;;
  let intent_result := _apply_mode intent_result mode in
  if bool_decide (intent intent_result = lit "out_of_scope") then
    _ <~ yield_sse (MetaEvent intent_result tier1 [] []) ;;
    _ <~ yield_sse (ChunkEvent OUT_OF_SCOPE_ANSWER) ;;
    yield_sse (DoneEvent false)
  else if bool_decide (intent intent_result = lit "general_professional") then
    recommendations <~ recommend user_context ∅ query ;;
    _ <~ yield_sse (MetaEvent intent_result tier2 [] recommendations) ;;
    _ <~ stream_general_answer query
           (λ _ token, yield_sse (ChunkEvent token)) tt ;;
    yield_sse (DoneEvent false)
  else
    chunks <~ retrieve_chunks query user_context (intent intent_result) ;;
    if bool_decide (chunks = []) then
      recommendations <~ recommend user_context ∅ query ;;
      _ <~ yield_sse (MetaEvent intent_result tier3 [] recommendations) ;;
      _ <~ yield_sse (ChunkEvent TIER3_ANSWER) ;;
      yield_sse (DoneEvent false)
    else
      let play_id_set := _play_id_set_from_chunks chunks in
      recommendations <~ recommend user_context play_id_set query ;;
      _ <~ yield_sse (MetaEvent intent_result grounded chunks recommendations) ;;
      token_buffer <~ stream_grounded_answer query chunks
                        (λ token_buffer token, ret (token_buffer ++ [token]))
                        [] ;;
      let accumulated := concat token_buffer in
      let is_insufficient :=
        bool_decide (PyStr.strip accumulated = INSUFFICIENT_CONTEXT) in
      _ <~ (if is_insufficient then yield_sse (ChunkEvent TIER3_ANSWER)
            else yield_tokens token_buffer) ;;
      yield_sse (DoneEvent is_insufficient).


(** ** Index metadata ([backend/ingestion/metadata_builder.py]) *)

(** The values a chunk dictionary and a metadata dictionary hold. *)
Inductive pyval :=
| PyNone
| PyBool (b : bool)
| PyInt (n : Z)
| PyFloat (f : float)
| PyStr (s : str).

#[global] Instance pyval_is_none_dec (v : pyval) : Decision (v = PyNone).
Proof. destruct v; (by left) || (right; discriminate). Defined.

(** Truth value of a Python value. *)
Definition truthy (v : pyval) : bool :=
  match v with
  | PyNone => false
  | PyBool b => b
  | PyInt n => negb (n =? 0)
  | PyFloat f => negb (PrimFloat.eqb f 0%float)
  | PyStr s => negb (bool_decide (s = []))
  end.

(** [d.get(key)] and [d.get(key, default)] *)
Definition py_get (d : gmap str pyval) (key : string) : pyval :=
  default PyNone (d !! lit key).

Definition py_get_default (d : gmap str pyval) (key : string) (dflt : pyval)
    : pyval :=
  default dflt (d !! lit key).

(** [v or ""] *)
Definition or_empty (v : pyval) : pyval :=
  if truthy v then v else PyStr (lit "").

(** [v[:n]]: a string gives its first [n] code points; the other values
    here cannot be sliced. *)
Definition py_slice (v : pyval) (n : nat) : result pyval :=
  match v with
  | PyStr s => Ok (PyStr (take n s))
  | _ => Raised (Exception (lit "object is not subscriptable"))
  end.

(** [d[key]] *)
Definition py_getitem (d : gmap str pyval) (key : string) : result pyval :=
  match d !! lit key with
  | Some v => Ok v
  | None => Raised (Exception (lit "'" ++ lit key ++ lit "'"))
  end.

(** Pinecone rejects null metadata values: remove any key whose value is
    [None]. *)
Definition _strip_none (d : gmap str pyval) : gmap str pyval :=
  filter (λ kv, kv.2 ≠ PyNone) d.

(** The evaluation of a dictionary display whose entries may raise. *)
Definition result_bind {A B} (r : result A) (k : A → result B) : result B :=
  match r with
  | Ok a => k a
  | Raised e => Raised e
  end.

Definition build_knowledge_metadata (chunk : gmap str pyval)
    (company_id asset_id play_id : str) (rep_id : option str)
    (asset_type play_title rep_title company_name : str)
    : result (gmap str pyval) :=
  result_bind (result_bind (py_getitem chunk "chunk_text")
                 (λ v, py_slice v 2000)) (λ chunk_text,
  result_bind (py_getitem chunk "chunk_index") (λ chunk_index,
  Ok (_strip_none (list_to_map
    [ (lit "company_id", PyStr company_id);
      (lit "content_type", PyStr (lit "knowledge"));
      (lit "asset_id", PyStr asset_id);
      (lit "play_id", PyStr play_id);
      (lit "rep_id", PyStr (default (lit "") rep_id));
      (lit "asset_type", PyStr asset_type);
      (lit "page_number", py_get chunk "page_number");
      (lit "timestamp_start", py_get chunk "timestamp_start");
      (lit "timestamp_end", py_get chunk "timestamp_end");
      (lit "section_id", or_empty (py_get chunk "section_id"));
      (lit "heading", or_empty (py_get chunk "heading"));
      (lit "play_title", PyStr play_title);
      (lit "rep_title", PyStr rep_title);
      (lit "company_name", PyStr company_name);
      (lit "chunk_text", chunk_text);
      (lit "chunk_index", chunk_index) ])))).

Definition build_submission_metadata (chunk : gmap str pyval)
    (company_id asset_id play_id rep_id user_id submission_id : str)
    (asset_type play_title rep_title company_name : str)
    : result (gmap str pyval) :=
  result_bind (result_bind (py_getitem chunk "chunk_text")
                 (λ v, py_slice v 2000)) (λ chunk_text,
  result_bind (py_getitem chunk "chunk_index") (λ chunk_index,
  result_bind (py_slice (or_empty (py_get chunk "feedback_text")) 500)
    (λ feedback_text,
  Ok (_strip_none (list_to_map
    [ (lit "company_id", PyStr company_id);
      (lit "content_type", PyStr (lit "submission"));
      (lit "asset_id", PyStr asset_id);
      (lit "play_id", PyStr play_id);
      (lit "rep_id", PyStr rep_id);
      (lit "user_id", PyStr user_id);
      (lit "submission_id", PyStr submission_id);
      (lit "asset_type", PyStr asset_type);
      (lit "timestamp_start", py_get chunk "timestamp_start");
      (lit "timestamp_end", py_get chunk "timestamp_end");
      (lit "section_id", or_empty (py_get chunk "section_id"));
      (lit "heading", or_empty (py_get chunk "heading"));
      (lit "play_title", PyStr play_title);
      (lit "rep_title", PyStr rep_title);
      (lit "company_name", PyStr company_name);
      (lit "chunk_text", chunk_text);
      (lit "chunk_index", chunk_index);
      (lit "feedback_score", py_get chunk "feedback_score");
      (lit "feedback_text", feedback_text);
      (lit "has_feedback",
       py_get_default chunk "has_feedback" (PyBool false)) ]))))).

(** A stored record as the filters read it: its string values and its
    integer values. *)
Definition to_metadata (d : gmap str pyval) : metadata :=
  {| str_fields := omap (λ v, match v with PyStr s => Some s | _ => None end) d;
     int_fields := omap (λ v, match v with PyInt n => Some n | _ => None end) d |}.

(** ** Identity ([backend/core/data_store.py], [backend/core/user_context.py],
    [backend/core/security.py], [backend/dependencies.py],
    [backend/api/auth.py]) *)

Record User := {
  u_id : str;
  u_username : str;
  u_display_name : str;
  u_role : str;
  u_company_id : str;
  u_is_active : bool;
}.

Record Play := {
  p_id : str;
  p_company_id : str;
  p_title : str;
  p_description : str;
  p_is_active : bool;
}.

Record PlayAssignment := {
  a_id : str;
  a_user_id : str;
  a_play_id : str;
  a_assigned_date : str;
  a_status : str;
  a_completed_at : option str;
}.

(** The tables of the in-memory store that identity reads. [_users] is
    the dictionary's items in insertion order, since the login scans its
    values; [_plays] and [_companies] are only looked up by key. A
    company is the JSON object of the data file, read here for its
    string entries. *)
Record Directory := {
  _users : list (str * User);
  _plays : gmap str Play;
  _companies : gmap str (gmap str str);
  _assignments : list PlayAssignment;
}.

Definition get_user_by_username (dir : Directory) (name : str) : option User :=
  find (λ u, bool_decide (u_username u = name)) (map snd (_users dir)).

Definition get_user (dir : Directory) (uid : str) : option User :=
  snd <$> find (λ kv, bool_decide (kv.1 = uid)) (_users dir).

Definition get_company (dir : Directory) (cid : str) : option (gmap str str) :=
  _companies dir !! cid.

Definition get_play (dir : Directory) (pid : str) : option Play :=
  _plays dir !! pid.

Definition get_assignments_for_user (dir : Directory) (uid : str)
    : list PlayAssignment :=
  filter (λ a, a_user_id a = uid) (_assignments dir).

(** The exceptions of this part and the outcome of a call. *)
Inductive py_error :=
| ValueError (message : str)
| KeyError (key : str).

Inductive outcome (A : Type) :=
| Returned (a : A)
| Failed (e : py_error).
Arguments Returned {A} a.
Arguments Failed {A} e.

(** [company["name"] if company else company_id] *)
Definition company_name_of (company : option (gmap str str)) (cid : str)
    : outcome str :=
  match company with
  | None => Returned cid
  | Some c =>
      if bool_decide (c = ∅) then Returned cid
      else match c !! lit "name" with
           | Some name => Returned name
           | None => Failed (KeyError (lit "name"))
           end
  end.

(** The loop over the assignments; an assignment whose play does not
    exist is skipped (the source logs a warning, which is not part of
    the result). *)
Fixpoint collect_assigned_plays (dir : Directory)
    (assignments : list PlayAssignment) : list AssignedPlay :=
  match assignments with
  | [] => []
  | asgn :: rest =>
      match get_play dir (a_play_id asgn) with
      | None => collect_assigned_plays dir rest
      | Some play =>
          {| ap_play_id := a_play_id asgn;
             ap_play_title := p_title play;
             ap_status := a_status asgn;
             ap_completed_at := a_completed_at asgn |}
          :: collect_assigned_plays dir rest
      end
  end.

Definition build_user_context (uid cid : str) (dir : Directory)
    : outcome UserContext :=
  match get_user dir uid with
  | None => Failed (ValueError (lit "User " ++ uid ++ lit " not found"))
  | Some user =>
      match company_name_of (get_company dir cid) cid with
      | Failed e => Failed e
      | Returned name =>
          Returned
            {| user_id := uid;
               username := u_username user;
               display_name := u_display_name user;
               company_id := cid;
               company_name := name;
               assigned_plays :=
                 collect_assigned_plays dir (get_assignments_for_user dir uid) |}
      end
  end.

(** What a route answers: a value, an [HTTPException], or an exception
    that no handler of the route catches. *)
Inductive response (A : Type) :=
| Answered (a : A)
| HTTPException (status_code : Z) (detail : str)
| Unhandled (e : py_error).
Arguments Answered {A} a.
Arguments HTTPException {A} status_code detail.
Arguments Unhandled {A} e.

Section Security.

(** The token library with the configured key and algorithm: [jwt_encode]
    signs the subject, the company and the two time stamps; [jwt_decode]
    gives the string claims of a token it accepts, and nothing for an
    expired or invalid one. *)
Variable jwt_encode : str → str → Z → Z → str.
Variable jwt_decode : str → option (gmap str str).

(** [now] is the clock reading, in seconds. *)
Definition create_access_token (jwt_expiry_hours : Z) (now : Z)
    (uid cid : str) : str :=
  jwt_encode uid cid (now + jwt_expiry_hours * 3600) now.

Definition verify_access_token (token : str) : option (gmap str str) :=
  jwt_decode token.

Definition get_current_user (token : str) (dir : Directory)
    : response UserContext :=
  match verify_access_token token with
  | None => HTTPException 401 (lit "Invalid or expired token")
  | Some payload =>
      match payload !! lit "sub" with
      | None => Unhandled (KeyError (lit "sub"))
      | Some uid =>
          match payload !! lit "company_id" with
          | None => Unhandled (KeyError (lit "company_id"))
          | Some cid =>
              match build_user_context uid cid dir with
              | Returned ctx => Answered ctx
              | Failed (ValueError _) => HTTPException 401 (lit "User not found")
              | Failed e => Unhandled e
              end
          end
      end
  end.

(** The body of the [/auth/token] route. *)
Definition login (jwt_expiry_hours : Z) (now : Z) (demo_password : str)
    (body_username body_password : str) (dir : Directory) : response str :=
  match get_user_by_username dir body_username with
  | None => HTTPException 401 (lit "Invalid credentials")
  | Some user =>
      if negb (u_is_active user) then
        HTTPException 401 (lit "Invalid credentials")
      else if bool_decide (body_password ≠ demo_password) then
        HTTPException 401 (lit "Invalid credentials")
      else
        Answered (create_access_token jwt_expiry_hours now
                    (u_id user) (u_company_id user))
  end.

End Security.

(** ** Scenarios *)

Module Scenarios.

Import Fixtures.

(** The document [{"intent": "<i>"}]. *)
Definition doc_of (i : str) : str :=
  lit "{" ++ dq ++ lit "intent" ++ dq ++ lit ": " ++ dq ++ i ++ dq ++ lit "}".

Definition scenario_json_loads (raw : str) : option json :=
  (λ i, JDict [ (lit "intent", JStr i) ])
  <$> find (λ i, bool_decide (raw = doc_of i))
        [ lit "assigned_knowledge"; lit "performance_history"; lit "combined";
          lit "general_professional"; lit "out_of_scope" ].

Definition make_rep (id play kind title : string) : Rep :=
  {| rep_id := lit id;
     prompt_text := lit "Watch the video and summarise it.";
     prompt_title := lit title;
     prompt_type := lit kind;
     rep_play_id := lit play;
     rep_company_id := lit "comp-veldra-001";
     rep_asset_id := None |}.

Definition store_with_reps : DataStore :=
  {| _reps := [ make_rep "rep-001" "play-002" "read" "Read the brief";
                make_rep "rep-002" "play-002" "watch" "Watch the demo";
                make_rep "rep-003" "play-003" "practice" "Practise the pitch" ] |}.

(** A user of the first company with two assigned plays; the index only
    holds content of the first. *)
Definition ctx_two_plays : UserContext :=
  make_ctx "comp-veldra-001" "user-test-001"
    ["play-001"%string; "play-002"%string].

(** Every collaborator is given by its answer: the chat model answers
    [classifier_reply] to the classifier (which asks for 256 tokens) and
    [answer_reply] to the generators, and a streaming call delivers
    [deliveries] and then stops or fails. *)
Definition scenario_env (classifier_reply answer_reply : result str)
    (embedding : result (list float))
    (matches : result (option (list scored_match)))
    (deliveries : list str * option exn) : Env :=
  {| World := nat;
     settings := test_settings;
     store := store_with_reps;
     langchain_google_genai_installed := false;
     embeddings_create := λ _ _ _ _ w, (embedding, S w);
     index_query := λ _ _ _ _ _ w, (matches, S w);
     llm_invoke := λ llm _ w,
       (if cm_max_tokens llm =? 256 then classifier_reply else answer_reply,
        S w);
     llm_astream := λ _ _ w, (deliveries, S w);
     json_loads := scenario_json_loads;
     py_float := test_py_float;
     str_lower := ascii_lower;
     json_dumps := test_json_dumps;
     GROUNDED_SYSTEM_PROMPT := lit "Answer ONLY from the provided context.";
     GENERAL_PROFESSIONAL_PROMPT := lit "You are a professional sales training coach.";
     INTENT_SYSTEM_PROMPT := lit "You are an intent classifier.";
     few_shot_examples := lit "Now classify this query:" |}.

(** The classifier finds the query out of scope. *)
Definition env_refusing : Env :=
  scenario_env (Ok (doc_of (lit "out_of_scope"))) (Ok (lit "unused"))
    (Ok [0.25%float]) (Ok (Some test_matches)) ([], None).

(** The classifier finds a general professional question. *)
Definition env_general : Env :=
  scenario_env (Ok (doc_of (lit "general_professional")))
    (Ok (lit " Ask open questions. "))
    (Ok [0.25%float]) (Ok (Some test_matches))
    ([lit "Ask "; lit ""; lit "open questions."], None).

(** The index finds content of the first play; the generator answers. *)
Definition env_grounded : Env :=
  scenario_env (Ok (doc_of (lit "assigned_knowledge")))
    (Ok (lit " GridMaster is a grid controller. "))
    (Ok [0.25%float]) (Ok (Some test_matches))
    ([lit "GridMaster is "; lit "a grid controller."], None).

(** The embedding service is down. *)
Definition embedding_down : exn :=
  Exception (lit "embedding service unavailable").

Definition env_embedding_down : Env :=
  scenario_env (Ok (doc_of (lit "assigned_knowledge"))) (Ok (lit "unused"))
    (Raised embedding_down) (Ok (Some test_matches)) ([], None).

(** The chat model fails in the middle of a streamed answer. *)
Definition connection_reset : exn := Exception (lit "connection reset").

Definition env_stream_fails : Env :=
  scenario_env (Ok (doc_of (lit "assigned_knowledge"))) (Ok (lit "unused"))
    (Ok [0.25%float]) (Ok (Some test_matches))
    ([lit "GridMaster is "], Some connection_reset).

(** The state before a request. *)
Definition start_refusing : @state env_refusing :=
  {| world := 0%nat : @World env_refusing; trace := [] |}.

Definition start_general : @state env_general :=
  {| world := 0%nat : @World env_general; trace := [] |}.

Definition start_grounded : @state env_grounded :=
  {| world := 0%nat : @World env_grounded; trace := [] |}.

Definition start_embedding_down : @state env_embedding_down :=
  {| world := 0%nat : @World env_embedding_down; trace := [] |}.

Definition start_stream_fails : @state env_stream_fails :=
  {| world := 0%nat : @World env_stream_fails; trace := [] |}.

Definition query_weather : str := lit "What is the weather today?".

Definition query_coaching : str := lit "How do I handle objections?".

(** What the runs of the scenarios give. *)
Definition refusing_run : result SearchResponse * @state env_refusing :=
  Eval vm_compute in
    run (env := env_refusing) query_weather (Some (lit "auto")) ctx_veldra
      start_refusing.

Definition general_run : result SearchResponse * @state env_general :=
  Eval vm_compute in
    run (env := env_general) query_coaching None ctx_veldra start_general.

Definition grounded_run : result SearchResponse * @state env_grounded :=
  Eval vm_compute in
    run (env := env_grounded) query_gridmaster (Some (lit "knowledge"))
      ctx_two_plays start_grounded.

Definition sentinel_run : result SearchResponse * @state env_sentinel :=
  Eval vm_compute in
    run (env := env_sentinel) query_gridmaster None ctx_veldra start_sentinel.

Definition grounded_retrieval
    : result (list SourceChunk) * @state env_answering :=
  Eval vm_compute in
    retrieve_chunks (env := env_answering) query_gridmaster ctx_veldra
      (lit "assigned_knowledge") start_answering.

Definition general_classification
    : result IntentResult * @state env_general :=
  Eval vm_compute in
    classify_intent (env := env_general) query_coaching start_general.

Definition failing_classification
    : result IntentResult * @state env_stream_fails :=
  Eval vm_compute in
    classify_intent (env := env_stream_fails) query_gridmaster
      start_stream_fails.

Definition failing_retrieval
    : result (list SourceChunk) * @state env_stream_fails :=
  Eval vm_compute in
    match failing_classification with
    | (_, s1) =>
        retrieve_chunks (env := env_stream_fails) query_gridmaster ctx_veldra
          (lit "assigned_knowledge") s1
    end.

Definition two_plays_recommendations : list Recommendation :=
  Eval vm_compute in
    get_recommendations (env := env_answering) ctx_two_plays
      {[ lit "play-001" ]} store_with_reps 3 (Some query_gridmaster).

(** A chunk of a PDF as the chunker hands it to the metadata builders. *)
Definition pdf_chunk : gmap str pyval :=
  list_to_map
    [ (lit "chunk_text", PyStr (lit "GridMaster is a grid controller."));
      (lit "chunk_index", PyInt 0);
      (lit "page_number", PyInt 3);
      (lit "heading", PyNone) ].

Definition knowledge_record : result (gmap str pyval) :=
  Eval vm_compute in
    build_knowledge_metadata pdf_chunk (lit "comp-veldra-001")
      (lit "asset-001") (lit "play-001") None (lit "pdf")
      (lit "GridMaster Basics") (lit "Overview") (lit "Veldra").

Definition submission_record : result (gmap str pyval) :=
  Eval vm_compute in
    build_submission_metadata pdf_chunk (lit "comp-veldra-001")
      (lit "asset-009") (lit "play-001") (lit "rep-001")
      (lit "user-test-001") (lit "sub-001") (lit "video")
      (lit "GridMaster Basics") (lit "Overview") (lit "Veldra").

(** A store with one company, two users and three assignments, one of
    them to a play that does not exist. *)
Definition make_user (id name company : string) (active : bool) : User :=
  {| u_id := lit id; u_username := lit name;
     u_display_name := lit "Test User"; u_role := lit "learner";
     u_company_id := lit company; u_is_active := active |}.

Definition make_assignment (id user play status : string) : PlayAssignment :=
  {| a_id := lit id; a_user_id := lit user; a_play_id := lit play;
     a_assigned_date := lit "2024-01-01"; a_status := lit status;
     a_completed_at := None |}.

Definition directory : Directory :=
  {| _users :=
       [ (lit "user-001", make_user "user-001" "maya" "comp-veldra-001" true);
         (lit "user-002", make_user "user-002" "omar" "comp-veldra-001" false) ];
     _plays :=
       {[ lit "play-001" :=
            {| p_id := lit "play-001"; p_company_id := lit "comp-veldra-001";
               p_title := lit "GridMaster Basics";
               p_description := lit "Introduction"; p_is_active := true |} ]};
     _companies :=
       {[ lit "comp-veldra-001" := {[ lit "name" := lit "Veldra" ]} ]};
     _assignments :=
       [ make_assignment "asgn-001" "user-001" "play-001" "assigned";
         make_assignment "asgn-002" "user-001" "play-404" "assigned";
         make_assignment "asgn-003" "user-002" "play-001" "completed" ] |}.

(** A token library for the scenarios: a token is the length of the
    subject followed by the subject and the company. *)
Definition mock_jwt_encode (uid cid : str) (exp iat : Z) : str :=
  N.of_nat (length uid) :: uid ++ cid.

Definition mock_jwt_decode (token : str) : option (gmap str str) :=
  match token with
  | [] => None
  | n :: rest =>
      Some {[ lit "sub" := take (N.to_nat n) rest;
              lit "company_id" := drop (N.to_nat n) rest ]}
  end.

Definition maya_token : str :=
  mock_jwt_encode (lit "user-001") (lit "comp-veldra-001") 3600 0.

Definition maya_request : response UserContext :=
  Eval vm_compute in get_current_user mock_jwt_decode maya_token directory.

End Scenarios.

(** * Properties *)
(** ** The filter builder *)

Section FilterBuilder.

Variable ctx : UserContext.

Lemma build_pinecone_filter_cases (intent : str) :
  build_pinecone_filter ctx intent = submission_filter ctx
  ∨ build_pinecone_filter ctx intent = combined_filter ctx
  ∨ build_pinecone_filter ctx intent = knowledge_filter ctx.
Proof.
  unfold build_pinecone_filter.
  repeat case_bool_decide; auto.
Qed.

(** Whatever the intent, a record accepted by the built filter carries
    the company id of the context. *)
Lemma build_pinecone_filter_fenced (intent : str) (meta : metadata) :
  matches_filter meta (build_pinecone_filter ctx intent) = true →
  str_fields meta !! lit "company_id" = Some (company_id ctx).
Proof.
  intros H.
  assert (Hf : matches_filter meta (company_fence ctx) = true).
  { destruct (build_pinecone_filter_cases intent) as [E | [E | E]];
      rewrite E in H; simpl in H;
      apply andb_prop in H; tauto. }
  unfold company_fence in Hf. simpl in Hf.
  destruct (str_fields meta !! lit "company_id") as [v|]; [|discriminate].
  apply bool_decide_eq_true in Hf. by subst.
Qed.

End FilterBuilder.

(** C1. For every user context and every intent string, one of the five
    defined values or any other, the filter returned by
    [build_pinecone_filter] is an [$and] whose first conjunct is
    [company_id = ctx.company_id]. *)
Theorem C1_company_fence_first_conjunct (ctx : UserContext) (intent : str) :
  ∃ rest : list filter_expr,
    build_pinecone_filter ctx intent
    = FAnd (FEq (lit "company_id") (company_id ctx) :: rest).
Proof.
  destruct (build_pinecone_filter_cases ctx intent) as [E | [E | E]];
    rewrite E; eexists; reflexivity.
Qed.

(** C2. For two user contexts with distinct company ids and one intent,
    no record satisfies both built filters; the company constraint of
    each filter rejects a record that carries the other company id. *)
Theorem C2_filters_mutually_exclusive
    (ctx_a ctx_b : UserContext) (intent : str) :
  company_id ctx_a ≠ company_id ctx_b →
  (∀ meta : metadata,
      ¬ (matches_filter meta (build_pinecone_filter ctx_a intent) = true
         ∧ matches_filter meta (build_pinecone_filter ctx_b intent) = true))
  ∧ (∀ meta : metadata,
        str_fields meta !! lit "company_id" = Some (company_id ctx_b) →
        matches_filter meta (company_fence ctx_a) = false
        ∧ matches_filter meta (build_pinecone_filter ctx_a intent) = false)
  ∧ (∀ meta : metadata,
        str_fields meta !! lit "company_id" = Some (company_id ctx_a) →
        matches_filter meta (company_fence ctx_b) = false
        ∧ matches_filter meta (build_pinecone_filter ctx_b intent) = false).
Proof.
  intros Hne.
  assert (Hrej : ∀ c1 c2 meta,
             company_id c1 ≠ company_id c2 →
             str_fields meta !! lit "company_id" = Some (company_id c2) →
             matches_filter meta (company_fence c1) = false
             ∧ matches_filter meta (build_pinecone_filter c1 intent) = false).
  { intros c1 c2 meta Hd Hm. split.
    - unfold company_fence. simpl. rewrite Hm.
      apply bool_decide_eq_false. congruence.
    - destruct (matches_filter meta (build_pinecone_filter c1 intent)) eqn:E;
        [|reflexivity].
      apply build_pinecone_filter_fenced in E. congruence. }
  split; [|split].
  - intros meta [Ha Hb].
    apply build_pinecone_filter_fenced in Ha.
    apply build_pinecone_filter_fenced in Hb.
    congruence.
  - intros meta Hm. by apply (Hrej ctx_a ctx_b).
  - intros meta Hm. by apply (Hrej ctx_b ctx_a).
Qed.

Lemma C2_filters_mutually_exclusive_witness :
  (∀ meta : metadata,
      ¬ (matches_filter meta
           (build_pinecone_filter Fixtures.ctx_veldra (lit "combined")) = true
         ∧ matches_filter meta
             (build_pinecone_filter Fixtures.ctx_aetheris (lit "combined")) = true))
  ∧ (∀ meta : metadata,
        str_fields meta !! lit "company_id"
        = Some (company_id Fixtures.ctx_aetheris) →
        matches_filter meta (company_fence Fixtures.ctx_veldra) = false
        ∧ matches_filter meta
            (build_pinecone_filter Fixtures.ctx_veldra (lit "combined")) = false)
  ∧ (∀ meta : metadata,
        str_fields meta !! lit "company_id"
        = Some (company_id Fixtures.ctx_veldra) →
        matches_filter meta (company_fence Fixtures.ctx_aetheris) = false
        ∧ matches_filter meta
            (build_pinecone_filter Fixtures.ctx_aetheris (lit "combined")) = false).
Proof.
  apply (C2_filters_mutually_exclusive
           Fixtures.ctx_veldra Fixtures.ctx_aetheris (lit "combined")).
  vm_compute. discriminate.
Defined.

(** C3. The shape of the filter depends on the intent alone:
    [performance_history] gives the submission filter, [combined] the
    combined filter, and every other string, known or not, the knowledge
    filter; in each case a record the filter accepts belongs to the
    company of the context. *)
Theorem C3_filter_shape_by_intent (ctx : UserContext) (intent : str) :
  (intent = lit "performance_history" →
     build_pinecone_filter ctx intent
     = FAnd [ FEq (lit "company_id") (company_id ctx);
              FEq (lit "content_type") (lit "submission");
              FEq (lit "user_id") (user_id ctx) ])
  ∧ (intent = lit "combined" →
       build_pinecone_filter ctx intent
       = FAnd [ FEq (lit "company_id") (company_id ctx);
                FOr [ FAnd [ FEq (lit "content_type") (lit "knowledge");
                             FIn (lit "play_id") (assigned_play_ids ctx) ];
                      FAnd [ FEq (lit "content_type") (lit "submission");
                             FEq (lit "user_id") (user_id ctx) ] ] ])
  ∧ (intent ≠ lit "performance_history" → intent ≠ lit "combined" →
       build_pinecone_filter ctx intent
       = FAnd [ FEq (lit "company_id") (company_id ctx);
                FEq (lit "content_type") (lit "knowledge");
                FIn (lit "play_id") (assigned_play_ids ctx) ])
  ∧ (∀ meta : metadata,
        matches_filter meta (build_pinecone_filter ctx intent) = true →
        str_fields meta !! lit "company_id" = Some (company_id ctx)).
Proof.
  unfold build_pinecone_filter.
  split; [|split; [|split]].
  - intros ->. reflexivity.
  - intros ->. reflexivity.
  - intros H1 H2. rewrite !bool_decide_eq_false_2 by assumption. reflexivity.
  - intros meta. apply build_pinecone_filter_fenced.
Qed.

Lemma C3_filter_shape_by_intent_witness :
  build_pinecone_filter Fixtures.ctx_veldra (lit "performance_history")
  = FAnd [ FEq (lit "company_id") (lit "comp-veldra-001");
           FEq (lit "content_type") (lit "submission");
           FEq (lit "user_id") (lit "user-test-001") ]
  ∧ build_pinecone_filter Fixtures.ctx_veldra (lit "combined")
    = FAnd [ FEq (lit "company_id") (lit "comp-veldra-001");
             FOr [ FAnd [ FEq (lit "content_type") (lit "knowledge");
                          FIn (lit "play_id") [lit "play-001"] ];
                   FAnd [ FEq (lit "content_type") (lit "submission");
                          FEq (lit "user_id") (lit "user-test-001") ] ] ]
  ∧ build_pinecone_filter Fixtures.ctx_veldra (lit "no_such_intent")
    = FAnd [ FEq (lit "company_id") (lit "comp-veldra-001");
             FEq (lit "content_type") (lit "knowledge");
             FIn (lit "play_id") [lit "play-001"] ].
Proof.
  split; [|split].
  - apply (C3_filter_shape_by_intent Fixtures.ctx_veldra
             (lit "performance_history")).
    reflexivity.
  - apply (C3_filter_shape_by_intent Fixtures.ctx_veldra (lit "combined")).
    reflexivity.
  - apply (C3_filter_shape_by_intent Fixtures.ctx_veldra (lit "no_such_intent"));
      vm_compute; discriminate.
Defined.

(** ** Computations *)

Section MonadFacts.

Context {env : Env}.

Lemma bind_Ok {A B} (m : M A) (k : A → M B) s b s' :
  bind m k s = (Ok b, s') →
  ∃ a s1, m s = (Ok a, s1) ∧ k a s1 = (Ok b, s').
Proof.
  unfold bind. destruct (m s) as [[a|e] s1]; [eauto | discriminate].
Qed.

Lemma bind_step {A B} (m : M A) (k : A → M B) s a s1 :
  m s = (Ok a, s1) → bind m k s = k a s1.
Proof. unfold bind. by intros ->. Qed.

Lemma bind_raised {A B} (m : M A) (k : A → M B) s e s1 :
  m s = (Raised e, s1) → bind m k s = (Raised e, s1).
Proof. unfold bind. by intros ->. Qed.

(** [get_llm] neither calls a provider nor depends on the state. *)
Lemma get_llm_pure (name : str) (max_tokens : Z) (temperature : float) :
  ∃ r, ∀ s, get_llm name max_tokens temperature s = (r, s).
Proof.
  unfold get_llm.
  repeat match goal with
         | |- context [if ?b then _ else _] => destruct b
         end; eexists; intros; reflexivity.
Qed.

Lemma get_llm_state name max_tokens temperature s r s' :
  get_llm name max_tokens temperature s = (r, s') →
  s' = s ∧ ∀ s2, get_llm name max_tokens temperature s2 = (r, s2).
Proof.
  destruct (get_llm_pure name max_tokens temperature) as [r0 H].
  intros E. rewrite H in E.
  injection E as <- <-. split; [reflexivity|]. intros s2. apply H.
Qed.

End MonadFacts.

(** ** The retriever *)

Section RetrieverFacts.

Context {env : Env}.

Lemma collect_chunks_filter_map (raw_matches : list scored_match)
    (chunks : list SourceChunk) :
  collect_chunks raw_matches chunks
  = chunks ++ map chunk_of_match (filter kept raw_matches).
Proof.
  revert chunks.
  induction raw_matches as [|m rest IH]; intros chunks; simpl.
  - by rewrite app_nil_r.
  - destruct (PrimFloat.ltb (match_score m) (similarity_threshold settings))
      eqn:E.
    + rewrite IH. rewrite filter_cons_False; [reflexivity|].
      unfold kept. rewrite E. discriminate.
    + rewrite IH. rewrite filter_cons_True by exact E.
      simpl. by rewrite <- app_assoc.
Qed.

(** With no assigned play and an intent other than
    [performance_history], nothing is called and nothing is found. *)
Lemma retrieve_chunks_short_circuit query ctx intent s :
  assigned_play_ids ctx = [] →
  intent ≠ lit "performance_history" →
  retrieve_chunks query ctx intent s = (Ok [], s).
Proof.
  intros Hids Hintent. unfold retrieve_chunks.
  rewrite bool_decide_eq_true_2 by assumption.
  rewrite bool_decide_eq_false_2 by assumption.
  reflexivity.
Qed.

Lemma retrieve_chunks_queries query ctx intent s vector w1 results w2 :
  ¬ (assigned_play_ids ctx = [] ∧ intent ≠ lit "performance_history") →
  embeddings_create (openai_api_key settings) (embedding_model settings)
    query (embedding_dimensions settings) (world s) = (Ok vector, w1) →
  index_query (pinecone_api_key settings) (pinecone_index_name settings)
    vector (pinecone_top_k settings) (build_pinecone_filter ctx intent) w1
  = (Ok results, w2) →
  retrieve_chunks query ctx intent s
  = (Ok (map chunk_of_match (filter kept (default [] results))),
     {| world := w2;
        trace := trace s
          ++ [ EmbeddingsCreate (embedding_model settings) query
                 (embedding_dimensions settings);
               IndexQuery (pinecone_index_name settings) vector
                 (pinecone_top_k settings)
                 (build_pinecone_filter ctx intent) ] |}).
Proof.
  intros Hguard Hembed Hquery. unfold retrieve_chunks.
  assert (G : bool_decide (assigned_play_ids ctx = [])
              && negb (bool_decide (intent = lit "performance_history"))
              = false).
  { apply andb_false_iff.
    destruct (decide (assigned_play_ids ctx = [])) as [E|E].
    - right. apply negb_false_iff, bool_decide_eq_true.
      destruct (decide (intent = lit "performance_history")); [done|].
      exfalso. auto.
    - left. by apply bool_decide_eq_false. }
  rewrite G.
  unfold bind, call, ret. rewrite Hembed. simpl. rewrite Hquery. simpl.
  rewrite collect_chunks_filter_map. simpl.
  by rewrite <- app_assoc.
Qed.

End RetrieverFacts.

(** C4. With no assigned play and an intent other than
    [performance_history], [retrieve_chunks] returns the empty list and
    leaves the world and the trace as they were: no provider is called.
    In every other case, when the embedding service and the index answer,
    the result is the index's match list without the matches whose score
    is below the threshold, each remaining match turned into a
    [SourceChunk], in the order the index gave; the two calls are the only
    ones made. *)
Theorem C4_retrieve_chunks {env : Env} (query : str) (ctx : UserContext)
    (intent : str) (s : state) :
  (assigned_play_ids ctx = [] → intent ≠ lit "performance_history" →
     retrieve_chunks query ctx intent s = (Ok [], s))
  ∧ (¬ (assigned_play_ids ctx = [] ∧ intent ≠ lit "performance_history") →
     ∀ vector w1 results w2,
       embeddings_create (openai_api_key settings) (embedding_model settings)
         query (embedding_dimensions settings) (world s) = (Ok vector, w1) →
       index_query (pinecone_api_key settings) (pinecone_index_name settings)
         vector (pinecone_top_k settings) (build_pinecone_filter ctx intent) w1
       = (Ok results, w2) →
       ∃ s' : state,
         retrieve_chunks query ctx intent s
         = (Ok (map chunk_of_match
                  (filter (λ m, PrimFloat.ltb (match_score m)
                                  (similarity_threshold settings) = false)
                          (default [] results))), s')
         ∧ world s' = w2
         ∧ trace s'
           = trace s
             ++ [ EmbeddingsCreate (embedding_model settings) query
                    (embedding_dimensions settings);
                  IndexQuery (pinecone_index_name settings) vector
                    (pinecone_top_k settings)
                    (build_pinecone_filter ctx intent) ]).
Proof.
  split.
  - apply retrieve_chunks_short_circuit.
  - intros Hguard vector w1 results w2 Hembed Hquery.
    eexists. split; [|split].
    + by apply (retrieve_chunks_queries _ _ _ _ vector w1 results w2).
    + reflexivity.
    + reflexivity.
Qed.

Lemma C4_retrieve_chunks_witness :
  retrieve_chunks (env := Fixtures.env_answering) Fixtures.query_gridmaster
    Fixtures.ctx_unassigned (lit "assigned_knowledge") Fixtures.start_answering
  = (Ok [], Fixtures.start_answering)
  ∧ ∃ s' : @state Fixtures.env_answering,
      retrieve_chunks (env := Fixtures.env_answering) Fixtures.query_gridmaster
        Fixtures.ctx_veldra (lit "assigned_knowledge") Fixtures.start_answering
      = (Ok [ chunk_of_match
                (MatchObject 0.6%float
                   (Fixtures.knowledge_meta "asset-001" "play-001" 3));
              chunk_of_match
                (MatchDict (Some 0.4%float)
                   (Some (Fixtures.knowledge_meta "asset-003" "play-001" 7))) ],
         s')
      ∧ world s' = 2%nat
      ∧ length (trace s') = 2%nat.
Proof.
  split.
  - apply (C4_retrieve_chunks (env := Fixtures.env_answering)
             Fixtures.query_gridmaster Fixtures.ctx_unassigned
             (lit "assigned_knowledge") Fixtures.start_answering).
    + reflexivity.
    + vm_compute. discriminate.
  - destruct (proj2 (C4_retrieve_chunks (env := Fixtures.env_answering)
                       Fixtures.query_gridmaster Fixtures.ctx_veldra
                       (lit "assigned_knowledge") Fixtures.start_answering))
      with (vector := [0.25%float; 0.5%float]) (w1 := 1%nat)
           (results := Some Fixtures.test_matches) (w2 := 2%nat)
      as (s' & Hrun & Hw & Ht).
    + vm_compute. intros [H _]. discriminate H.
    + reflexivity.
    + reflexivity.
    + exists s'. split; [exact Hrun|]. split; [exact Hw|].
      rewrite Ht. reflexivity.
Defined.

(** ** The grounded generator *)

(** C5. [generate_grounded_answer] returns the trimmed output of the chat
    model together with a flag that is false exactly when the trimmed
    output is the sentinel [INSUFFICIENT_CONTEXT]. *)
Theorem C5_generate_grounded_answer {env : Env} (query : str)
    (chunks : list SourceChunk) (s : state) (llm : chat_model) (s1 : state)
    (output : str) (w2 : World) :
  get_llm (model settings) 1024 0.1%float s = (Ok llm, s1) →
  llm_invoke llm (grounded_messages query chunks) (world s1) = (Ok output, w2) →
  ∃ (is_sufficient : bool) (s2 : state),
    generate_grounded_answer query chunks s
    = (Ok (PyStr.strip output, is_sufficient), s2)
    ∧ (is_sufficient = false ↔ PyStr.strip output = lit "INSUFFICIENT_CONTEXT")
    ∧ (PyStr.strip output ≠ lit "INSUFFICIENT_CONTEXT" → is_sufficient = true).
Proof.
  intros Hllm Hinvoke.
  unfold generate_grounded_answer.
  rewrite (bind_step _ _ _ _ _ Hllm).
  assert (Hi : invoke llm (grounded_messages query chunks) s1
               = (Ok output,
                  {| world := w2;
                     trace := trace s1
                       ++ [LLMInvoke llm (grounded_messages query chunks)] |})).
  { unfold invoke, call. by rewrite Hinvoke. }
  rewrite (bind_step _ _ _ _ _ Hi).
  unfold INSUFFICIENT_CONTEXT.
  case_bool_decide as E; eexists _, _; (split; [reflexivity|]).
  - split; [tauto|]. intros Hne. contradiction.
  - split; [|reflexivity]. split; [discriminate|]. intros Heq. contradiction.
Qed.

Lemma C5_generate_grounded_answer_witness :
  (∃ s2, generate_grounded_answer (env := Fixtures.env_answering)
           Fixtures.query_gridmaster [] Fixtures.start_answering
         = (Ok (lit "GridMaster is a grid controller.", true), s2))
  ∧ (∃ s2, generate_grounded_answer (env := Fixtures.env_sentinel)
             Fixtures.query_gridmaster [] Fixtures.start_sentinel
           = (Ok (lit "INSUFFICIENT_CONTEXT", false), s2)).
Proof.
  split.
  - destruct (C5_generate_grounded_answer (env := Fixtures.env_answering)
                Fixtures.query_gridmaster [] Fixtures.start_answering
                {| cm_provider := ChatOpenAI; cm_model := lit "gpt-4o-mini";
                   cm_api_key := lit "sk-test"; cm_max_tokens := 1024;
                   cm_temperature := 0.1%float |}
                Fixtures.start_answering
                (lit " GridMaster is a grid controller. ") 1%nat)
      as (b & s2 & Hrun & _ & Hb).
    + reflexivity.
    + reflexivity.
    + exists s2. rewrite Hrun. rewrite Hb; [reflexivity|].
      vm_compute. discriminate.
  - destruct (C5_generate_grounded_answer (env := Fixtures.env_sentinel)
                Fixtures.query_gridmaster [] Fixtures.start_sentinel
                {| cm_provider := ChatOpenAI; cm_model := lit "gpt-4o-mini";
                   cm_api_key := lit "sk-test"; cm_max_tokens := 1024;
                   cm_temperature := 0.1%float |}
                Fixtures.start_sentinel
                (lit "  INSUFFICIENT_CONTEXT  ") 1%nat)
      as (b & s2 & Hrun & Hb & _).
    + reflexivity.
    + reflexivity.
    + exists s2. rewrite Hrun.
      rewrite (proj2 Hb); reflexivity.
Defined.

(** ** The classifier *)

Section ClassifierFacts.

Context {env : Env}.

Lemma parse_intent_result_valid raw r :
  parse_intent_result raw = Some r → intent r ∈ INTENTS.
Proof.
  unfold parse_intent_result. intros H.
  destruct (json_loads raw) as [parsed|]; simpl in H; [|discriminate].
  destruct (getitem parsed (lit "intent")) as [iv|]; simpl in H; [|discriminate].
  destruct (dict_get parsed (lit "confidence") _) as [cv|]; simpl in H;
    [|discriminate].
  destruct (py_float cv) as [c|]; simpl in H; [|discriminate].
  destruct (dict_get parsed (lit "reasoning") _) as [rv|]; simpl in H;
    [|discriminate].
  destruct iv; try discriminate. destruct rv; try discriminate.
  case_bool_decide as Hin; [|discriminate].
  injection H as <-. exact Hin.
Qed.

(** A split always has a first piece, and a second one when the string
    starts with the separator: the index [[1]] cannot fail. *)
Lemma split_from_nonempty sep skip cur s : PyStr.split_from sep skip cur s ≠ [].
Proof.
  revert skip cur.
  induction s as [|c s IH]; intros skip cur; cbn [PyStr.split_from].
  - discriminate.
  - destruct skip; [|apply IH].
    destruct (PyStr.startswith (c :: s) sep); [discriminate | apply IH].
Qed.

Lemma split_on_fence_second raw :
  PyStr.startswith raw (lit "```") = true →
  is_Some (PyStr.split_on raw (lit "```") !! 1%nat).
Proof.
  intros H. unfold PyStr.split_on.
  destruct raw as [|c raw]; [discriminate|].
  cbn [PyStr.split_from]. rewrite H.
  pose proof (split_from_nonempty (lit "```")
                (length (lit "```") - 1) [] raw) as N.
  destruct (PyStr.split_from (lit "```") (length (lit "```") - 1) [] raw)
    as [|piece rest]; [contradiction|].
  by eexists.
Qed.

Lemma strip_fences_total content : is_Some (strip_fences content).
Proof.
  unfold strip_fences.
  destruct (PyStr.startswith (PyStr.strip content) (lit "```")) eqn:E.
  - destruct (split_on_fence_second _ E) as [piece ->]. by eexists.
  - by eexists.
Qed.

Lemma classify_intent_returns query s llm s1 output w2 :
  get_llm (model settings) 256 0%float s = (Ok llm, s1) →
  llm_invoke llm (classifier_messages query) (world s1) = (Ok output, w2) →
  ∃ raw, strip_fences output = Some raw
  ∧ classify_intent query s
    = (Ok (default classification_default (parse_intent_result raw)),
       {| world := w2;
          trace := trace s1 ++ [LLMInvoke llm (classifier_messages query)] |}).
Proof.
  intros Hllm Hinvoke. unfold classify_intent.
  destruct (strip_fences_total output) as [raw Hraw].
  exists raw. split; [exact Hraw|].
  rewrite (bind_step _ _ _ _ _ Hllm).
  unfold bind, invoke, call. rewrite Hinvoke, Hraw.
  by destruct (parse_intent_result raw).
Qed.

(** The classifier only ever returns one of the five intents. *)
Lemma classify_intent_valid query s r s' :
  classify_intent query s = (Ok r, s') → intent r ∈ INTENTS.
Proof.
  unfold classify_intent. intros H.
  apply bind_Ok in H as (llm & s1 & _ & H).
  apply bind_Ok in H as (response & s2 & _ & H).
  destruct (strip_fences response) as [raw|]; [|discriminate].
  destruct (parse_intent_result raw) as [r0|] eqn:E;
    injection H as <- <-.
  - by apply parse_intent_result_valid in E.
  - apply (bool_decide_unpack _). reflexivity.
Qed.

End ClassifierFacts.

(** C8, as amended. Whenever the chat model answers, [classify_intent]
    returns a result and raises nothing; if the answer, with its fence
    removed, cannot be decoded and validated, the result is the intent
    [assigned_knowledge] with confidence 0.5 and the reasoning
    "Classification failed, defaulting to knowledge search.". *)
Theorem C8_classify_intent_fails_soft {env : Env} (query : str) (s : state)
    (llm : chat_model) (s1 : state) (output : str) (w2 : World) :
  get_llm (model settings) 256 0%float s = (Ok llm, s1) →
  llm_invoke llm (classifier_messages query) (world s1) = (Ok output, w2) →
  ∃ (raw : str) (r : IntentResult) (s2 : state),
    strip_fences output = Some raw
    ∧ classify_intent query s = (Ok r, s2)
    ∧ (parse_intent_result raw = None →
         r = {| intent := lit "assigned_knowledge";
                confidence := 0.5%float;
                reasoning :=
                  lit "Classification failed, defaulting to knowledge search." |}).
Proof.
  intros Hllm Hinvoke.
  destruct (classify_intent_returns _ _ llm s1 output w2 Hllm Hinvoke)
    as (raw & Hraw & Hrun).
  exists raw. eexists _, _. split; [exact Hraw|]. split; [exact Hrun|].
  intros ->. reflexivity.
Qed.

Lemma C8_classify_intent_fails_soft_witness :
  ∃ s2 : @state Fixtures.env_answering,
    classify_intent (env := Fixtures.env_answering) Fixtures.query_gridmaster
      Fixtures.start_answering
    = (Ok {| intent := lit "assigned_knowledge";
             confidence := 0.5%float;
             reasoning :=
               lit "Classification failed, defaulting to knowledge search." |},
       s2).
Proof.
  destruct (C8_classify_intent_fails_soft (env := Fixtures.env_answering)
              Fixtures.query_gridmaster Fixtures.start_answering
              {| cm_provider := ChatOpenAI; cm_model := lit "gpt-4o-mini";
                 cm_api_key := lit "sk-test"; cm_max_tokens := 256;
                 cm_temperature := 0%float |}
              Fixtures.start_answering
              (lit "I cannot classify this.") 1%nat)
    as (raw & r & s2 & Hraw & Hrun & Hr).
  - reflexivity.
  - reflexivity.
  - exists s2. rewrite Hrun. rewrite Hr; [reflexivity|].
    vm_compute in Hraw. injection Hraw as <-. reflexivity.
Defined.

(** The output "I cannot classify this." is not JSON; the classifier's
    result then differs from the one with the reasoning text
    "classification failed, defaulting". *)
Lemma C8_reasoning_text_counterexample :
  strip_fences (lit "I cannot classify this.")
  = Some (lit "I cannot classify this.")
  ∧ parse_intent_result (env := Fixtures.env_answering)
      (lit "I cannot classify this.") = None
  ∧ ∀ s2 : @state Fixtures.env_answering,
      classify_intent (env := Fixtures.env_answering) Fixtures.query_gridmaster
        Fixtures.start_answering
      ≠ (Ok {| intent := lit "assigned_knowledge";
               confidence := 0.5%float;
               reasoning := lit "classification failed, defaulting" |},
         s2).
Proof.
  split; [reflexivity|]. split; [reflexivity|].
  intros s2 H. vm_compute in H. discriminate H.
Qed.

(** ** The mode override *)

Lemma apply_mode_cases (ir : IntentResult) (mode : option str) :
  (mode = Some (lit "knowledge")
   ∧ intent (_apply_mode ir mode) = lit "assigned_knowledge")
  ∨ (mode = Some (lit "performance")
     ∧ intent (_apply_mode ir mode) = lit "performance_history")
  ∨ (mode ≠ Some (lit "knowledge") ∧ mode ≠ Some (lit "performance")
     ∧ _apply_mode ir mode = ir).
Proof.
  unfold _apply_mode. repeat case_bool_decide; auto.
Qed.

(** ** Paths of the single-response surface *)

Section RunFacts.

Context {env : Env}.

Lemma recommend_step ctx ids query s :
  recommend ctx ids query s
  = (Ok (get_recommendations ctx ids store 3 (Some query)),
     logged s (Recommend ids)).
Proof. reflexivity. Qed.

Lemma run_path_complete query mode ctx s resp s' :
  run query mode ctx s = (Ok resp, s') → run_path query mode ctx s resp s'.
Proof.
  unfold run. intros H.
  apply bind_Ok in H as (ir & s1 & Hc & H).
  case_bool_decide as Hoos.
  { injection H as <- <-. by apply path_tier1. }
  case_bool_decide as Hgp.
  { apply bind_Ok in H as (text & s2 & Hg & H).
    rewrite (bind_step _ _ _ _ _ (recommend_step _ _ _ _)) in H.
    injection H as <- <-. by eapply path_tier2. }
  apply bind_Ok in H as (chunks & s2 & Hr & H).
  case_bool_decide as Hempty.
  { subst chunks.
    rewrite (bind_step _ _ _ _ _ (recommend_step _ _ _ _)) in H.
    injection H as <- <-. by eapply path_tier3_empty. }
  apply bind_Ok in H as ([text is_sufficient] & s3 & Hg & H).
  destruct is_sufficient; simpl in H;
    rewrite (bind_step _ _ _ _ _ (recommend_step _ _ _ _)) in H;
    injection H as <- <-.
  - by eapply path_grounded.
  - by eapply path_tier3_insufficient.
Qed.

Lemma run_path_sound query mode ctx s resp s' :
  run_path query mode ctx s resp s' → run query mode ctx s = (Ok resp, s').
Proof.
  intros H. unfold run.
  destruct H as [ir s1 Hc Hoos
                |ir s1 text s2 Hc Hoos Hgp Hg
                |ir s1 s2 Hc Hoos Hgp Hr
                |ir s1 chunks s2 text s3 Hc Hoos Hgp Hr Hne Hg
                |ir s1 chunks s2 text s3 Hc Hoos Hgp Hr Hne Hg];
    rewrite (bind_step _ _ _ _ _ Hc).
  - by rewrite bool_decide_eq_true_2.
  - rewrite bool_decide_eq_false_2 by assumption.
    rewrite bool_decide_eq_true_2 by assumption.
    by rewrite (bind_step _ _ _ _ _ Hg).
  - rewrite !bool_decide_eq_false_2 by assumption.
    by rewrite (bind_step _ _ _ _ _ Hr).
  - rewrite !bool_decide_eq_false_2 by assumption.
    rewrite (bind_step _ _ _ _ _ Hr).
    rewrite bool_decide_eq_false_2 by assumption.
    by rewrite (bind_step _ _ _ _ _ Hg).
  - rewrite !bool_decide_eq_false_2 by assumption.
    rewrite (bind_step _ _ _ _ _ Hr).
    rewrite bool_decide_eq_false_2 by assumption.
    by rewrite (bind_step _ _ _ _ _ Hg).
Qed.

End RunFacts.

(** C7. The mode is applied to the classifier's result: no mode and
    [auto] leave it as it is; [knowledge] sets the intent to
    [assigned_knowledge] and [performance] to [performance_history],
    whatever the classifier said; confidence and reasoning are kept; an
    intent [out_of_scope] or [general_professional] after the override is
    the classifier's own, never one the override put there; and the intent
    of every response of [run] is the classifier's result with the mode
    applied. *)
Theorem C7_mode_override {env : Env} (ir : IntentResult) :
  _apply_mode ir None = ir
  ∧ _apply_mode ir (Some (lit "auto")) = ir
  ∧ intent (_apply_mode ir (Some (lit "knowledge"))) = lit "assigned_knowledge"
  ∧ intent (_apply_mode ir (Some (lit "performance"))) = lit "performance_history"
  ∧ (∀ mode : option str,
        confidence (_apply_mode ir mode) = confidence ir
        ∧ reasoning (_apply_mode ir mode) = reasoning ir)
  ∧ (∀ mode : option str,
        intent (_apply_mode ir mode) = lit "out_of_scope"
        ∨ intent (_apply_mode ir mode) = lit "general_professional" →
        _apply_mode ir mode = ir
        ∧ mode ≠ Some (lit "knowledge") ∧ mode ≠ Some (lit "performance"))
  ∧ (∀ (query : str) (mode : option str) (ctx : UserContext)
       (s : state) (resp : SearchResponse) (s' : state),
        run query mode ctx s = (Ok resp, s') →
        ∃ (classified : IntentResult) (s1 : state),
          classify_intent query s = (Ok classified, s1)
          ∧ sr_intent resp = _apply_mode classified mode).
Proof.
  split; [reflexivity|]. split; [reflexivity|].
  split; [reflexivity|]. split; [reflexivity|].
  split; [|split].
  - intros mode. unfold _apply_mode. repeat case_bool_decide; auto.
  - intros mode H.
    destruct (apply_mode_cases ir mode) as [[_ E] | [[_ E] | (N1 & N2 & E)]].
    + rewrite E in H. destruct H as [H | H]; vm_compute in H; discriminate H.
    + rewrite E in H. destruct H as [H | H]; vm_compute in H; discriminate H.
    + auto.
  - intros query mode ctx s resp s' H.
    apply run_path_complete in H.
    destruct H; eauto.
Qed.

Lemma C7_mode_override_witness :
  ∃ (resp : SearchResponse) (s' : @state Fixtures.env_answering),
    run (env := Fixtures.env_answering) Fixtures.query_gridmaster
      (Some (lit "performance")) Fixtures.ctx_veldra Fixtures.start_answering
    = (Ok resp, s')
    ∧ ∃ (classified : IntentResult) (s1 : @state Fixtures.env_answering),
        classify_intent (env := Fixtures.env_answering)
          Fixtures.query_gridmaster Fixtures.start_answering
        = (Ok classified, s1)
        ∧ sr_intent resp = _apply_mode classified (Some (lit "performance")).
Proof.
  eexists _, _. split.
  - vm_compute. reflexivity.
  - eapply (proj2 (proj2 (proj2 (proj2 (proj2 (proj2
             (C7_mode_override (env := Fixtures.env_answering)
                classification_default))))))
             Fixtures.query_gridmaster (Some (lit "performance"))
             Fixtures.ctx_veldra Fixtures.start_answering).
    vm_compute. reflexivity.
Defined.

(** ** Calls of the recommender *)

Section QuietFacts.

Context {env : Env}.

Lemma recommender_calls_app t1 t2 :
  recommender_calls (t1 ++ t2) = recommender_calls t1 ++ recommender_calls t2.
Proof. apply omap_app. Qed.

Lemma emitted_app t1 t2 : emitted (t1 ++ t2) = emitted t1 ++ emitted t2.
Proof. apply omap_app. Qed.

Lemma provider_calls_no_recommend t :
  forallb is_provider_call t = true → recommender_calls t = [].
Proof.
  induction t as [|a t IH]; [reflexivity|]. simpl.
  intros H. apply andb_prop in H as [Ha Ht].
  unfold recommender_calls in *. simpl.
  destruct a; try discriminate; by apply IH.
Qed.

Lemma provider_calls_no_event t :
  forallb is_provider_call t = true → emitted t = [].
Proof.
  induction t as [|a t IH]; [reflexivity|]. simpl.
  intros H. apply andb_prop in H as [Ha Ht].
  unfold emitted in *. simpl.
  destruct a; try discriminate; by apply IH.
Qed.

Lemma quiet_ret {A} (a : A) : quiet (ret a).
Proof.
  intros s r s' H. injection H as <- <-.
  exists []. by rewrite app_nil_r.
Qed.

Lemma quiet_raise {A} (e : exn) : quiet (raise (A := A) e).
Proof.
  intros s r s' H. injection H as <- <-.
  exists []. by rewrite app_nil_r.
Qed.

Lemma quiet_bind {A B} (m : M A) (k : A → M B) :
  quiet m → (∀ a, quiet (k a)) → quiet (bind m k).
Proof.
  intros Hm Hk s r s' H. unfold bind in H.
  destruct (m s) as [[a|e] s1] eqn:E.
  - destruct (Hm _ _ _ E) as (t1 & T1 & R1).
    destruct (Hk a _ _ _ H) as (t2 & T2 & R2).
    exists (t1 ++ t2). rewrite T2, T1, <- app_assoc. split; [reflexivity|].
    by rewrite forallb_app, R1, R2.
  - injection H as <- <-. exact (Hm _ _ _ E).
Qed.

Lemma quiet_call {A} (a : action) (p : World → result A * World) :
  is_provider_call a = true → quiet (call a p).
Proof.
  intros Ha s r s' H. unfold call in H.
  destruct (p (world s)) as [r0 w]. injection H as <- <-.
  exists [a]. simpl. by rewrite Ha.
Qed.

Lemma quiet_get_llm name max_tokens temperature :
  quiet (get_llm name max_tokens temperature).
Proof.
  intros s r s' H. apply get_llm_state in H as [-> _].
  exists []. by rewrite app_nil_r.
Qed.

Lemma quiet_invoke llm messages : quiet (invoke llm messages).
Proof. by apply quiet_call. Qed.

Lemma quiet_classify_intent query : quiet (classify_intent query).
Proof.
  unfold classify_intent.
  apply quiet_bind; [apply quiet_get_llm|]. intros llm.
  apply quiet_bind; [apply quiet_invoke|]. intros response.
  destruct (strip_fences response); [|apply quiet_raise].
  destruct (parse_intent_result _); apply quiet_ret.
Qed.

Lemma quiet_retrieve_chunks query ctx intent :
  quiet (retrieve_chunks query ctx intent).
Proof.
  unfold retrieve_chunks.
  destruct (_ && _); [apply quiet_ret|].
  apply quiet_bind; [by apply quiet_call|]. intros vector.
  apply quiet_bind; [by apply quiet_call|]. intros results.
  apply quiet_ret.
Qed.

Lemma quiet_generate_general_answer query :
  quiet (generate_general_answer query).
Proof.
  unfold generate_general_answer.
  apply quiet_bind; [apply quiet_get_llm|]. intros llm.
  apply quiet_bind; [apply quiet_invoke|]. intros response.
  apply quiet_ret.
Qed.

Lemma quiet_generate_grounded_answer query chunks :
  quiet (generate_grounded_answer query chunks).
Proof.
  unfold generate_grounded_answer.
  apply quiet_bind; [apply quiet_get_llm|]. intros llm.
  apply quiet_bind; [apply quiet_invoke|]. intros response.
  case_bool_decide; apply quiet_ret.
Qed.

Lemma quiet_then {A B} (m1 : M A) (m2 : M B) s a s1 b s2 :
  quiet m1 → quiet m2 →
  m1 s = (a, s1) → m2 s1 = (b, s2) →
  ∃ t, trace s2 = trace s ++ t ∧ forallb is_provider_call t = true.
Proof.
  intros Q1 Q2 E1 E2.
  destruct (Q1 _ _ _ E1) as (t1 & T1 & R1).
  destruct (Q2 _ _ _ E2) as (t2 & T2 & R2).
  exists (t1 ++ t2). rewrite T2, T1, <- app_assoc. split; [reflexivity|].
  by rewrite forallb_app, R1, R2.
Qed.

(** After provider calls only, one recorded call of the recommender. *)
Lemma calls_after_quiet (s s1 : state) (ids : gset str) t :
  trace s1 = trace s ++ t → forallb is_provider_call t = true →
  ∃ t', trace (logged s1 (Recommend ids)) = trace s ++ t'
        ∧ recommender_calls t' = [ids].
Proof.
  intros T R. exists (t ++ [Recommend ids]). simpl.
  rewrite T, <- app_assoc. split; [reflexivity|].
  by rewrite recommender_calls_app, (provider_calls_no_recommend _ R).
Qed.

Lemma play_id_set_elem (chunks : list SourceChunk) (x : str) :
  x ∈ _play_id_set_from_chunks chunks
  ↔ x ≠ [] ∧ ∃ c, c ∈ chunks ∧ play_id c = Some x.
Proof.
  unfold _play_id_set_from_chunks.
  rewrite elem_of_list_to_set, list_elem_of_omap.
  split.
  - intros (c & Hc & Hx). unfold truthy_str in Hx.
    destruct (play_id c) as [p|] eqn:E; [|discriminate].
    case_bool_decide as Hp; simpl in Hx; [discriminate|].
    injection Hx as ->. eauto.
  - intros (Hx & c & Hc & E). exists c. split; [exact Hc|].
    rewrite E. simpl. by rewrite bool_decide_eq_false_2.
Qed.

End QuietFacts.

(** C9, as amended. The set computed from a chunk list holds the distinct
    play ids that are neither null nor the empty string: it is the set of
    the non-null play ids without the empty string, so duplicates
    collapse, and it is empty for an empty list and for a list whose play
    ids are all null. On the grounded path of [run] the recommender is
    called once, with this set of the retrieved chunks; on the tier2 and
    tier3 paths it is called once, with the empty set; on tier1 it is not
    called. *)
Theorem C9_exclusion_set {env : Env} :
  (∀ chunks : list SourceChunk,
      _play_id_set_from_chunks chunks = non_null_play_ids chunks ∖ {[ [] ]})
  ∧ (∀ (chunks : list SourceChunk) (x : str),
        x ∈ _play_id_set_from_chunks chunks
        ↔ x ≠ [] ∧ ∃ c, c ∈ chunks ∧ play_id c = Some x)
  ∧ _play_id_set_from_chunks [] = ∅
  ∧ (∀ chunks : list SourceChunk,
        (∀ c, c ∈ chunks → play_id c = None) →
        _play_id_set_from_chunks chunks = ∅)
  ∧ (∀ (query : str) (mode : option str) (ctx : UserContext)
       (s : state) (resp : SearchResponse) (s' : state),
        run query mode ctx s = (Ok resp, s') →
        ∃ t : list action,
          trace s' = trace s ++ t
          ∧ match response_tier resp with
            | tier1 => recommender_calls t = []
            | tier2 | tier3 => recommender_calls t = [∅]
            | grounded =>
                recommender_calls t = [_play_id_set_from_chunks (sources resp)]
                ∧ ∃ (classified : IntentResult) (s1 s2 : state),
                    classify_intent query s = (Ok classified, s1)
                    ∧ retrieve_chunks query ctx
                        (intent (_apply_mode classified mode)) s1
                      = (Ok (sources resp), s2)
            end).
Proof.
  split; [|split; [|split; [|split]]].
  - intros chunks. apply set_eq. intros x.
    rewrite play_id_set_elem, elem_of_difference, not_elem_of_singleton.
    unfold non_null_play_ids.
    rewrite elem_of_list_to_set, list_elem_of_omap. tauto.
  - apply play_id_set_elem.
  - reflexivity.
  - intros chunks Hnone. apply set_eq. intros x.
    rewrite play_id_set_elem. split.
    + intros (_ & c & Hc & E). rewrite (Hnone c Hc) in E. discriminate.
    + intros Hx. by apply not_elem_of_empty in Hx.
  - intros query mode ctx s resp s' H.
    apply run_path_complete in H.
    destruct H as [ir s1 Hc Hoos
                  |ir s1 text s2 Hc Hoos Hgp Hg
                  |ir s1 s2 Hc Hoos Hgp Hr
                  |ir s1 chunks s2 text s3 Hc Hoos Hgp Hr Hne Hg
                  |ir s1 chunks s2 text s3 Hc Hoos Hgp Hr Hne Hg]; simpl.
    + destruct (quiet_classify_intent query _ _ _ Hc) as (t & T & R).
      exists t. split; [exact T|]. by apply provider_calls_no_recommend.
    + destruct (quiet_then _ _ _ _ _ _ _ (quiet_classify_intent query)
                  (quiet_generate_general_answer query) Hc Hg)
        as (t & T & R).
      exact (calls_after_quiet _ _ ∅ _ T R).
    + destruct (quiet_then _ _ _ _ _ _ _ (quiet_classify_intent query)
                  (quiet_retrieve_chunks query ctx _) Hc Hr)
        as (t & T & R).
      exact (calls_after_quiet _ _ ∅ _ T R).
    + destruct (quiet_then _ _ _ _ _ _ _ (quiet_classify_intent query)
                  (quiet_retrieve_chunks query ctx _) Hc Hr)
        as (t & T & R).
      destruct (quiet_generate_grounded_answer query chunks _ _ _ Hg)
        as (t3 & T3 & R3).
      apply (calls_after_quiet s s3 ∅ (t ++ t3)).
      * by rewrite T3, T, <- app_assoc.
      * by rewrite forallb_app, R, R3.
    + destruct (quiet_then _ _ _ _ _ _ _ (quiet_classify_intent query)
                  (quiet_retrieve_chunks query ctx _) Hc Hr)
        as (t & T & R).
      destruct (quiet_generate_grounded_answer query chunks _ _ _ Hg)
        as (t3 & T3 & R3).
      destruct (calls_after_quiet s s3 (_play_id_set_from_chunks chunks)
                  (t ++ t3)) as (t' & T' & R').
      * by rewrite T3, T, <- app_assoc.
      * by rewrite forallb_app, R, R3.
      * exists t'. split; [exact T'|]. split; [exact R'|]. eauto.
Qed.

Lemma C9_exclusion_set_witness :
  ∃ (resp : SearchResponse) (s' : @state Fixtures.env_answering),
    run (env := Fixtures.env_answering) Fixtures.query_gridmaster
      (Some (lit "auto")) Fixtures.ctx_veldra Fixtures.start_answering
    = (Ok resp, s')
    ∧ ∃ t : list action,
        trace s' = trace Fixtures.start_answering ++ t
        ∧ match response_tier resp with
          | tier1 => recommender_calls t = []
          | tier2 | tier3 => recommender_calls t = [∅]
          | grounded =>
              recommender_calls t = [_play_id_set_from_chunks (sources resp)]
              ∧ ∃ (classified : IntentResult)
                  (s1 s2 : @state Fixtures.env_answering),
                  classify_intent (env := Fixtures.env_answering)
                    Fixtures.query_gridmaster Fixtures.start_answering
                  = (Ok classified, s1)
                  ∧ retrieve_chunks (env := Fixtures.env_answering)
                      Fixtures.query_gridmaster Fixtures.ctx_veldra
                      (intent (_apply_mode classified (Some (lit "auto")))) s1
                    = (Ok (sources resp), s2)
          end.
Proof.
  eexists _, _. split.
  - vm_compute. reflexivity.
  - apply (proj2 (proj2 (proj2 (proj2
             (C9_exclusion_set (env := Fixtures.env_answering)))))
             Fixtures.query_gridmaster (Some (lit "auto"))
             Fixtures.ctx_veldra Fixtures.start_answering).
    vm_compute. reflexivity.
Defined.

(** A chunk whose play id is the empty string: the string is not null,
    yet the computed set leaves it out. *)
Lemma C9_empty_play_id_counterexample :
  _play_id_set_from_chunks [Fixtures.chunk_with_empty_play_id] = ∅
  ∧ non_null_play_ids [Fixtures.chunk_with_empty_play_id] = {[ lit "" ]}
  ∧ _play_id_set_from_chunks [Fixtures.chunk_with_empty_play_id]
    ≠ non_null_play_ids [Fixtures.chunk_with_empty_play_id].
Proof.
  assert (E1 : _play_id_set_from_chunks [Fixtures.chunk_with_empty_play_id] = ∅)
    by reflexivity.
  assert (E2 : non_null_play_ids [Fixtures.chunk_with_empty_play_id]
               = {[ lit "" ]}).
  { unfold non_null_play_ids. simpl. apply union_empty_r_L. }
  split; [exact E1|]. split; [exact E2|].
  rewrite E1, E2. intros H.
  assert (Hin : lit "" ∈ (∅ : gset str)) by (rewrite H; by apply elem_of_singleton).
  by apply not_elem_of_empty in Hin.
Qed.

(** C10. Every response of [run] has sources exactly when its tier is
    [grounded]: in tier1, tier2 and tier3 the sources are empty, and in
    the grounded tier they are the whole, non-empty list the retriever
    returned. *)
Theorem C10_sources_iff_grounded {env : Env} (query : str)
    (mode : option str) (ctx : UserContext) (s : state)
    (resp : SearchResponse) (s' : state) :
  run query mode ctx s = (Ok resp, s') →
  (sources resp ≠ [] ↔ response_tier resp = grounded)
  ∧ (response_tier resp ≠ grounded → sources resp = [])
  ∧ (response_tier resp = grounded →
       sources resp ≠ []
       ∧ ∃ (classified : IntentResult) (s1 s2 : state),
           classify_intent query s = (Ok classified, s1)
           ∧ retrieve_chunks query ctx (intent (_apply_mode classified mode)) s1
             = (Ok (sources resp), s2)).
Proof.
  intros H. apply run_path_complete in H.
  destruct H as [ir s1 Hc Hoos
                |ir s1 text s2 Hc Hoos Hgp Hg
                |ir s1 s2 Hc Hoos Hgp Hr
                |ir s1 chunks s2 text s3 Hc Hoos Hgp Hr Hne Hg
                |ir s1 chunks s2 text s3 Hc Hoos Hgp Hr Hne Hg]; simpl;
    try (split; [split; [intros N; by destruct N | discriminate]
                |split; [reflexivity | discriminate]]).
  split; [tauto|]. split; [intros N; by destruct N|].
  intros _. split; [exact Hne|]. eauto.
Qed.

Lemma C10_sources_iff_grounded_witness :
  ∃ (resp : SearchResponse) (s' : @state Fixtures.env_answering),
    run (env := Fixtures.env_answering) Fixtures.query_gridmaster
      (Some (lit "auto")) Fixtures.ctx_veldra Fixtures.start_answering
    = (Ok resp, s')
    ∧ (sources resp ≠ [] ↔ response_tier resp = grounded)
    ∧ (response_tier resp ≠ grounded → sources resp = [])
    ∧ (response_tier resp = grounded →
         sources resp ≠ []
         ∧ ∃ (classified : IntentResult)
             (s1 s2 : @state Fixtures.env_answering),
             classify_intent (env := Fixtures.env_answering)
               Fixtures.query_gridmaster Fixtures.start_answering
             = (Ok classified, s1)
             ∧ retrieve_chunks (env := Fixtures.env_answering)
                 Fixtures.query_gridmaster Fixtures.ctx_veldra
                 (intent (_apply_mode classified (Some (lit "auto")))) s1
               = (Ok (sources resp), s2)).
Proof.
  eexists _, _. split.
  - vm_compute. reflexivity.
  - eapply (C10_sources_iff_grounded (env := Fixtures.env_answering)
             Fixtures.query_gridmaster (Some (lit "auto"))
             Fixtures.ctx_veldra Fixtures.start_answering).
    vm_compute. reflexivity.
Defined.

(** ** The streaming surface *)

Section StreamFacts.

Context {env : Env}.

Lemma emitted_delivered texts : emitted (map Delivered texts) = [].
Proof. induction texts as [|t texts IH]; [reflexivity | exact IH]. Qed.

Lemma emitted_yield events : emitted (map Yield events) = events.
Proof.
  induction events as [|e events IH]; [reflexivity|].
  change (emitted (map Yield (e :: events)))
    with (e :: emitted (map Yield events)).
  by rewrite IH.
Qed.

(** Buffering: the loop that appends every token to the buffer consumes
    the whole stream and hands nothing to the client. *)
Lemma astream_for_buffer (texts : list str) (token_buffer : list str) s :
  astream_for texts None (λ buffer token, ret (buffer ++ [token]))
    token_buffer s
  = (Ok (token_buffer ++ filter (λ t, t ≠ []) texts),
     {| world := world s; trace := trace s ++ map Delivered texts |}).
Proof.
  revert token_buffer s.
  induction texts as [|text rest IH]; intros token_buffer s.
  - simpl. unfold ret. rewrite !app_nil_r. by destruct s.
  - simpl. unfold bind at 1. unfold log at 1. simpl.
    unfold bind at 1. case_bool_decide as E.
    + unfold ret at 1. rewrite IH. simpl.
      rewrite filter_cons_False by (intros N; contradiction).
      by rewrite <- app_assoc.
    + unfold ret at 1. rewrite IH. simpl.
      rewrite filter_cons_True by exact E.
      by rewrite <- !app_assoc.
Qed.

Lemma yield_tokens_trace (token_buffer : list str) s :
  yield_tokens token_buffer s
  = (Ok tt,
     {| world := world s;
        trace := trace s
          ++ map Yield (map (λ t, _sse (ChunkEvent t)) token_buffer) |}).
Proof.
  revert s. induction token_buffer as [|token rest IH]; intros s.
  - simpl. unfold ret. rewrite app_nil_r. by destruct s.
  - simpl. unfold bind, yield_sse, log. rewrite IH. simpl.
    by rewrite <- app_assoc.
Qed.

Lemma emitted_grounded_stream t ids meta llm messages texts events done :
  emitted (t ++ [Recommend ids; Yield meta; LLMStream llm messages]
             ++ map Delivered texts ++ map Yield events ++ [Yield done])
  = emitted t ++ meta :: events ++ [done].
Proof.
  rewrite emitted_app. f_equal.
  change (meta :: emitted (map Delivered texts ++ map Yield events
                           ++ [Yield done])
          = meta :: events ++ [done]).
  by rewrite !emitted_app, emitted_delivered, emitted_yield.
Qed.

Lemma stream_grounded_answer_buffer query chunks llm texts w3 s s0 s0' :
  get_llm (model settings) 1024 0.1%float s0 = (Ok llm, s0') →
  llm_astream llm (grounded_messages query chunks) (world s)
  = ((texts, None), w3) →
  stream_grounded_answer query chunks
    (λ buffer token, ret (buffer ++ [token])) [] s
  = (Ok (filter (λ t, t ≠ []) texts),
     {| world := w3;
        trace := trace s
          ++ [LLMStream llm (grounded_messages query chunks)]
          ++ map Delivered texts |}).
Proof.
  intros Hllm Hstream. apply get_llm_state in Hllm as [_ Hllm].
  unfold stream_grounded_answer.
  rewrite (bind_step _ _ _ _ _ (Hllm s)).
  unfold bind, astream. rewrite Hstream. simpl.
  rewrite astream_for_buffer. simpl. by rewrite <- app_assoc.
Qed.

End StreamFacts.

(** C6. On the grounded path of the streaming surface the meta event,
    with tier [grounded] and the retrieved chunks as sources, is sent
    first; then the whole output of the generator is delivered and
    buffered before any answer text is handed to the client. When the
    trimmed buffer is the sentinel, the client receives the meta event,
    one chunk event with the tier3 text, which is not the sentinel, and a
    done event with [is_insufficient] true; otherwise it receives the
    buffered tokens in order and a done event with [is_insufficient]
    false. *)
Theorem C6_stream_buffers_and_hides_sentinel {env : Env} (query : str)
    (mode : option str) (ctx : UserContext) (s0 : state)
    (classified : IntentResult) (s1 : state) (chunks : list SourceChunk)
    (s2 : state) (llm : chat_model) (s2' : state) (texts : list str)
    (w3 : World) :
  classify_intent query s0 = (Ok classified, s1) →
  intent (_apply_mode classified mode) ≠ lit "out_of_scope" →
  intent (_apply_mode classified mode) ≠ lit "general_professional" →
  retrieve_chunks query ctx (intent (_apply_mode classified mode)) s1
  = (Ok chunks, s2) →
  chunks ≠ [] →
  get_llm (model settings) 1024 0.1%float s2 = (Ok llm, s2') →
  llm_astream llm (grounded_messages query chunks) (world s2)
  = ((texts, None), w3) →
  let tokens := filter (λ t, t ≠ []) texts in
  let meta :=
    _sse (MetaEvent (_apply_mode classified mode) grounded chunks
            (get_recommendations ctx (_play_id_set_from_chunks chunks)
               store 3 (Some query))) in
  let sentinel_seen :=
    PyStr.strip (concat tokens) = lit "INSUFFICIENT_CONTEXT" in
  ∃ (answer_events : list str) (s' : state),
    run_stream query mode ctx s0 = (Ok tt, s')
    ∧ trace s'
      = trace s2
        ++ [ Recommend (_play_id_set_from_chunks chunks);
             Yield meta;
             LLMStream llm (grounded_messages query chunks) ]
        ++ map Delivered texts
        ++ map Yield answer_events
        ++ [ Yield (_sse (DoneEvent (bool_decide sentinel_seen))) ]
    ∧ (sentinel_seen →
         answer_events = [ _sse (ChunkEvent TIER3_ANSWER) ]
         ∧ emitted (trace s')
           = emitted (trace s0)
             ++ [ meta; _sse (ChunkEvent TIER3_ANSWER);
                  _sse (DoneEvent true) ])
    ∧ (¬ sentinel_seen →
         answer_events = map (λ t, _sse (ChunkEvent t)) tokens)
    ∧ TIER3_ANSWER ≠ lit "INSUFFICIENT_CONTEXT".
Proof.
  intros Hc Hoos Hgp Hr Hne Hllm Hstream tokens meta sentinel_seen.
  destruct (quiet_then _ _ _ _ _ _ _ (quiet_classify_intent query)
              (quiet_retrieve_chunks query ctx _) Hc Hr) as (t & T & Q).
  assert (Hbody :
    ∀ events,
      events = (if bool_decide sentinel_seen
                then [ _sse (ChunkEvent TIER3_ANSWER) ]
                else map (λ t, _sse (ChunkEvent t)) tokens) →
      run_stream query mode ctx s0
      = (Ok tt,
         {| world := w3;
            trace := trace s2
              ++ [ Recommend (_play_id_set_from_chunks chunks);
                   Yield meta;
                   LLMStream llm (grounded_messages query chunks) ]
              ++ map Delivered texts
              ++ map Yield events
              ++ [ Yield (_sse (DoneEvent (bool_decide sentinel_seen))) ] |})).
  { intros events ->.
    unfold run_stream, try_except.
    rewrite (bind_step _ _ _ _ _ Hc).
    rewrite !bool_decide_eq_false_2 by assumption.
    rewrite (bind_step _ _ _ _ _ Hr).
    rewrite bool_decide_eq_false_2 by assumption.
    rewrite (bind_step _ _ _ _ _ (recommend_step _ _ _ _)).
    unfold bind at 1. unfold yield_sse at 1. unfold log at 1.
    unfold bind at 1.
    erewrite (stream_grounded_answer_buffer _ _ llm texts w3 _ s2 s2' Hllm);
      [|exact Hstream].
    fold tokens. unfold INSUFFICIENT_CONTEXT. fold sentinel_seen.
    unfold bind at 1.
    destruct (bool_decide sentinel_seen).
    - unfold yield_sse, log. simpl. by rewrite <- !app_assoc.
    - rewrite yield_tokens_trace. unfold yield_sse, log. simpl.
      by rewrite <- !app_assoc. }
  eexists _, _. split; [apply Hbody; reflexivity|].
  split; [reflexivity|]. split; [|split].
  - intros Hs. rewrite (bool_decide_eq_true_2 _ Hs). split; [reflexivity|].
    cbn [trace]. rewrite emitted_grounded_stream, T.
    by rewrite emitted_app, (provider_calls_no_event _ Q), app_nil_r.
  - intros Hs. by rewrite (bool_decide_eq_false_2 _ Hs).
  - vm_compute. discriminate.
Qed.

Lemma C6_stream_buffers_and_hides_sentinel_witness :
  ∃ s' : @state Fixtures.env_sentinel,
    run_stream (env := Fixtures.env_sentinel) Fixtures.query_gridmaster
      (Some (lit "auto")) Fixtures.ctx_veldra Fixtures.start_sentinel
    = (Ok tt, s')
    ∧ emitted (trace s')
      = [ lit "data: {meta assigned_knowledge grounded 2 0}" ++ nl ++ nl;
          _sse (env := Fixtures.env_sentinel) (ChunkEvent TIER3_ANSWER);
          lit "data: {done true}" ++ nl ++ nl ].
Proof.
  pose (s1 := snd (classify_intent (env := Fixtures.env_sentinel)
                     Fixtures.query_gridmaster Fixtures.start_sentinel)).
  pose (s2 := snd (retrieve_chunks (env := Fixtures.env_sentinel)
                     Fixtures.query_gridmaster Fixtures.ctx_veldra
                     (lit "assigned_knowledge") s1)).
  destruct (C6_stream_buffers_and_hides_sentinel (env := Fixtures.env_sentinel)
              Fixtures.query_gridmaster (Some (lit "auto")) Fixtures.ctx_veldra
              Fixtures.start_sentinel
              classification_default s1
              [ chunk_of_match
                  (MatchObject 0.6%float
                     (Fixtures.knowledge_meta "asset-001" "play-001" 3));
                chunk_of_match
                  (MatchDict (Some 0.4%float)
                     (Some (Fixtures.knowledge_meta "asset-003" "play-001" 7))) ]
              s2
              {| cm_provider := ChatOpenAI; cm_model := lit "gpt-4o-mini";
                 cm_api_key := lit "sk-test"; cm_max_tokens := 1024;
                 cm_temperature := 0.1%float |}
              s2
              [lit "INSUFFICIENT"; lit ""; lit "_CONTEXT"; [10%N]]
              4%nat)
    as (events & s' & Hrun & Htrace & Hsentinel & _ & _).
  - reflexivity.
  - vm_compute. discriminate.
  - vm_compute. discriminate.
  - reflexivity.
  - discriminate.
  - reflexivity.
  - reflexivity.
  - exists s'. split; [exact Hrun|].
    destruct Hsentinel as [_ He]; [reflexivity|].
    rewrite He. reflexivity.
Defined.

(** ** Examples *)

Example strip_removes_surrounding_whitespace :
  PyStr.strip ([10%N; 160%N] ++ lit " INSUFFICIENT_CONTEXT" ++ [9%N; 8232%N])
  = lit "INSUFFICIENT_CONTEXT".
Proof. reflexivity. Qed.

Example strip_keeps_inner_whitespace :
  PyStr.strip (lit " INSUFFICIENT CONTEXT ") = lit "INSUFFICIENT CONTEXT".
Proof. reflexivity. Qed.

Example split_on_fence :
  PyStr.split_on (lit "```json {} ``` trailing") (lit "```")
  = [lit ""; lit "json {} "; lit " trailing"].
Proof. reflexivity. Qed.

Example strip_fences_fenced_json :
  strip_fences Fixtures.fenced_combined = Some Fixtures.doc_combined.
Proof. reflexivity. Qed.

Example classify_fenced_json :
  fst (classify_intent (env := Fixtures.env_combined)
         Fixtures.query_gridmaster Fixtures.start_combined)
  = Ok {| intent := lit "combined"; confidence := 0.9%float;
          reasoning := lit "" |}.
Proof. reflexivity. Qed.

Example play_ids_collapse :
  _play_id_set_from_chunks
    [ Fixtures.test_chunk (Some (lit "play-001"));
      Fixtures.test_chunk (Some (lit "play-002"));
      Fixtures.test_chunk (Some (lit "play-001"));
      Fixtures.test_chunk None ]
  = {[ lit "play-001"; lit "play-002" ]}.
Proof. by vm_compute. Qed.

Example scores_kept_in_index_order :
  map score
    (collect_chunks (env := Fixtures.env_answering) Fixtures.test_matches [])
  = [Some 0.6%float; Some 0.4%float].
Proof. reflexivity. Qed.

(** A user without assigned plays: nothing is retrieved, the answer is the
    tier3 text and the only provider call is the classifier's. *)
Example unassigned_user_gets_tier3 :
  ∃ resp s',
    run (env := Fixtures.env_answering) Fixtures.query_gridmaster
      (Some (lit "auto")) Fixtures.ctx_unassigned Fixtures.start_answering
    = (Ok resp, s')
    ∧ response_tier resp = tier3
    ∧ answer resp = TIER3_ANSWER
    ∧ world s' = 1%nat
    ∧ recommender_calls (trace s') = [∅].
Proof. eexists _, _. split; [vm_compute; reflexivity|]. by vm_compute. Qed.

(** The same request with the generator replying with the sentinel: the
    single response is tier3 without sources. *)
Example insufficient_context_gives_tier3 :
  ∃ resp s',
    run (env := Fixtures.env_sentinel) Fixtures.query_gridmaster
      (Some (lit "auto")) Fixtures.ctx_veldra Fixtures.start_sentinel
    = (Ok resp, s')
    ∧ response_tier resp = tier3
    ∧ sources resp = []
    ∧ recommender_calls (trace s') = [∅].
Proof. eexists _, _. split; [vm_compute; reflexivity|]. by vm_compute. Qed.

(** * Further properties *)

(** ** Trimming *)

Lemma lstrip_app_space l s : all_space l → PyStr.lstrip (l ++ s) = PyStr.lstrip s.
Proof.
  induction 1 as [|c l Hc _ IH]; [reflexivity|].
  simpl. by rewrite Hc.
Qed.

Lemma lstrip_nonspace c s : PyStr.isspace c = false → PyStr.lstrip (c :: s) = c :: s.
Proof. intros H. simpl. by rewrite H. Qed.

Lemma lstrip_decompose s : ∃ l, s = l ++ PyStr.lstrip s ∧ all_space l.
Proof.
  induction s as [|c s (l & E & Hl)].
  - exists []. split; [reflexivity | constructor].
  - simpl. destruct (PyStr.isspace c) eqn:Hc.
    + exists (c :: l). split; [by rewrite E at 1 | by constructor].
    + exists []. split; [reflexivity | constructor].
Qed.

Lemma lstrip_head s c s' : PyStr.lstrip s = c :: s' → PyStr.isspace c = false.
Proof.
  induction s as [|a s IH]; [discriminate|].
  simpl. destruct (PyStr.isspace a) eqn:Ha; [exact IH|].
  intros E. injection E as <- _. exact Ha.
Qed.

Lemma all_space_rev l : all_space l → all_space (rev l).
Proof.
  unfold all_space. rewrite !Forall_forall. intros H c Hc.
  apply H. apply list_elem_of_In, in_rev. by apply list_elem_of_In.
Qed.

Lemma rstrip_app_space s r : all_space r → PyStr.rstrip (s ++ r) = PyStr.rstrip s.
Proof.
  intros H. unfold PyStr.rstrip.
  rewrite rev_app_distr, lstrip_app_space by by apply all_space_rev.
  reflexivity.
Qed.

Lemma rstrip_nonspace s c : PyStr.isspace c = false → PyStr.rstrip (s ++ [c]) = s ++ [c].
Proof.
  intros H. unfold PyStr.rstrip.
  rewrite rev_app_distr. simpl. rewrite H. simpl.
  by rewrite rev_involutive.
Qed.

Lemma rstrip_decompose s : ∃ r, s = PyStr.rstrip s ++ r ∧ all_space r.
Proof.
  destruct (lstrip_decompose (rev s)) as (l & E & Hl).
  exists (rev l). split; [|by apply all_space_rev].
  unfold PyStr.rstrip. rewrite <- rev_app_distr, <- E.
  by rewrite rev_involutive.
Qed.

Lemma rstrip_last s x c : PyStr.rstrip s = x ++ [c] → PyStr.isspace c = false.
Proof.
  unfold PyStr.rstrip. intros E.
  apply (f_equal (@rev N)) in E.
  rewrite rev_involutive, rev_app_distr in E. simpl in E.
  by apply lstrip_head in E.
Qed.

Lemma strip_decompose s :
  ∃ l r, s = l ++ PyStr.strip s ++ r ∧ all_space l ∧ all_space r.
Proof.
  destruct (lstrip_decompose s) as (l & E & Hl).
  destruct (rstrip_decompose (PyStr.lstrip s)) as (r & E' & Hr).
  exists l, r. unfold PyStr.strip. by rewrite <- E', <- E.
Qed.

Lemma strip_trimmed s : trimmed (PyStr.strip s).
Proof.
  unfold PyStr.strip. split.
  - intros c x' E.
    destruct (rstrip_decompose (PyStr.lstrip s)) as (r & E' & _).
    rewrite E in E'. by apply lstrip_head in E'.
  - intros x' c E. by apply rstrip_last in E.
Qed.

Lemma strip_of_trimmed x : trimmed x → PyStr.strip x = x.
Proof.
  intros [Hhead Hlast]. unfold PyStr.strip.
  destruct x as [|a x]; [reflexivity|].
  rewrite lstrip_nonspace by by eapply Hhead.
  destruct (exists_last (l := a :: x)) as (y & b & E); [discriminate|].
  rewrite E. apply rstrip_nonspace. by eapply Hlast.
Qed.

Lemma strip_idempotent s : PyStr.strip (PyStr.strip s) = PyStr.strip s.
Proof. apply strip_of_trimmed, strip_trimmed. Qed.

Lemma strip_padded l x r :
  all_space l → all_space r → trimmed x → PyStr.strip (l ++ x ++ r) = x.
Proof.
  intros Hl Hr Hx. unfold PyStr.strip.
  rewrite lstrip_app_space by exact Hl.
  destruct x as [|a x].
  - simpl. destruct (lstrip_decompose r) as (l' & E & Hl').
    assert (PyStr.lstrip r = []) as ->.
    { destruct (PyStr.lstrip r) as [|c r'] eqn:Er; [reflexivity|].
      pose proof (lstrip_head _ _ _ Er) as Hc.
      rewrite E in Hr. apply Forall_app in Hr as [_ Hr].
      inversion Hr as [|? ? Hc' _]. congruence. }
    reflexivity.
  - change ((a :: x) ++ r) with (a :: (x ++ r)).
    rewrite lstrip_nonspace by by eapply (proj1 Hx).
    change (a :: (x ++ r)) with ((a :: x) ++ r).
    rewrite rstrip_app_space by exact Hr.
    fold (PyStr.strip (a :: x)).
    change (PyStr.rstrip (a :: x)) with (PyStr.rstrip (a :: x)).
    pose proof (strip_of_trimmed _ Hx) as S. unfold PyStr.strip in S.
    rewrite lstrip_nonspace in S by by eapply (proj1 Hx). exact S.
Qed.

Lemma sentinel_trimmed : trimmed (lit "INSUFFICIENT_CONTEXT").
Proof.
  split.
  - intros c x' E. injection E as <- _. reflexivity.
  - intros x' c E.
    assert (L : last (lit "INSUFFICIENT_CONTEXT") = Some c)
      by (rewrite E; apply last_snoc).
    vm_compute in L. injection L as <-. reflexivity.
Qed.

(** ** What the filters accept *)

Lemma matches_FEq meta field value :
  matches_filter meta (FEq field value) = true
  ↔ str_fields meta !! field = Some value.
Proof.
  simpl. destruct (str_fields meta !! field) as [v|].
  - rewrite bool_decide_eq_true. split; congruence.
  - split; discriminate.
Qed.

Lemma matches_FIn meta field values :
  matches_filter meta (FIn field values) = true
  ↔ ∃ v, str_fields meta !! field = Some v ∧ v ∈ values.
Proof.
  simpl. destruct (str_fields meta !! field) as [v|].
  - rewrite bool_decide_eq_true. split; [eauto|].
    intros (v' & E & Hin). by injection E as ->.
  - split; [discriminate|]. intros (v' & E & _). discriminate.
Qed.

Lemma knowledge_filter_accepts ctx meta :
  matches_filter meta (knowledge_filter ctx) = true
  ↔ str_fields meta !! lit "company_id" = Some (company_id ctx)
    ∧ str_fields meta !! lit "content_type" = Some (lit "knowledge")
    ∧ ∃ p, str_fields meta !! lit "play_id" = Some p
           ∧ p ∈ assigned_play_ids ctx.
Proof.
  unfold knowledge_filter, company_fence.
  cbn [matches_filter forallb].
  rewrite !andb_true_iff.
  change (match str_fields meta !! lit "company_id" with
          | Some v => bool_decide (v = company_id ctx) | None => false end)
    with (matches_filter meta (FEq (lit "company_id") (company_id ctx))).
  change (match str_fields meta !! lit "content_type" with
          | Some v => bool_decide (v = lit "knowledge") | None => false end)
    with (matches_filter meta (FEq (lit "content_type") (lit "knowledge"))).
  change (match str_fields meta !! lit "play_id" with
          | Some v => bool_decide (v ∈ assigned_play_ids ctx) | None => false end)
    with (matches_filter meta (FIn (lit "play_id") (assigned_play_ids ctx))).
  rewrite !matches_FEq, matches_FIn. tauto.
Qed.

Lemma submission_filter_accepts ctx meta :
  matches_filter meta (submission_filter ctx) = true
  ↔ str_fields meta !! lit "company_id" = Some (company_id ctx)
    ∧ str_fields meta !! lit "content_type" = Some (lit "submission")
    ∧ str_fields meta !! lit "user_id" = Some (user_id ctx).
Proof.
  unfold submission_filter, company_fence.
  cbn [matches_filter forallb].
  rewrite !andb_true_iff.
  change (match str_fields meta !! lit "company_id" with
          | Some v => bool_decide (v = company_id ctx) | None => false end)
    with (matches_filter meta (FEq (lit "company_id") (company_id ctx))).
  change (match str_fields meta !! lit "content_type" with
          | Some v => bool_decide (v = lit "submission") | None => false end)
    with (matches_filter meta (FEq (lit "content_type") (lit "submission"))).
  change (match str_fields meta !! lit "user_id" with
          | Some v => bool_decide (v = user_id ctx) | None => false end)
    with (matches_filter meta (FEq (lit "user_id") (user_id ctx))).
  rewrite !matches_FEq. tauto.
Qed.

Lemma combined_filter_union ctx meta :
  matches_filter meta (combined_filter ctx)
  = matches_filter meta (knowledge_filter ctx)
    || matches_filter meta (submission_filter ctx).
Proof.
  unfold combined_filter, knowledge_filter, submission_filter.
  cbn [matches_filter forallb existsb].
  destruct (matches_filter meta (company_fence ctx));
    destruct (str_fields meta !! lit "content_type") as [ct|];
    destruct (str_fields meta !! lit "play_id") as [p|];
    destruct (str_fields meta !! lit "user_id") as [u|];
    simpl; repeat case_bool_decide; reflexivity.
Qed.

Lemma build_knowledge ctx intent :
  intent ≠ lit "performance_history" → intent ≠ lit "combined" →
  build_pinecone_filter ctx intent = knowledge_filter ctx.
Proof.
  intros H1 H2. unfold build_pinecone_filter.
  by rewrite !bool_decide_eq_false_2.
Qed.

(** X1. A user without assigned plays: for every intent that selects the
    knowledge filter, the filter accepts no record at all, so the short
    circuit of the retriever loses nothing. *)
Theorem knowledge_filter_empty_allow_list (ctx : UserContext) (intent : str)
    (meta : metadata) :
  assigned_play_ids ctx = [] →
  intent ≠ lit "performance_history" →
  intent ≠ lit "combined" →
  matches_filter meta (build_pinecone_filter ctx intent) = false.
Proof.
  intros Hids H1 H2. rewrite build_knowledge by assumption.
  destruct (matches_filter meta (knowledge_filter ctx)) eqn:E; [|reflexivity].
  apply knowledge_filter_accepts in E as (_ & _ & p & _ & Hin).
  rewrite Hids in Hin. by apply not_elem_of_nil in Hin.
Qed.

Lemma knowledge_filter_empty_allow_list_witness :
  matches_filter (Fixtures.knowledge_meta "asset-001" "play-001" 3)
    (build_pinecone_filter Fixtures.ctx_unassigned (lit "general_professional"))
  = false.
Proof.
  apply knowledge_filter_empty_allow_list.
  - reflexivity.
  - vm_compute. discriminate.
  - vm_compute. discriminate.
Defined.

(** X2. A user without assigned plays and the intent [combined]: the combined
    filter accepts what the submission filter accepts, among it every
    submission record of the user's company and id; the retriever
    nevertheless returns the empty list without calling a provider. *)
Theorem combined_without_plays_short_circuits {env : Env} (query : str)
    (ctx : UserContext) (s : state) :
  assigned_play_ids ctx = [] →
  (∀ meta : metadata,
      matches_filter meta (build_pinecone_filter ctx (lit "combined"))
      = matches_filter meta
          (build_pinecone_filter ctx (lit "performance_history")))
  ∧ (∀ meta : metadata,
        str_fields meta !! lit "company_id" = Some (company_id ctx) →
        str_fields meta !! lit "content_type" = Some (lit "submission") →
        str_fields meta !! lit "user_id" = Some (user_id ctx) →
        matches_filter meta (build_pinecone_filter ctx (lit "combined")) = true)
  ∧ retrieve_chunks query ctx (lit "combined") s = (Ok [], s).
Proof.
  intros Hids.
  assert (Hk : ∀ meta, matches_filter meta (knowledge_filter ctx) = false).
  { intros meta.
    destruct (matches_filter meta (knowledge_filter ctx)) eqn:E; [|reflexivity].
    apply knowledge_filter_accepts in E as (_ & _ & p & _ & Hin).
    rewrite Hids in Hin. by apply not_elem_of_nil in Hin. }
  assert (Hc : ∀ meta,
             matches_filter meta (build_pinecone_filter ctx (lit "combined"))
             = matches_filter meta (submission_filter ctx)).
  { intros meta.
    change (build_pinecone_filter ctx (lit "combined")) with (combined_filter ctx).
    by rewrite combined_filter_union, Hk. }
  split; [exact Hc|]. split.
  - intros meta H1 H2 H3. rewrite Hc.
    by apply submission_filter_accepts.
  - apply retrieve_chunks_short_circuit; [exact Hids|].
    vm_compute. discriminate.
Qed.

Lemma combined_without_plays_short_circuits_witness :
  matches_filter
    {| str_fields :=
         list_to_map [ (lit "company_id", lit "comp-veldra-001");
                       (lit "content_type", lit "submission");
                       (lit "user_id", lit "user-test-003") ];
       int_fields := ∅ |}
    (build_pinecone_filter Fixtures.ctx_unassigned (lit "combined")) = true
  ∧ retrieve_chunks (env := Fixtures.env_answering) Fixtures.query_gridmaster
      Fixtures.ctx_unassigned (lit "combined") Fixtures.start_answering
    = (Ok [], Fixtures.start_answering).
Proof.
  destruct (combined_without_plays_short_circuits
              (env := Fixtures.env_answering) Fixtures.query_gridmaster
              Fixtures.ctx_unassigned Fixtures.start_answering)
    as (_ & Hacc & Hret); [reflexivity|].
  split; [|exact Hret].
  apply Hacc; reflexivity.
Defined.

(** ** More on the retriever *)

Section RetrieverMore.

Context {env : Env}.

(** The guard of the short circuit, as a proposition. *)
Lemma retrieve_guard_false ctx intent :
  ¬ (assigned_play_ids ctx = [] ∧ intent ≠ lit "performance_history") →
  bool_decide (assigned_play_ids ctx = [])
  && negb (bool_decide (intent = lit "performance_history")) = false.
Proof.
  intros Hguard. apply andb_false_iff.
  destruct (decide (assigned_play_ids ctx = [])) as [E|E].
  - right. apply negb_false_iff, bool_decide_eq_true.
    destruct (decide (intent = lit "performance_history")); [done|].
    exfalso. auto.
  - left. by apply bool_decide_eq_false.
Qed.

Lemma retrieve_chunks_Ok_inv query ctx intent s chunks s' :
  retrieve_chunks query ctx intent s = (Ok chunks, s') →
  ∃ raw_matches : list scored_match,
    chunks = map chunk_of_match (filter kept raw_matches).
Proof.
  unfold retrieve_chunks. destruct (_ && _).
  - intros H. injection H as <- _. by exists [].
  - intros H.
    apply bind_Ok in H as (vector & s1 & _ & H).
    apply bind_Ok in H as (results & s2 & _ & H).
    injection H as <- _. exists (default [] results).
    by rewrite collect_chunks_filter_map.
Qed.

Lemma retrieve_chunks_embedding_fails query ctx intent s e w1 :
  ¬ (assigned_play_ids ctx = [] ∧ intent ≠ lit "performance_history") →
  embeddings_create (openai_api_key settings) (embedding_model settings)
    query (embedding_dimensions settings) (world s) = (Raised e, w1) →
  retrieve_chunks query ctx intent s
  = (Raised e,
     {| world := w1;
        trace := trace s
          ++ [ EmbeddingsCreate (embedding_model settings) query
                 (embedding_dimensions settings) ] |}).
Proof.
  intros Hguard Hembed. unfold retrieve_chunks.
  rewrite (retrieve_guard_false _ _ Hguard).
  unfold bind, call. by rewrite Hembed.
Qed.

Lemma retrieve_chunks_index_fails query ctx intent s vector w1 e w2 :
  ¬ (assigned_play_ids ctx = [] ∧ intent ≠ lit "performance_history") →
  embeddings_create (openai_api_key settings) (embedding_model settings)
    query (embedding_dimensions settings) (world s) = (Ok vector, w1) →
  index_query (pinecone_api_key settings) (pinecone_index_name settings)
    vector (pinecone_top_k settings) (build_pinecone_filter ctx intent) w1
  = (Raised e, w2) →
  retrieve_chunks query ctx intent s
  = (Raised e,
     {| world := w2;
        trace := trace s
          ++ [ EmbeddingsCreate (embedding_model settings) query
                 (embedding_dimensions settings);
               IndexQuery (pinecone_index_name settings) vector
                 (pinecone_top_k settings)
                 (build_pinecone_filter ctx intent) ] |}).
Proof.
  intros Hguard Hembed Hquery. unfold retrieve_chunks.
  rewrite (retrieve_guard_false _ _ Hguard).
  unfold bind, call. rewrite Hembed. simpl. rewrite Hquery. simpl.
  by rewrite <- app_assoc.
Qed.

End RetrieverMore.

(** X3. Every chunk [retrieve_chunks] returns carries a score, and that score
    is not below the similarity threshold. *)
Theorem retrieved_chunks_meet_threshold {env : Env} (query : str)
    (ctx : UserContext) (intent : str) (s : state)
    (chunks : list SourceChunk) (s' : state) :
  retrieve_chunks query ctx intent s = (Ok chunks, s') →
  Forall (λ c, ∃ sc : float,
             score c = Some sc
             ∧ PrimFloat.ltb sc (similarity_threshold settings) = false)
         chunks.
Proof.
  intros H. apply retrieve_chunks_Ok_inv in H as (raw & ->).
  apply Forall_forall. intros c Hc.
  apply list_elem_of_fmap in Hc as (m & -> & Hm).
  apply list_elem_of_filter in Hm as [Hk _].
  exists (match_score m). split; [reflexivity | exact Hk].
Qed.


(** X4. A failure of the embedding service or of the index is the failure of
    [retrieve_chunks]: it is raised, not turned into an empty result, and
    after a failed embedding the index is not queried. *)
Theorem retrieval_failure_propagates {env : Env} (query : str)
    (ctx : UserContext) (intent : str) (s : state) :
  ¬ (assigned_play_ids ctx = [] ∧ intent ≠ lit "performance_history") →
  (∀ e w1,
      embeddings_create (openai_api_key settings) (embedding_model settings)
        query (embedding_dimensions settings) (world s) = (Raised e, w1) →
      ∃ s', retrieve_chunks query ctx intent s = (Raised e, s')
            ∧ trace s'
              = trace s ++ [ EmbeddingsCreate (embedding_model settings) query
                               (embedding_dimensions settings) ])
  ∧ (∀ vector w1 e w2,
        embeddings_create (openai_api_key settings) (embedding_model settings)
          query (embedding_dimensions settings) (world s) = (Ok vector, w1) →
        index_query (pinecone_api_key settings) (pinecone_index_name settings)
          vector (pinecone_top_k settings) (build_pinecone_filter ctx intent) w1
        = (Raised e, w2) →
        ∃ s', retrieve_chunks query ctx intent s = (Raised e, s')).
Proof.
  intros Hguard. split.
  - intros e w1 Hembed. eexists. split.
    + by apply retrieve_chunks_embedding_fails.
    + reflexivity.
  - intros vector w1 e w2 Hembed Hquery. eexists.
    by eapply retrieve_chunks_index_fails.
Qed.

(** ** What a computation may append *)

Section AppendsFacts.

Context {env : Env}.
Context (P : action → Prop).

Lemma appends_ret {A} (a : A) : appends P (ret a).
Proof.
  intros s r s' H. injection H as <- <-.
  exists []. by rewrite app_nil_r.
Qed.

Lemma appends_raise {A} (e : exn) : appends P (raise (A := A) e).
Proof.
  intros s r s' H. injection H as <- <-.
  exists []. by rewrite app_nil_r.
Qed.

Lemma appends_bind {A B} (m : M A) (k : A → M B) :
  appends P m → (∀ a, appends P (k a)) → appends P (bind m k).
Proof.
  intros Hm Hk s r s' H. unfold bind in H.
  destruct (m s) as [[a|e] s1] eqn:E.
  - destruct (Hm _ _ _ E) as (t1 & T1 & F1).
    destruct (Hk a _ _ _ H) as (t2 & T2 & F2).
    exists (t1 ++ t2). rewrite T2, T1, <- app_assoc. split; [reflexivity|].
    by apply Forall_app.
  - injection H as <- <-. exact (Hm _ _ _ E).
Qed.

Lemma appends_try_except {A} (m : M A) (handler : exn → M A) :
  appends P m → (∀ e, appends P (handler e)) → appends P (try_except m handler).
Proof.
  intros Hm Hh s r s' H. unfold try_except in H.
  destruct (m s) as [[a|e] s1] eqn:E.
  - injection H as <- <-. exact (Hm _ _ _ E).
  - destruct (Hm _ _ _ E) as (t1 & T1 & F1).
    destruct (Hh e _ _ _ H) as (t2 & T2 & F2).
    exists (t1 ++ t2). rewrite T2, T1, <- app_assoc. split; [reflexivity|].
    by apply Forall_app.
Qed.

Lemma appends_log (a : action) : P a → appends P (log a).
Proof.
  intros Ha s r s' H. injection H as <- <-.
  exists [a]. split; [reflexivity|]. by constructor.
Qed.

Lemma appends_call {A} (a : action) (p : World → result A * World) :
  P a → appends P (call a p).
Proof.
  intros Ha s r s' H. unfold call in H.
  destruct (p (world s)) as [r0 w]. injection H as <- <-.
  exists [a]. split; [reflexivity|]. by constructor.
Qed.

Lemma appends_get_llm name max_tokens temperature :
  appends P (get_llm name max_tokens temperature).
Proof.
  intros s r s' H. apply get_llm_state in H as [-> _].
  exists []. by rewrite app_nil_r.
Qed.

Lemma appends_astream llm messages :
  P (LLMStream llm messages) → appends P (astream llm messages).
Proof.
  intros Ha s r s' H. unfold astream in H.
  destruct (llm_astream llm messages (world s)) as [d w].
  injection H as <- <-.
  exists [LLMStream llm messages]. split; [reflexivity|]. by constructor.
Qed.

Lemma appends_astream_for {A} texts failure (body : A → str → M A) acc :
  (∀ text, P (Delivered text)) →
  (∀ acc text, appends P (body acc text)) →
  appends P (astream_for texts failure body acc).
Proof.
  intros Hd Hbody. revert acc.
  induction texts as [|text rest IH]; intros acc; simpl.
  - destruct failure; [apply appends_raise | apply appends_ret].
  - apply appends_bind; [by apply appends_log|]. intros _.
    apply appends_bind; [|intros acc'; apply IH].
    case_bool_decide; [apply appends_ret | apply Hbody].
Qed.

End AppendsFacts.

Section FencedQueries.

Context {env : Env}.

Lemma fenced_build ctx intent :
  fenced (company_id ctx) (build_pinecone_filter ctx intent).
Proof.
  destruct (build_pinecone_filter_cases ctx intent) as [E | [E | E]];
    rewrite E; eexists; reflexivity.
Qed.

Lemma index_filters_fenced company t :
  Forall (fenced_action company) t → Forall (fenced company) (index_filters t).
Proof.
  induction 1 as [|a t Ha _ IH]; [constructor|].
  unfold index_filters in *. destruct a; simpl; try exact IH.
  constructor; [exact Ha | exact IH].
Qed.

Lemma fenced_classify_intent company query :
  appends (fenced_action company) (classify_intent query).
Proof.
  unfold classify_intent.
  apply appends_bind; [apply appends_get_llm|]. intros llm.
  apply appends_bind; [by apply appends_call|]. intros response.
  destruct (strip_fences response); [|apply appends_raise].
  destruct (parse_intent_result _); apply appends_ret.
Qed.

Lemma fenced_retrieve_chunks query ctx intent :
  appends (fenced_action (company_id ctx)) (retrieve_chunks query ctx intent).
Proof.
  unfold retrieve_chunks.
  destruct (_ && _); [apply appends_ret|].
  apply appends_bind; [by apply appends_call|]. intros vector.
  apply appends_bind; [|intros results; apply appends_ret].
  apply appends_call. apply fenced_build.
Qed.

Lemma fenced_generate_general_answer company query :
  appends (fenced_action company) (generate_general_answer query).
Proof.
  unfold generate_general_answer.
  apply appends_bind; [apply appends_get_llm|]. intros llm.
  apply appends_bind; [by apply appends_call|]. intros response.
  apply appends_ret.
Qed.

Lemma fenced_generate_grounded_answer company query chunks :
  appends (fenced_action company) (generate_grounded_answer query chunks).
Proof.
  unfold generate_grounded_answer.
  apply appends_bind; [apply appends_get_llm|]. intros llm.
  apply appends_bind; [by apply appends_call|]. intros response.
  case_bool_decide; apply appends_ret.
Qed.

Lemma fenced_recommend company ctx ids query :
  appends (fenced_action company) (recommend ctx ids query).
Proof.
  unfold recommend.
  apply appends_bind; [by apply appends_log|]. intros _. apply appends_ret.
Qed.

Lemma fenced_yield_sse company data :
  appends (fenced_action company) (yield_sse data).
Proof. by apply appends_log. Qed.

Lemma fenced_yield_tokens company tokens :
  appends (fenced_action company) (yield_tokens tokens).
Proof.
  induction tokens as [|token rest IH]; simpl; [apply appends_ret|].
  apply appends_bind; [apply fenced_yield_sse|]. intros _. exact IH.
Qed.

Lemma fenced_run query mode ctx :
  appends (fenced_action (company_id ctx)) (run query mode ctx).
Proof.
  unfold run.
  apply appends_bind; [apply fenced_classify_intent|]. intros ir.
  case_bool_decide; [apply appends_ret|].
  case_bool_decide.
  { apply appends_bind; [apply fenced_generate_general_answer|]. intros text.
    apply appends_bind; [apply fenced_recommend|]. intros recs.
    apply appends_ret. }
  apply appends_bind; [apply fenced_retrieve_chunks|]. intros chunks.
  case_bool_decide.
  { apply appends_bind; [apply fenced_recommend|]. intros recs.
    apply appends_ret. }
  apply appends_bind; [apply fenced_generate_grounded_answer|].
  intros [text is_sufficient].
  destruct is_sufficient; simpl;
    (apply appends_bind; [apply fenced_recommend|]; intros recs;
     apply appends_ret).
Qed.

Lemma fenced_run_stream query mode ctx :
  appends (fenced_action (company_id ctx)) (run_stream query mode ctx).
Proof.
  unfold run_stream.
  apply appends_try_except; [|intros e; apply fenced_yield_sse].
  apply appends_bind; [apply fenced_classify_intent|]. intros ir.
  case_bool_decide.
  { repeat (apply appends_bind; [apply fenced_yield_sse|]; intros _).
    apply fenced_yield_sse. }
  case_bool_decide.
  { apply appends_bind; [apply fenced_recommend|]. intros recs.
    apply appends_bind; [apply fenced_yield_sse|]. intros _.
    apply appends_bind; [|intros _; apply fenced_yield_sse].
    unfold stream_general_answer.
    apply appends_bind; [apply appends_get_llm|]. intros llm.
    apply appends_bind; [by apply appends_astream|]. intros d.
    apply appends_astream_for; [done|]. intros _ text.
    apply fenced_yield_sse. }
  apply appends_bind; [apply fenced_retrieve_chunks|]. intros chunks.
  case_bool_decide.
  { apply appends_bind; [apply fenced_recommend|]. intros recs.
    repeat (apply appends_bind; [apply fenced_yield_sse|]; intros _).
    apply fenced_yield_sse. }
  apply appends_bind; [apply fenced_recommend|]. intros recs.
  apply appends_bind; [apply fenced_yield_sse|]. intros _.
  apply appends_bind.
  { unfold stream_grounded_answer.
    apply appends_bind; [apply appends_get_llm|]. intros llm.
    apply appends_bind; [by apply appends_astream|]. intros d.
    apply appends_astream_for; [done|]. intros buffer text.
    apply appends_ret. }
  intros token_buffer.
  apply appends_bind; [|intros _; apply fenced_yield_sse].
  case_bool_decide; [apply fenced_yield_sse | apply fenced_yield_tokens].
Qed.

End FencedQueries.

(** X5. Whatever the query, the mode and the outcome, every query that [run]
    or [run_stream] sends to the index carries a filter whose first
    conjunct is the company id of the user context. *)
Theorem index_queries_are_fenced {env : Env} (query : str)
    (mode : option str) (ctx : UserContext) (s : state) :
  (∀ r s', run query mode ctx s = (r, s') →
     ∃ t, trace s' = trace s ++ t
          ∧ Forall (fenced (company_id ctx)) (index_filters t))
  ∧ (∀ r s', run_stream query mode ctx s = (r, s') →
       ∃ t, trace s' = trace s ++ t
            ∧ Forall (fenced (company_id ctx)) (index_filters t)).
Proof.
  split; intros r s' H.
  - destruct (fenced_run query mode ctx _ _ _ H) as (t & T & F).
    exists t. split; [exact T|]. by apply index_filters_fenced.
  - destruct (fenced_run_stream query mode ctx _ _ _ H) as (t & T & F).
    exists t. split; [exact T|]. by apply index_filters_fenced.
Qed.


(** ** More on the classifier *)

Section ClassifierMore.

Context {env : Env}.

Lemma startswith_nil s : PyStr.startswith s [] = true.
Proof. by destruct s. Qed.

Lemma startswith_app p s : PyStr.startswith (p ++ s) p = true.
Proof.
  induction p as [|a p IH]; [apply startswith_nil|].
  simpl. by rewrite N.eqb_refl.
Qed.

Lemma startswith_cons_ne c s a p :
  c ≠ a → PyStr.startswith (c :: s) (a :: p) = false.
Proof.
  intros H. simpl. apply andb_false_iff. left.
  apply N.eqb_neq. congruence.
Qed.

(** Scanning a piece without backticks only lengthens the current piece. *)
Lemma split_from_plain x cur s :
  96%N ∉ x →
  PyStr.split_from (lit "```") 0 cur (x ++ s)
  = PyStr.split_from (lit "```") 0 (rev x ++ cur) s.
Proof.
  revert cur. induction x as [|c x IH]; intros cur Hx; [reflexivity|].
  apply not_elem_of_cons in Hx as [Hc Hx].
  change ((c :: x) ++ s) with (c :: (x ++ s)).
  cbn [PyStr.split_from].
  change (lit "```") with (96%N :: lit "``") at 1.
  rewrite startswith_cons_ne by congruence.
  rewrite IH by exact Hx. simpl. by rewrite <- app_assoc.
Qed.

(** A fence closes the current piece and opens an empty one. *)
Lemma split_from_fence cur s :
  PyStr.split_from (lit "```") 0 cur (lit "```" ++ s)
  = rev cur :: PyStr.split_from (lit "```") 0 [] s.
Proof.
  change (lit "```") with [96%N; 96%N; 96%N].
  cbn [app PyStr.split_from PyStr.startswith length Nat.sub].
  by rewrite !N.eqb_refl, startswith_nil.
Qed.

Lemma split_on_fenced x :
  96%N ∉ x →
  PyStr.split_on (lit "```" ++ x ++ lit "```") (lit "```") = [ []; x; [] ].
Proof.
  intros Hx. unfold PyStr.split_on.
  rewrite (split_from_fence [] (x ++ lit "```")). simpl rev.
  rewrite split_from_plain by exact Hx.
  rewrite <- (app_nil_r (lit "```")) at 2.
  rewrite (split_from_fence (rev x ++ []) []).
  rewrite app_nil_r, rev_involutive. reflexivity.
Qed.

Lemma startswith_no_backtick x :
  96%N ∉ x → PyStr.startswith x (lit "```") = false.
Proof.
  destruct x as [|c x]; [reflexivity|].
  intros Hx. apply not_elem_of_cons in Hx as [Hc _].
  change (lit "```") with (96%N :: lit "``").
  apply startswith_cons_ne. congruence.
Qed.

Lemma strip_no_backtick x : 96%N ∉ x → 96%N ∉ PyStr.strip x.
Proof.
  intros Hx Hin. apply Hx.
  destruct (strip_decompose x) as (l & r & E & _ & _).
  rewrite E. apply elem_of_app. right. apply elem_of_app. by left.
Qed.

Lemma strip_fences_plain doc :
  96%N ∉ doc → strip_fences doc = Some (PyStr.strip doc).
Proof.
  intros Hdoc. unfold strip_fences.
  rewrite startswith_no_backtick by by apply strip_no_backtick.
  simpl. by rewrite strip_idempotent.
Qed.

Lemma strip_fenced_content x :
  PyStr.strip (lit "```" ++ x ++ lit "```") = lit "```" ++ x ++ lit "```".
Proof.
  apply strip_of_trimmed. split.
  - intros c x' E. injection E as <- _. reflexivity.
  - intros x' c E.
    assert (L : last (lit "```" ++ x ++ lit "```") = Some c)
      by (rewrite E; apply last_snoc).
    rewrite !app_assoc in L.
    change (lit "```") with ([96%N; 96%N] ++ [96%N]) in L at 2.
    rewrite app_assoc, last_snoc in L. injection L as <-. reflexivity.
Qed.

Lemma strip_fences_fenced_with tag doc :
  96%N ∉ doc → 96%N ∉ tag →
  strip_fences (lit "```" ++ (tag ++ nl ++ doc ++ nl) ++ lit "```")
  = Some (PyStr.strip
            (if PyStr.startswith (tag ++ nl ++ doc ++ nl) (lit "json")
             then drop 4 (tag ++ nl ++ doc ++ nl)
             else tag ++ nl ++ doc ++ nl)).
Proof.
  intros Hdoc Htag. unfold strip_fences.
  rewrite strip_fenced_content.
  rewrite startswith_app.
  rewrite split_on_fenced; [reflexivity|].
  rewrite !elem_of_app. unfold nl. rewrite !list_elem_of_singleton.
  intros [H | [H | [H | H]]]; try contradiction; discriminate.
Qed.

Lemma strip_nl_padded doc : PyStr.strip (nl ++ doc ++ nl) = PyStr.strip doc.
Proof.
  destruct (strip_decompose doc) as (l & r & E & Hl & Hr).
  rewrite E at 1.
  replace (nl ++ (l ++ PyStr.strip doc ++ r) ++ nl)
    with ((nl ++ l) ++ PyStr.strip doc ++ (r ++ nl))
    by (by rewrite <- !app_assoc).
  apply strip_padded.
  - apply Forall_app. split; [|exact Hl]. by repeat constructor.
  - apply Forall_app. split; [exact Hr|]. by repeat constructor.
  - apply strip_trimmed.
Qed.

End ClassifierMore.

(** X6. A markdown fence is transparent: for a document without backticks,
    wrapping it in a fence tagged [json], or in a bare fence, gives the
    same cleaned text as the document alone, so the classifier decodes
    the same text in all three cases. *)
Theorem strip_fences_ignores_fence (doc : str) :
  96%N ∉ doc →
  strip_fences doc = Some (PyStr.strip doc)
  ∧ strip_fences (lit "```json" ++ nl ++ doc ++ nl ++ lit "```")
    = Some (PyStr.strip doc)
  ∧ strip_fences (lit "```" ++ nl ++ doc ++ nl ++ lit "```")
    = Some (PyStr.strip doc).
Proof.
  intros Hdoc. split; [by apply strip_fences_plain|]. split.
  - pose proof (strip_fences_fenced_with (lit "json") doc Hdoc) as H.
    replace (lit "```json" ++ nl ++ doc ++ nl ++ lit "```")
      with (lit "```" ++ (lit "json" ++ nl ++ doc ++ nl) ++ lit "```")
      by (simpl; by rewrite <- !app_assoc).
    rewrite H by (apply (bool_decide_unpack _); by vm_compute).
    rewrite startswith_app.
    change (drop 4 (lit "json" ++ nl ++ doc ++ nl)) with (nl ++ doc ++ nl).
    by rewrite strip_nl_padded.
  - pose proof (strip_fences_fenced_with [] doc Hdoc) as H.
    replace (lit "```" ++ nl ++ doc ++ nl ++ lit "```")
      with (lit "```" ++ ([] ++ nl ++ doc ++ nl) ++ lit "```")
      by (simpl; by rewrite <- !app_assoc).
    rewrite H by apply not_elem_of_nil.
    change ([] ++ nl ++ doc ++ nl) with (nl ++ doc ++ nl).
    assert (E : PyStr.startswith (nl ++ doc ++ nl) (lit "json") = false)
      by reflexivity.
    rewrite E. by rewrite strip_nl_padded.
Qed.

Lemma strip_fences_ignores_fence_witness :
  strip_fences Fixtures.doc_combined = Some Fixtures.doc_combined
  ∧ strip_fences (lit "```json" ++ nl ++ Fixtures.doc_combined ++ nl ++ lit "```")
    = Some Fixtures.doc_combined
  ∧ strip_fences (lit "```" ++ nl ++ Fixtures.doc_combined ++ nl ++ lit "```")
    = Some Fixtures.doc_combined.
Proof.
  apply (strip_fences_ignores_fence Fixtures.doc_combined).
  apply (bool_decide_unpack _). by vm_compute.
Defined.

(** X7. A failure before the chat model's output exists is not covered by
    the classifier's default: an unusable model name raises without any
    provider call, and a failure of the chat model is raised after the
    one call. *)
Theorem classifier_failure_propagates {env : Env} (query : str) (s : state) :
  (∀ e s1,
      get_llm (model settings) 256 0%float s = (Raised e, s1) →
      classify_intent query s = (Raised e, s))
  ∧ (∀ llm s1 e w2,
        get_llm (model settings) 256 0%float s = (Ok llm, s1) →
        llm_invoke llm (classifier_messages query) (world s1) = (Raised e, w2) →
        ∃ s', classify_intent query s = (Raised e, s')
              ∧ trace s' = trace s ++ [LLMInvoke llm (classifier_messages query)]).
Proof.
  split.
  - intros e s1 H. pose proof (get_llm_state _ _ _ _ _ _ H) as [-> _].
    unfold classify_intent. by rewrite (bind_raised _ _ _ _ _ H).
  - intros llm s1 e w2 H Hinvoke.
    pose proof (get_llm_state _ _ _ _ _ _ H) as [-> _].
    unfold classify_intent. rewrite (bind_step _ _ _ _ _ H).
    unfold bind, invoke, call. rewrite Hinvoke. eexists. split; reflexivity.
Qed.

(** ** More on the generators *)

Section GeneratorMore.

Context {env : Env}.

Lemma generate_grounded_answer_Ok_inv query chunks s text b s' :
  generate_grounded_answer query chunks s = (Ok (text, b), s') →
  ∃ response, text = PyStr.strip response
              ∧ b = negb (bool_decide (text = INSUFFICIENT_CONTEXT)).
Proof.
  unfold generate_grounded_answer. intros H.
  apply bind_Ok in H as (llm & s1 & _ & H).
  apply bind_Ok in H as (response & s2 & _ & H).
  exists response. case_bool_decide as E; injection H as <- <- _.
  - split; [reflexivity|]. by rewrite bool_decide_eq_true_2.
  - split; [reflexivity|]. by rewrite bool_decide_eq_false_2.
Qed.

Lemma generate_general_answer_Ok_inv query s text s' :
  generate_general_answer query s = (Ok text, s') →
  ∃ llm s1 response w,
    get_llm (model settings) 512 0.3%float s = (Ok llm, s1)
    ∧ llm_invoke llm (general_messages query) (world s) = (Ok response, w)
    ∧ text = PyStr.strip response
    ∧ s' = {| world := w;
              trace := trace s ++ [LLMInvoke llm (general_messages query)] |}.
Proof.
  unfold generate_general_answer. intros H.
  apply bind_Ok in H as (llm & s1 & Hllm & H).
  pose proof (get_llm_state _ _ _ _ _ _ Hllm) as [-> _].
  apply bind_Ok in H as (response & s2 & Hi & H).
  injection H as <- <-.
  unfold invoke, call in Hi.
  destruct (llm_invoke llm (general_messages query) (world s)) as [r w] eqn:E.
  injection Hi as -> <-.
  by exists llm, s, response, w.
Qed.

End GeneratorMore.

(** X8. The answers of both generators are trimmed: they neither begin nor
    end with whitespace. *)
Theorem generated_answers_are_trimmed {env : Env} (query : str)
    (chunks : list SourceChunk) (s : state) :
  (∀ text is_sufficient s',
      generate_grounded_answer query chunks s = (Ok (text, is_sufficient), s') →
      trimmed text)
  ∧ (∀ text s',
        generate_general_answer query s = (Ok text, s') → trimmed text).
Proof.
  split.
  - intros text b s' H.
    apply generate_grounded_answer_Ok_inv in H as (response & -> & _).
    apply strip_trimmed.
  - intros text s' H.
    apply generate_general_answer_Ok_inv in H as (? & ? & response & ? & _ & _ & -> & _).
    apply strip_trimmed.
Qed.

(** ** Chat model selection *)

(** ** More on the recommender *)

Section SortFacts.

Context {A K : Type} (le : K → K → bool) (key : A → K).

Lemma insert_by_perm x l : insert_by le key x l ≡ₚ x :: l.
Proof.
  induction l as [|y l IH]; [reflexivity|]. simpl.
  destruct (le (key x) (key y)); [reflexivity|].
  rewrite IH. apply Permutation_swap.
Qed.

Lemma sort_by_key_perm l : sort_by_key le key l ≡ₚ l.
Proof.
  induction l as [|x l IH]; [reflexivity|].
  unfold sort_by_key in *. simpl. by rewrite insert_by_perm, IH.
Qed.

Context (le_total : ∀ a b, le a b = true ∨ le b a = true).
Context (le_trans : ∀ a b c, le a b = true → le b c = true → le a c = true).

Lemma insert_by_sorted x l :
  StronglySorted (λ a b, le (key a) (key b) = true) l →
  StronglySorted (λ a b, le (key a) (key b) = true) (insert_by le key x l).
Proof.
  induction 1 as [|y l Hs IH Hy]; simpl.
  - repeat constructor.
  - destruct (le (key x) (key y)) eqn:E.
    + constructor; [by constructor|].
      constructor; [exact E|].
      eapply Forall_impl; [exact Hy|]. intros z Hz. by eapply le_trans.
    + constructor; [exact IH|].
      rewrite insert_by_perm. constructor; [|exact Hy].
      destruct (le_total (key x) (key y)) as [H|H]; [congruence | exact H].
Qed.

Lemma sort_by_key_sorted l :
  StronglySorted (λ a b, le (key a) (key b) = true) (sort_by_key le key l).
Proof.
  induction l as [|x l IH]; [constructor|].
  unfold sort_by_key in *. simpl. by apply insert_by_sorted.
Qed.

End SortFacts.

Lemma StronglySorted_take {A} (R : A → A → Prop) n l :
  StronglySorted R l → StronglySorted R (take n l).
Proof.
  intros H. revert n. induction H as [|x l Hs IH Hx]; intros [|n]; simpl;
    try constructor; [apply IH|].
  eapply Forall_forall. intros y Hy.
  eapply Forall_forall in Hx; [exact Hx|].
  eapply elem_of_submseteq; [exact Hy | apply submseteq_take].
Qed.

Lemma StronglySorted_map {A B} (R : A → A → Prop) (S : B → B → Prop)
    (f : A → B) l :
  (∀ a b, R a b → S (f a) (f b)) →
  StronglySorted R l → StronglySorted S (map f l).
Proof.
  intros HRS. induction 1 as [|x l Hs IH Hx]; simpl; constructor; [exact IH|].
  apply Forall_forall. intros y Hy.
  apply list_elem_of_fmap in Hy as (a & -> & Ha).
  apply HRS. by eapply Forall_forall in Hx.
Qed.

Lemma StronglySorted_weaken {A} (R S : A → A → Prop) l :
  (∀ a b, R a b → S a b) → StronglySorted R l → StronglySorted S l.
Proof.
  intros HRS. induction 1 as [|x l Hs IH Hx]; constructor; [exact IH|].
  eapply Forall_impl; [exact Hx|]. intros y. apply HRS.
Qed.

Lemma tuple_le_total a b : tuple_le a b = true ∨ tuple_le b a = true.
Proof.
  unfold tuple_le. destruct a as [a1 a2], b as [b1 b2]. simpl.
  destruct (Z.ltb_spec a1 b1), (Z.ltb_spec b1 a1),
    (Z.eqb_spec a1 b1), (Z.eqb_spec b1 a1),
    (Z.leb_spec a2 b2), (Z.leb_spec b2 a2); simpl; auto; lia.
Qed.

Lemma tuple_le_trans a b c :
  tuple_le a b = true → tuple_le b c = true → tuple_le a c = true.
Proof.
  unfold tuple_le. destruct a as [a1 a2], b as [b1 b2], c as [c1 c2]. simpl.
  destruct (Z.ltb_spec a1 b1), (Z.ltb_spec b1 c1), (Z.ltb_spec a1 c1),
    (Z.eqb_spec a1 b1), (Z.eqb_spec b1 c1), (Z.eqb_spec a1 c1),
    (Z.leb_spec a2 b2), (Z.leb_spec b2 c2), (Z.leb_spec a2 c2);
    simpl; auto; lia.
Qed.

Lemma tuple_le_second a b : tuple_le (0, a) (0, b) = (a <=? b).
Proof. reflexivity. Qed.

Section RecommenderMore.

Context {env : Env}.

Lemma get_recommendations_unfold ctx excluded store max_recs query :
  get_recommendations ctx excluded store max_recs query
  = map (recommendation_for store query)
        (take max_recs (sorted_candidates ctx excluded query)).
Proof.
  unfold get_recommendations, sorted_candidates, candidates_of.
  destruct query as [q|]; [|reflexivity].
  by case_bool_decide.
Qed.

Lemma sorted_candidates_perm ctx excluded query :
  sorted_candidates ctx excluded query ≡ₚ candidates_of ctx excluded.
Proof.
  unfold sorted_candidates. destruct query as [q|];
    [case_bool_decide|]; apply sort_by_key_perm.
Qed.

Lemma Z_leb_total a b : (a <=? b) = true ∨ (b <=? a) = true.
Proof. destruct (Z.leb_spec a b), (Z.leb_spec b a); auto; lia. Qed.

Lemma Z_leb_trans a b c :
  (a <=? b) = true → (b <=? c) = true → (a <=? c) = true.
Proof. rewrite !Z.leb_le. lia. Qed.

Lemma recommendation_key_of_play store query ap :
  recommendation_key query (recommendation_for store query ap)
  = match query with
    | Some q =>
        if bool_decide (q = []) then (0, _status_rank (ap_status ap))
        else (- _query_relevance_score q (ap_play_title ap),
              _status_rank (ap_status ap))
    | None => (0, _status_rank (ap_status ap))
    end.
Proof. reflexivity. Qed.

Lemma sorted_candidates_sorted ctx excluded store query :
  StronglySorted
    (λ a b, tuple_le
              (recommendation_key query (recommendation_for store query a))
              (recommendation_key query (recommendation_for store query b))
            = true)
    (sorted_candidates ctx excluded query).
Proof.
  unfold sorted_candidates.
  destruct query as [q|]; [case_bool_decide as Hq|].
  - eapply StronglySorted_weaken;
      [|apply (sort_by_key_sorted Z.leb _ Z_leb_total Z_leb_trans)].
    intros a b Hab. rewrite !recommendation_key_of_play.
    rewrite bool_decide_eq_true_2 by exact Hq. by rewrite tuple_le_second.
  - eapply StronglySorted_weaken;
      [|apply (sort_by_key_sorted tuple_le _ tuple_le_total tuple_le_trans)].
    intros a b Hab. rewrite !recommendation_key_of_play.
    by rewrite bool_decide_eq_false_2 by exact Hq.
  - eapply StronglySorted_weaken;
      [|apply (sort_by_key_sorted Z.leb _ Z_leb_total Z_leb_trans)].
    intros a b Hab. rewrite !recommendation_key_of_play.
    by rewrite tuple_le_second.
Qed.

Lemma get_recommendations_elem ctx excluded store max_recs query rec :
  rec ∈ get_recommendations ctx excluded store max_recs query →
  ∃ ap, ap ∈ assigned_plays ctx
        ∧ (ap_play_id ap ∉ excluded)
        ∧ rec = recommendation_for store query ap.
Proof.
  rewrite get_recommendations_unfold. intros H.
  apply list_elem_of_fmap in H as (ap & -> & Hap).
  exists ap. split; [|split; [|reflexivity]].
  - eapply elem_of_submseteq in Hap; [|apply submseteq_take].
    rewrite sorted_candidates_perm in Hap.
    by apply list_elem_of_filter in Hap as [_ ?].
  - eapply elem_of_submseteq in Hap; [|apply submseteq_take].
    rewrite sorted_candidates_perm in Hap.
    by apply list_elem_of_filter in Hap as [? _].
Qed.

End RecommenderMore.

(** X9. Recommendations come from the assignments: there are as many as the
    limit allows among the assigned plays that are not excluded; each one
    copies id, title and status of such a play; and no play is recommended
    more often than it is assigned. *)
Theorem recommendations_come_from_assignments {env : Env}
    (ctx : UserContext) (excluded : gset str) (store : DataStore)
    (max_recs : nat) (query : option str) :
  length (get_recommendations ctx excluded store max_recs query)
  = min max_recs (length (candidates_of ctx excluded))
  ∧ (∀ rec, rec ∈ get_recommendations ctx excluded store max_recs query →
       (rec_play_id rec ∉ excluded)
       ∧ ∃ ap, ap ∈ assigned_plays ctx
               ∧ rec_play_id rec = ap_play_id ap
               ∧ rec_play_title rec = ap_play_title ap
               ∧ rec_status rec = ap_status ap)
  ∧ map rec_play_id (get_recommendations ctx excluded store max_recs query)
    ⊆+ assigned_play_ids ctx.
Proof.
  split; [|split].
  - rewrite get_recommendations_unfold, length_map, length_take.
    by rewrite sorted_candidates_perm.
  - intros rec H.
    apply get_recommendations_elem in H as (ap & Hap & Hex & ->).
    split; [exact Hex|]. by exists ap.
  - rewrite get_recommendations_unfold.
    rewrite <- list_fmap_compose.
    change (rec_play_id ∘ recommendation_for store query) with ap_play_id.
    unfold assigned_play_ids. apply fmap_submseteq.
    etrans; [apply submseteq_take|].
    rewrite sorted_candidates_perm.
    apply sublist_submseteq, sublist_filter.
Qed.

(** X10. Recommendations are in the order of their sort keys: with a
    non-empty query by decreasing relevance and, among equally relevant
    plays, by status rank; without one by status rank. *)
Theorem recommendations_are_ordered {env : Env}
    (ctx : UserContext) (excluded : gset str) (store : DataStore)
    (max_recs : nat) (query : option str) :
  StronglySorted
    (λ r1 r2, tuple_le (recommendation_key query r1)
                       (recommendation_key query r2) = true)
    (get_recommendations ctx excluded store max_recs query).
Proof.
  rewrite get_recommendations_unfold.
  eapply StronglySorted_map; [|apply StronglySorted_take,
                                (sorted_candidates_sorted _ _ store)].
  intros a b H. exact H.
Qed.

(** X11. The rep of a recommendation: none exactly when the store has no rep
    for the play; the first rep of type [watch] when there is one; the
    first rep of the play otherwise. *)
Theorem recommended_rep_selection {env : Env}
    (ctx : UserContext) (excluded : gset str) (store : DataStore)
    (max_recs : nat) (query : option str) (rec : Recommendation) :
  rec ∈ get_recommendations ctx excluded store max_recs query →
  (rec_rep_id rec = None ↔ get_reps_for_play store (rec_play_id rec) = [])
  ∧ (∀ before rep after,
        get_reps_for_play store (rec_play_id rec) = before ++ rep :: after →
        prompt_type rep = lit "watch" →
        (∀ r, r ∈ before → prompt_type r ≠ lit "watch") →
        rec_rep_id rec = Some (rep_id rep)
        ∧ rec_rep_title rec = Some (prompt_title rep))
  ∧ ((∀ r, r ∈ get_reps_for_play store (rec_play_id rec) →
           prompt_type r ≠ lit "watch") →
     rec_rep_id rec = rep_id <$> head (get_reps_for_play store (rec_play_id rec))
     ∧ rec_rep_title rec
       = prompt_title <$> head (get_reps_for_play store (rec_play_id rec))).
Proof.
  intros H. apply get_recommendations_elem in H as (ap & _ & _ & ->).
  unfold recommendation_for. cbn [rec_rep_id rec_rep_title rec_play_id].
  set (reps := get_reps_for_play store (ap_play_id ap)).
  split; [|split].
  - destruct (find _ reps) as [rep|] eqn:F.
    + split; [discriminate|]. intros E. rewrite E in F. discriminate.
    + destruct reps; simpl; split; auto; discriminate.
  - intros before rep after E Hw Hb.
    assert (F : find (λ rep, bool_decide (prompt_type rep = lit "watch")) reps
                = Some rep).
    { rewrite E. clear E. induction before as [|b before IH]; simpl.
      - by rewrite bool_decide_eq_true_2.
      - rewrite bool_decide_eq_false_2
          by (apply Hb; by left).
        apply IH. intros r Hr. apply Hb. by right. }
    by rewrite F.
  - intros Hnone.
    assert (F : find (λ rep, bool_decide (prompt_type rep = lit "watch")) reps
                = None).
    { clearbody reps. induction reps as [|b reps IH]; [reflexivity|]. simpl.
      rewrite bool_decide_eq_false_2 by (apply Hnone; by left).
      apply IH. intros r Hr. apply Hnone. by right. }
    by rewrite F.
Qed.

(** ** More on the single-response surface *)

Section RunMore.

Context {env : Env}.

Lemma classify_intent_Ok_inv query s ir s1 :
  classify_intent query s = (Ok ir, s1) →
  ∃ llm w,
    get_llm (model settings) 256 0%float s = (Ok llm, s)
    ∧ s1 = {| world := w;
              trace := trace s ++ [LLMInvoke llm (classifier_messages query)] |}.
Proof.
  unfold classify_intent. intros H.
  apply bind_Ok in H as (llm & s0 & Hllm & H).
  pose proof (get_llm_state _ _ _ _ _ _ Hllm) as [-> _].
  apply bind_Ok in H as (response & s2 & Hi & H).
  unfold invoke, call in Hi.
  destruct (llm_invoke llm (classifier_messages query) (world s)) as [r w].
  injection Hi as -> <-.
  destruct (strip_fences response); [|discriminate].
  exists llm, w. split; [exact Hllm|].
  destruct (parse_intent_result _); by injection H as _ <-.
Qed.

Lemma apply_mode_valid ir mode :
  intent ir ∈ INTENTS → intent (_apply_mode ir mode) ∈ INTENTS.
Proof.
  intros H.
  destruct (apply_mode_cases ir mode) as [[_ E] | [[_ E] | (_ & _ & E)]];
    rewrite E; [| |exact H]; apply (bool_decide_unpack _); by vm_compute.
Qed.

Lemma run_classifier_raises query mode ctx s e s1 :
  classify_intent query s = (Raised e, s1) →
  run query mode ctx s = (Raised e, s1).
Proof. intros H. unfold run. by rewrite (bind_raised _ _ _ _ _ H). Qed.

Lemma run_retrieval_raises query mode ctx s ir s1 e s2 :
  classify_intent query s = (Ok ir, s1) →
  intent (_apply_mode ir mode) ≠ lit "out_of_scope" →
  intent (_apply_mode ir mode) ≠ lit "general_professional" →
  retrieve_chunks query ctx (intent (_apply_mode ir mode)) s1 = (Raised e, s2) →
  run query mode ctx s = (Raised e, s2).
Proof.
  intros Hc Hoos Hgp Hr. unfold run.
  rewrite (bind_step _ _ _ _ _ Hc).
  rewrite !bool_decide_eq_false_2 by assumption.
  by rewrite (bind_raised _ _ _ _ _ Hr).
Qed.

Lemma run_generation_raises query mode ctx s ir s1 chunks s2 e s3 :
  classify_intent query s = (Ok ir, s1) →
  intent (_apply_mode ir mode) ≠ lit "out_of_scope" →
  intent (_apply_mode ir mode) ≠ lit "general_professional" →
  retrieve_chunks query ctx (intent (_apply_mode ir mode)) s1 = (Ok chunks, s2) →
  chunks ≠ [] →
  generate_grounded_answer query chunks s2 = (Raised e, s3) →
  run query mode ctx s = (Raised e, s3).
Proof.
  intros Hc Hoos Hgp Hr Hne Hg. unfold run.
  rewrite (bind_step _ _ _ _ _ Hc).
  rewrite !bool_decide_eq_false_2 by assumption.
  rewrite (bind_step _ _ _ _ _ Hr).
  rewrite bool_decide_eq_false_2 by assumption.
  by rewrite (bind_raised _ _ _ _ _ Hg).
Qed.

End RunMore.

(** X12. The intent of a classification, and the intent of every response of
    [run] whatever the mode, is one of the five intents. *)
Theorem intents_are_always_valid {env : Env} (query : str) (s : state) :
  (∀ ir s', classify_intent query s = (Ok ir, s') → intent ir ∈ INTENTS)
  ∧ (∀ mode ctx resp s',
        run query mode ctx s = (Ok resp, s') →
        intent (sr_intent resp) ∈ INTENTS).
Proof.
  split.
  - intros ir s'. apply classify_intent_valid.
  - intros mode ctx resp s' H. apply run_path_complete in H.
    destruct H as [ir s1 Hc _|ir s1 ? ? Hc _ _ _|ir s1 ? Hc _ _ _
                  |ir s1 ? ? ? ? Hc _ _ _ _ _|ir s1 ? ? ? ? Hc _ _ _ _ _];
      simpl; apply apply_mode_valid; by apply classify_intent_valid in Hc.
Qed.

(** X13. An explicit mode bypasses refusal and general answering: with the
    mode [knowledge] or [performance] every response of [run] is tier3 or
    grounded, and its intent is the forced one. *)
Theorem explicit_mode_forces_retrieval {env : Env} (query : str)
    (mode : str) (ctx : UserContext) (s : state) (resp : SearchResponse)
    (s' : state) :
  mode = lit "knowledge" ∨ mode = lit "performance" →
  run query (Some mode) ctx s = (Ok resp, s') →
  (response_tier resp = tier3 ∨ response_tier resp = grounded)
  ∧ intent (sr_intent resp)
    = (if bool_decide (mode = lit "knowledge")
       then lit "assigned_knowledge" else lit "performance_history").
Proof.
  intros Hmode H. apply run_path_complete in H.
  assert (Hi : ∀ ir,
             intent (_apply_mode ir (Some mode))
             = (if bool_decide (mode = lit "knowledge")
                then lit "assigned_knowledge" else lit "performance_history")).
  { intros ir. destruct Hmode as [-> | ->]; reflexivity. }
  assert (Hne : ∀ ir,
             intent (_apply_mode ir (Some mode)) ≠ lit "out_of_scope"
             ∧ intent (_apply_mode ir (Some mode)) ≠ lit "general_professional").
  { intros ir. rewrite Hi. case_bool_decide; split; vm_compute; discriminate. }
  destruct H as [ir s1 Hc Hoos|ir s1 ? ? Hc _ Hgp _|ir s1 ? Hc _ _ _
                |ir s1 ? ? ? ? Hc _ _ _ _ _|ir s1 ? ? ? ? Hc _ _ _ _ _];
    simpl; try (split; [auto | apply Hi]).
  - by destruct (Hne ir) as [N _].
  - by destruct (Hne ir) as [_ N].
Qed.

(** X14. The tier of a response follows the intent: tier1 exactly for
    [out_of_scope], tier2 exactly for [general_professional]; tier1
    carries the refusal text and no recommendation, tier3 the
    not-found text. *)
Theorem tier_follows_intent {env : Env} (query : str) (mode : option str)
    (ctx : UserContext) (s : state) (resp : SearchResponse) (s' : state) :
  run query mode ctx s = (Ok resp, s') →
  (response_tier resp = tier1 ↔ intent (sr_intent resp) = lit "out_of_scope")
  ∧ (response_tier resp = tier2
     ↔ intent (sr_intent resp) = lit "general_professional")
  ∧ (response_tier resp = tier1 →
       answer resp = OUT_OF_SCOPE_ANSWER ∧ recommendations resp = [])
  ∧ (response_tier resp = tier3 → answer resp = TIER3_ANSWER).
Proof.
  intros H. apply run_path_complete in H.
  assert (D : lit "out_of_scope" ≠ lit "general_professional")
    by (vm_compute; discriminate).
  destruct H as [ir s1 Hc Hoos|ir s1 ? ? Hc Hoos Hgp _|ir s1 ? Hc Hoos Hgp _
                |ir s1 ? ? ? ? Hc Hoos Hgp _ _ _
                |ir s1 ? ? ? ? Hc Hoos Hgp _ _ _];
    simpl; repeat split; try discriminate; try tauto; try congruence.
Qed.

(** X15. A refusal costs one provider call, the classifier's; a general answer
    costs two chat model calls and no retrieval. *)
Theorem refusal_and_general_make_no_retrieval {env : Env} (query : str)
    (mode : option str) (ctx : UserContext) (s : state)
    (resp : SearchResponse) (s' : state) :
  run query mode ctx s = (Ok resp, s') →
  (response_tier resp = tier1 →
     ∃ llm, trace s' = trace s ++ [LLMInvoke llm (classifier_messages query)])
  ∧ (response_tier resp = tier2 →
       ∃ llm1 llm2,
         trace s'
         = trace s ++ [ LLMInvoke llm1 (classifier_messages query);
                        LLMInvoke llm2 (general_messages query);
                        Recommend ∅ ]).
Proof.
  intros H. apply run_path_complete in H.
  destruct H as [ir s1 Hc Hoos|ir s1 text s2 Hc Hoos Hgp Hg|ir s1 ? Hc Hoos Hgp _
                |ir s1 ? ? ? ? Hc Hoos Hgp _ _ _
                |ir s1 ? ? ? ? Hc Hoos Hgp _ _ _];
    simpl; split; try discriminate.
  - intros _. apply classify_intent_Ok_inv in Hc as (llm & w & _ & ->).
    by exists llm.
  - intros _. apply classify_intent_Ok_inv in Hc as (llm & w & _ & ->).
    apply generate_general_answer_Ok_inv in Hg
      as (llm2 & ? & response & w2 & _ & _ & _ & ->).
    exists llm, llm2. simpl. by rewrite <- !app_assoc.
Qed.

(** X16. The sentinel does not reach the client of the single-response
    surface: outside tier2, where the text is the chat model's own, the
    answer of a response is never [INSUFFICIENT_CONTEXT]; a grounded
    answer is moreover trimmed. *)
Theorem sentinel_never_leaks {env : Env} (query : str) (mode : option str)
    (ctx : UserContext) (s : state) (resp : SearchResponse) (s' : state) :
  run query mode ctx s = (Ok resp, s') →
  (response_tier resp ≠ tier2 → answer resp ≠ lit "INSUFFICIENT_CONTEXT")
  ∧ (response_tier resp = grounded → trimmed (answer resp)).
Proof.
  intros H. apply run_path_complete in H.
  assert (D1 : OUT_OF_SCOPE_ANSWER ≠ lit "INSUFFICIENT_CONTEXT")
    by (vm_compute; discriminate).
  assert (D3 : TIER3_ANSWER ≠ lit "INSUFFICIENT_CONTEXT")
    by (vm_compute; discriminate).
  destruct H as [ir s1 Hc Hoos|ir s1 text s2 Hc Hoos Hgp Hg|ir s1 ? Hc Hoos Hgp _
                |ir s1 ? ? ? ? Hc Hoos Hgp _ _ _
                |ir s1 chunks s2 text s3 Hc Hoos Hgp Hr Hne Hg];
    simpl; split; try discriminate; try (intros _; assumption);
    try (intros N; by destruct N).
  - intros _.
    apply generate_grounded_answer_Ok_inv in Hg as (response & _ & Hb).
    symmetry in Hb. apply negb_true_iff, bool_decide_eq_false in Hb. exact Hb.
  - intros _.
    apply generate_grounded_answer_Ok_inv in Hg as (response & -> & _).
    apply strip_trimmed.
Qed.

(** X17. Failures are not turned into responses: when the classifier, the
    retriever or the grounded generator raises, [run] raises the same
    failure; a failed retrieval is never reported as tier3. *)
Theorem run_failure_propagates {env : Env} (query : str) (mode : option str)
    (ctx : UserContext) (s : state) :
  (∀ e s1, classify_intent query s = (Raised e, s1) →
           run query mode ctx s = (Raised e, s1))
  ∧ (∀ ir s1 e s2,
        classify_intent query s = (Ok ir, s1) →
        intent (_apply_mode ir mode) ≠ lit "out_of_scope" →
        intent (_apply_mode ir mode) ≠ lit "general_professional" →
        retrieve_chunks query ctx (intent (_apply_mode ir mode)) s1
        = (Raised e, s2) →
        run query mode ctx s = (Raised e, s2))
  ∧ (∀ ir s1 chunks s2 e s3,
        classify_intent query s = (Ok ir, s1) →
        intent (_apply_mode ir mode) ≠ lit "out_of_scope" →
        intent (_apply_mode ir mode) ≠ lit "general_professional" →
        retrieve_chunks query ctx (intent (_apply_mode ir mode)) s1
        = (Ok chunks, s2) →
        chunks ≠ [] →
        generate_grounded_answer query chunks s2 = (Raised e, s3) →
        run query mode ctx s = (Raised e, s3)).
Proof.
  split; [|split].
  - apply run_classifier_raises.
  - apply run_retrieval_raises.
  - apply run_generation_raises.
Qed.

(** X18. A grounded response never recommends a play it already cites: no
    recommendation carries the non-empty play id of one of the sources. *)
Theorem grounded_recommendations_skip_sources {env : Env} (query : str)
    (mode : option str) (ctx : UserContext) (s : state)
    (resp : SearchResponse) (s' : state) :
  run query mode ctx s = (Ok resp, s') →
  response_tier resp = grounded →
  ∀ rec c p,
    rec ∈ recommendations resp → c ∈ sources resp →
    play_id c = Some p → p ≠ [] →
    rec_play_id rec ≠ p.
Proof.
  intros H Htier. apply run_path_complete in H.
  destruct H as [ir s1 Hc Hoos|ir s1 text s2 Hc Hoos Hgp Hg|ir s1 ? Hc Hoos Hgp _
                |ir s1 ? ? ? ? Hc Hoos Hgp _ _ _
                |ir s1 chunks s2 text s3 Hc Hoos Hgp Hr Hne Hg];
    try discriminate.
  simpl. intros rec c p Hrec Hc' Hp Hpne E.
  apply get_recommendations_elem in Hrec as (ap & _ & Hex & ->).
  simpl in E. apply Hex. rewrite E.
  apply play_id_set_elem. split; [exact Hpne|]. by exists c.
Qed.

(** ** More on the streaming surface *)

Section StreamMore.

Context {env : Env}.

Lemma run_stream_unfold query mode ctx :
  run_stream query mode ctx
  = try_except (stream_body query mode ctx)
      (λ exc, yield_sse (ErrorEvent (exn_message exc))).
Proof. reflexivity. Qed.






(** Relaying: every increment is delivered and, if not empty, handed to
    the client before the next one is delivered. *)
Lemma astream_for_relay texts failure s :
  astream_for texts failure (λ _ token, yield_sse (ChunkEvent token)) tt s
  = (match failure with None => Ok tt | Some e => Raised e end,
     {| world := world s; trace := trace s ++ relayed texts |}).
Proof.
  revert s. induction texts as [|text rest IH]; intros s.
  - simpl. rewrite app_nil_r. destruct s. by destruct failure.
  - cbn [astream_for]. unfold bind at 1. unfold log at 1. cbn [fst snd].
    unfold bind at 1.
    unfold relayed. cbn [flat_map]. fold (relayed rest).
    case_bool_decide as E.
    + unfold ret at 1. rewrite IH. cbn [world trace].
      by rewrite <- !app_assoc.
    + unfold yield_sse at 1, log at 1. rewrite IH. cbn [world trace].
      by rewrite <- !app_assoc.
Qed.

Lemma astream_for_buffer_fails texts e token_buffer s :
  astream_for texts (Some e) (λ buffer token, ret (buffer ++ [token]))
    token_buffer s
  = (Raised e,
     {| world := world s; trace := trace s ++ map Delivered texts |}).
Proof.
  revert token_buffer s.
  induction texts as [|text rest IH]; intros token_buffer s.
  - simpl. unfold raise. rewrite app_nil_r. by destruct s.
  - simpl. unfold bind at 1. unfold log at 1. simpl.
    unfold bind at 1. case_bool_decide as E;
      unfold ret at 1; rewrite IH; simpl; by rewrite <- app_assoc.
Qed.

Lemma emitted_relayed texts :
  emitted (relayed texts)
  = map (λ t, _sse (ChunkEvent t)) (filter (λ t, t ≠ []) texts).
Proof.
  induction texts as [|text rest IH]; [reflexivity|].
  unfold relayed. cbn [flat_map]. fold (relayed rest).
  case_bool_decide as E.
  - rewrite filter_cons_False by (intros N; contradiction).
    exact IH.
  - rewrite filter_cons_True by exact E.
    change (emitted _) with (_sse (ChunkEvent text) :: emitted (relayed rest)).
    by rewrite IH.
Qed.

End StreamMore.


(** X20. A failure before the meta event, in the classifier or in the
    retriever, leaves the client with a single event: the error event
    with the message of the failure. *)
Theorem stream_early_failure_is_one_error_event {env : Env} (query : str)
    (mode : option str) (ctx : UserContext) (s : state) :
  (∀ e s1,
      classify_intent query s = (Raised e, s1) →
      ∃ s', run_stream query mode ctx s = (Ok tt, s')
            ∧ emitted (trace s')
              = emitted (trace s) ++ [_sse (ErrorEvent (exn_message e))])
  ∧ (∀ ir s1 e s2,
        classify_intent query s = (Ok ir, s1) →
        intent (_apply_mode ir mode) ≠ lit "out_of_scope" →
        intent (_apply_mode ir mode) ≠ lit "general_professional" →
        retrieve_chunks query ctx (intent (_apply_mode ir mode)) s1
        = (Raised e, s2) →
        ∃ s', run_stream query mode ctx s = (Ok tt, s')
              ∧ emitted (trace s')
                = emitted (trace s) ++ [_sse (ErrorEvent (exn_message e))]).
Proof.
  split.
  - intros e s1 Hc.
    destruct (quiet_classify_intent query _ _ _ Hc) as (t & T & Q).
    exists (logged s1 (Yield (_sse (ErrorEvent (exn_message e))))). split.
    + rewrite run_stream_unfold. unfold try_except, stream_body.
      by rewrite (bind_raised _ _ _ _ _ Hc).
    + simpl. rewrite T, !emitted_app, (provider_calls_no_event _ Q).
      by rewrite app_nil_r.
  - intros ir s1 e s2 Hc Hoos Hgp Hr.
    destruct (quiet_then _ _ _ _ _ _ _ (quiet_classify_intent query)
                (quiet_retrieve_chunks query ctx _) Hc Hr) as (t & T & Q).
    exists (logged s2 (Yield (_sse (ErrorEvent (exn_message e))))). split.
    + rewrite run_stream_unfold. unfold try_except, stream_body.
      rewrite (bind_step _ _ _ _ _ Hc).
      rewrite !bool_decide_eq_false_2 by assumption.
      by rewrite (bind_raised _ _ _ _ _ Hr).
    + simpl. rewrite T, !emitted_app, (provider_calls_no_event _ Q).
      by rewrite app_nil_r.
Qed.

(** X21. On the paths with a fixed text the two surfaces agree: when [run]
    answers in tier1, or in tier3 after an empty retrieval, [run_stream]
    from the same state sends the meta event of that response, one chunk
    event with its answer and a done event with [is_insufficient] false,
    and ends in the same state of the world. *)
Theorem surfaces_agree_on_fixed_answers {env : Env} (query : str)
    (mode : option str) (ctx : UserContext) (s : state)
    (resp : SearchResponse) (s' : state) :
  run query mode ctx s = (Ok resp, s') →
  response_tier resp = tier1
  ∨ (response_tier resp = tier3
     ∧ ∃ ir s1 s2,
         classify_intent query s = (Ok ir, s1)
         ∧ retrieve_chunks query ctx (intent (_apply_mode ir mode)) s1
           = (Ok [], s2)) →
  ∃ s'' : state,
    run_stream query mode ctx s = (Ok tt, s'')
    ∧ world s'' = world s'
    ∧ emitted (trace s'')
      = emitted (trace s)
        ++ [ _sse (MetaEvent (sr_intent resp) (response_tier resp)
                     (sources resp) (recommendations resp));
             _sse (ChunkEvent (answer resp));
             _sse (DoneEvent false) ].
Proof.
  intros H Hcase. apply run_path_complete in H.
  destruct H as [ir s1 Hc Hoos|ir s1 text s2 Hc Hoos Hgp Hg|ir s1 s2 Hc Hoos Hgp Hr
                |ir s1 chunks s2 text s3 Hc Hoos Hgp Hr Hne Hg
                |ir s1 chunks s2 text s3 Hc Hoos Hgp Hr Hne Hg];
    cbn [response_tier] in Hcase;
    try (destruct Hcase as [N | [N _]]; discriminate N).
  - destruct (quiet_classify_intent query _ _ _ Hc) as (t & T & Q).
    eexists. split; [|split].
    + rewrite run_stream_unfold. unfold try_except, stream_body.
      rewrite (bind_step _ _ _ _ _ Hc).
      rewrite bool_decide_eq_true_2 by assumption.
      reflexivity.
    + reflexivity.
    + cbn [trace logged sr_intent response_tier sources recommendations answer].
      rewrite T, <- !app_assoc, !emitted_app, (provider_calls_no_event _ Q).
      reflexivity.
  - destruct (quiet_then _ _ _ _ _ _ _ (quiet_classify_intent query)
                (quiet_retrieve_chunks query ctx _) Hc Hr) as (t & T & Q).
    eexists. split; [|split].
    + rewrite run_stream_unfold. unfold try_except, stream_body.
      rewrite (bind_step _ _ _ _ _ Hc).
      rewrite !bool_decide_eq_false_2 by assumption.
      rewrite (bind_step _ _ _ _ _ Hr).
      rewrite bool_decide_eq_true_2 by reflexivity.
      rewrite (bind_step _ _ _ _ _ (recommend_step _ _ _ _)).
      reflexivity.
    + reflexivity.
    + cbn [trace logged sr_intent response_tier sources recommendations answer
           world].
      rewrite T, <- !app_assoc, !emitted_app, (provider_calls_no_event _ Q).
      reflexivity.
  - destruct Hcase as [N | (_ & ir' & s1' & s2' & Hc' & Hr')]; [discriminate|].
    rewrite Hc in Hc'. injection Hc' as <- <-.
    rewrite Hr in Hr'. injection Hr' as -> _. contradiction.
Qed.

(** X22. The general answer is relayed as it arrives: on the tier2 path each
    increment of the chat model is delivered and, unless empty, sent to
    the client before the next increment is delivered; the stream ends
    with a done event, or with an error event after the chunks already
    sent when the chat model fails. *)
Theorem stream_general_answer_is_relayed {env : Env} (query : str)
    (mode : option str) (ctx : UserContext) (s : state)
    (ir : IntentResult) (s1 : state) (llm : chat_model) (s1' : state)
    (texts : list str) (failure : option exn) (w2 : World) :
  classify_intent query s = (Ok ir, s1) →
  intent (_apply_mode ir mode) = lit "general_professional" →
  get_llm (model settings) 512 0.3%float s1 = (Ok llm, s1') →
  llm_astream llm (general_messages query) (world s1)
  = ((texts, failure), w2) →
  ∃ s' : state,
    run_stream query mode ctx s = (Ok tt, s')
    ∧ trace s'
      = trace s1
        ++ [ Recommend ∅;
             Yield (_sse (MetaEvent (_apply_mode ir mode) tier2 []
                            (get_recommendations ctx ∅ store 3 (Some query))));
             LLMStream llm (general_messages query) ]
        ++ relayed texts
        ++ [ Yield (match failure with
                    | None => _sse (DoneEvent false)
                    | Some e => _sse (ErrorEvent (exn_message e))
                    end) ].
Proof.
  intros Hc Hgp Hllm Hstream.
  apply get_llm_state in Hllm as [_ Hllm].
  assert (Hoos : intent (_apply_mode ir mode) ≠ lit "out_of_scope")
    by (rewrite Hgp; vm_compute; discriminate).
  destruct failure as [e|]; (eexists; split;
    [ rewrite run_stream_unfold; unfold try_except, stream_body;
      rewrite (bind_step _ _ _ _ _ Hc);
      rewrite bool_decide_eq_false_2 by assumption;
      rewrite bool_decide_eq_true_2 by assumption;
      rewrite (bind_step _ _ _ _ _ (recommend_step _ _ _ _));
      unfold bind at 1; unfold yield_sse at 1; unfold log at 1;
      unfold bind at 1; unfold stream_general_answer;
      rewrite (bind_step _ _ _ _ _ (Hllm _));
      unfold bind at 1; unfold astream; cbn [world logged trace];
      rewrite Hstream; cbn [fst snd];
      rewrite astream_for_relay; reflexivity
    | cbn [trace logged world]; by rewrite <- !app_assoc ]).
Qed.

(** X23. A failure of the chat model during a grounded stream: the increments
    delivered so far were buffered and are dropped; after the meta event
    the client receives the error event only, no answer text and no done
    event. *)
Theorem stream_grounded_failure_drops_buffer {env : Env} (query : str)
    (mode : option str) (ctx : UserContext) (s : state)
    (ir : IntentResult) (s1 : state) (chunks : list SourceChunk) (s2 : state)
    (llm : chat_model) (s2' : state) (texts : list str) (e : exn)
    (w3 : World) :
  classify_intent query s = (Ok ir, s1) →
  intent (_apply_mode ir mode) ≠ lit "out_of_scope" →
  intent (_apply_mode ir mode) ≠ lit "general_professional" →
  retrieve_chunks query ctx (intent (_apply_mode ir mode)) s1 = (Ok chunks, s2) →
  chunks ≠ [] →
  get_llm (model settings) 1024 0.1%float s2 = (Ok llm, s2') →
  llm_astream llm (grounded_messages query chunks) (world s2)
  = ((texts, Some e), w3) →
  ∃ s' : state,
    run_stream query mode ctx s = (Ok tt, s')
    ∧ trace s'
      = trace s2
        ++ [ Recommend (_play_id_set_from_chunks chunks);
             Yield (_sse (MetaEvent (_apply_mode ir mode) grounded chunks
                            (get_recommendations ctx
                               (_play_id_set_from_chunks chunks) store 3
                               (Some query))));
             LLMStream llm (grounded_messages query chunks) ]
        ++ map Delivered texts
        ++ [ Yield (_sse (ErrorEvent (exn_message e))) ]
    ∧ emitted (trace s')
      = emitted (trace s)
        ++ [ _sse (MetaEvent (_apply_mode ir mode) grounded chunks
                     (get_recommendations ctx
                        (_play_id_set_from_chunks chunks) store 3
                        (Some query)));
             _sse (ErrorEvent (exn_message e)) ].
Proof.
  intros Hc Hoos Hgp Hr Hne Hllm Hstream.
  apply get_llm_state in Hllm as [_ Hllm].
  destruct (quiet_then _ _ _ _ _ _ _ (quiet_classify_intent query)
              (quiet_retrieve_chunks query ctx _) Hc Hr) as (t & T & Q).
  eexists. split; [|split].
  - rewrite run_stream_unfold. unfold try_except, stream_body.
    rewrite (bind_step _ _ _ _ _ Hc).
    rewrite !bool_decide_eq_false_2 by assumption.
    rewrite (bind_step _ _ _ _ _ Hr).
    rewrite bool_decide_eq_false_2 by assumption.
    rewrite (bind_step _ _ _ _ _ (recommend_step _ _ _ _)).
    unfold bind at 1. unfold yield_sse at 1. unfold log at 1.
    unfold bind at 1. unfold stream_grounded_answer.
    rewrite (bind_step _ _ _ _ _ (Hllm _)).
    unfold bind at 1. unfold astream. cbn [world logged trace].
    rewrite Hstream. cbn [fst snd].
    rewrite astream_for_buffer_fails. reflexivity.
  - cbn [trace logged world]. by rewrite <- !app_assoc.
  - cbn [trace logged world].
    rewrite T, <- !app_assoc, !emitted_app, (provider_calls_no_event _ Q).
    rewrite emitted_delivered. reflexivity.
Qed.

(** ** Index metadata *)

Lemma Ok_inj {A} (a b : A) : Ok a = Ok b → a = b.
Proof. by intros [= ->]. Qed.

Ltac lookup_key :=
  repeat (first
    [ rewrite lookup_insert_eq
    | rewrite lookup_insert_ne
        by (let NE := fresh in intros NE; vm_compute in NE; discriminate NE) ]).

Lemma strip_none_lookup (d : gmap str pyval) k v :
  _strip_none d !! k = Some v ↔ d !! k = Some v ∧ v ≠ PyNone.
Proof. unfold _strip_none. by rewrite map_lookup_filter_Some. Qed.

Lemma strip_none_never_none (d : gmap str pyval) k :
  _strip_none d !! k ≠ Some PyNone.
Proof. intros H. apply strip_none_lookup in H as [_ N]. by apply N. Qed.

Lemma to_metadata_str d k s :
  d !! k = Some (PyStr s) → str_fields (to_metadata d) !! k = Some s.
Proof. intros H. unfold to_metadata. simpl. by rewrite lookup_omap, H. Qed.

Lemma py_slice_Ok v n r :
  py_slice v n = Ok r → ∃ s, v = PyStr s ∧ r = PyStr (take n s).
Proof. destruct v; try discriminate. intros H. apply Ok_inj in H. eauto. Qed.

Lemma py_getitem_Ok d key v :
  py_getitem d key = Ok v → d !! lit key = Some v.
Proof.
  unfold py_getitem. destruct (d !! lit key); [|discriminate].
  intros H. by apply Ok_inj in H as ->.
Qed.

Lemma build_knowledge_metadata_Ok chunk company asset play rep asset_type
    play_title rep_title company_name d :
  build_knowledge_metadata chunk company asset play rep asset_type
    play_title rep_title company_name = Ok d →
  ∃ full index,
    chunk !! lit "chunk_text" = Some (PyStr full)
    ∧ chunk !! lit "chunk_index" = Some index
    ∧ d !! lit "company_id" = Some (PyStr company)
    ∧ d !! lit "content_type" = Some (PyStr (lit "knowledge"))
    ∧ d !! lit "play_id" = Some (PyStr play)
    ∧ d !! lit "asset_id" = Some (PyStr asset)
    ∧ d !! lit "user_id" = None
    ∧ d !! lit "chunk_text" = Some (PyStr (take 2000 full))
    ∧ (∀ k, d !! k ≠ Some PyNone).
Proof.
  unfold build_knowledge_metadata, result_bind.
  destruct (py_getitem chunk "chunk_text") as [v|] eqn:Ev; [|discriminate].
  destruct (py_slice v 2000) as [ct|] eqn:Ect; [|discriminate].
  destruct (py_getitem chunk "chunk_index") as [ci|] eqn:Eci; [|discriminate].
  intros H. apply Ok_inj in H. subst d.
  apply py_slice_Ok in Ect as (full & -> & ->).
  apply py_getitem_Ok in Ev. apply py_getitem_Ok in Eci.
  exists full, ci. cbn [list_to_map foldr uncurry].
  repeat split; try assumption;
    try (apply strip_none_lookup; split; [lookup_key; reflexivity | discriminate]).
  - apply eq_None_not_Some. intros [v Hv].
    apply strip_none_lookup in Hv as [Hv _].
    revert Hv. lookup_key. by rewrite lookup_empty.
  - intros k. apply strip_none_never_none.
Qed.

Lemma build_submission_metadata_Ok chunk company asset play rep user
    submission asset_type play_title rep_title company_name d :
  build_submission_metadata chunk company asset play rep user submission
    asset_type play_title rep_title company_name = Ok d →
  ∃ full index,
    chunk !! lit "chunk_text" = Some (PyStr full)
    ∧ chunk !! lit "chunk_index" = Some index
    ∧ d !! lit "company_id" = Some (PyStr company)
    ∧ d !! lit "content_type" = Some (PyStr (lit "submission"))
    ∧ d !! lit "play_id" = Some (PyStr play)
    ∧ d !! lit "user_id" = Some (PyStr user)
    ∧ d !! lit "chunk_text" = Some (PyStr (take 2000 full))
    ∧ (∃ feedback, d !! lit "feedback_text" = Some (PyStr feedback)
                   ∧ (length feedback ≤ 500)%nat)
    ∧ (∀ k, d !! k ≠ Some PyNone).
Proof.
  unfold build_submission_metadata, result_bind.
  destruct (py_getitem chunk "chunk_text") as [v|] eqn:Ev; [|discriminate].
  destruct (py_slice v 2000) as [ct|] eqn:Ect; [|discriminate].
  destruct (py_getitem chunk "chunk_index") as [ci|] eqn:Eci; [|discriminate].
  destruct (py_slice (or_empty (py_get chunk "feedback_text")) 500)
    as [ft|] eqn:Eft; [|discriminate].
  intros H. apply Ok_inj in H. subst d.
  apply py_slice_Ok in Ect as (full & -> & ->).
  apply py_slice_Ok in Eft as (fb & _ & ->).
  apply py_getitem_Ok in Ev. apply py_getitem_Ok in Eci.
  exists full, ci. cbn [list_to_map foldr uncurry].
  repeat split; try assumption;
    try (apply strip_none_lookup; split; [lookup_key; reflexivity | discriminate]).
  - exists (take 500 fb). split.
    + apply strip_none_lookup. split; [lookup_key; reflexivity | discriminate].
    + rewrite length_take. lia.
  - intros k. apply strip_none_never_none.
Qed.

(** X24. The metadata of a knowledge chunk and of a submission chunk never
    holds a null value, always carries the company id, the content type
    and the play id it was built with (a submission also its user id),
    and stores at most the first 2000 code points of the chunk text. *)
Theorem metadata_is_complete_and_null_free (chunk : gmap str pyval)
    (company asset play rep user submission : str) (rep_opt : option str)
    (asset_type play_title rep_title company_name : str) :
  (∀ d,
      build_knowledge_metadata chunk company asset play rep_opt asset_type
        play_title rep_title company_name = Ok d →
      (∀ k, d !! k ≠ Some PyNone)
      ∧ d !! lit "company_id" = Some (PyStr company)
      ∧ d !! lit "content_type" = Some (PyStr (lit "knowledge"))
      ∧ d !! lit "play_id" = Some (PyStr play)
      ∧ ∃ full, chunk !! lit "chunk_text" = Some (PyStr full)
                ∧ d !! lit "chunk_text" = Some (PyStr (take 2000 full)))
  ∧ (∀ d,
        build_submission_metadata chunk company asset play rep user submission
          asset_type play_title rep_title company_name = Ok d →
        (∀ k, d !! k ≠ Some PyNone)
        ∧ d !! lit "company_id" = Some (PyStr company)
        ∧ d !! lit "content_type" = Some (PyStr (lit "submission"))
        ∧ d !! lit "play_id" = Some (PyStr play)
        ∧ d !! lit "user_id" = Some (PyStr user)
        ∧ ∃ full, chunk !! lit "chunk_text" = Some (PyStr full)
                  ∧ d !! lit "chunk_text" = Some (PyStr (take 2000 full))).
Proof.
  split; intros d H.
  - apply build_knowledge_metadata_Ok in H
      as (full & index & ? & ? & ? & ? & ? & ? & ? & ? & ?).
    repeat split; try assumption. by exists full.
  - apply build_submission_metadata_Ok in H
      as (full & index & ? & ? & ? & ? & ? & ? & ? & ? & ?).
    repeat split; try assumption. by exists full.
Qed.

Section Visibility.

Lemma knowledge_record_fields d company play ctx :
  d !! lit "company_id" = Some (PyStr company) →
  d !! lit "content_type" = Some (PyStr (lit "knowledge")) →
  d !! lit "play_id" = Some (PyStr play) →
  (matches_filter (to_metadata d) (knowledge_filter ctx) = true
   ↔ company = company_id ctx ∧ play ∈ assigned_play_ids ctx)
  ∧ matches_filter (to_metadata d) (submission_filter ctx) = false.
Proof.
  intros Hc Ht Hp.
  apply to_metadata_str in Hc, Ht, Hp.
  split.
  - rewrite knowledge_filter_accepts, Hc, Ht, Hp. split.
    + intros (E & _ & p & Ep & Hin). split; congruence.
    + intros [-> Hin]. split; [reflexivity|]. split; [reflexivity|]. eauto.
  - destruct (matches_filter (to_metadata d) (submission_filter ctx)) eqn:E;
      [|reflexivity].
    apply submission_filter_accepts in E as (_ & E & _).
    rewrite Ht in E. vm_compute in E. discriminate E.
Qed.

Lemma submission_record_fields d company user ctx :
  d !! lit "company_id" = Some (PyStr company) →
  d !! lit "content_type" = Some (PyStr (lit "submission")) →
  d !! lit "user_id" = Some (PyStr user) →
  (matches_filter (to_metadata d) (submission_filter ctx) = true
   ↔ company = company_id ctx ∧ user = user_id ctx)
  ∧ matches_filter (to_metadata d) (knowledge_filter ctx) = false.
Proof.
  intros Hc Ht Hu.
  apply to_metadata_str in Hc, Ht, Hu.
  split.
  - rewrite submission_filter_accepts, Hc, Ht, Hu. split.
    + intros (E & _ & E'). split; congruence.
    + intros [-> ->]. auto.
  - destruct (matches_filter (to_metadata d) (knowledge_filter ctx)) eqn:E;
      [|reflexivity].
    apply knowledge_filter_accepts in E as (_ & E & _).
    rewrite Ht in E. vm_compute in E. discriminate E.
Qed.

Lemma build_cases ctx intent :
  (intent = lit "performance_history"
   ∧ build_pinecone_filter ctx intent = submission_filter ctx)
  ∨ (intent = lit "combined"
     ∧ build_pinecone_filter ctx intent = combined_filter ctx)
  ∨ (intent ≠ lit "performance_history" ∧ intent ≠ lit "combined"
     ∧ build_pinecone_filter ctx intent = knowledge_filter ctx).
Proof.
  unfold build_pinecone_filter. repeat case_bool_decide; auto.
Qed.

End Visibility.

(** X25. Who can retrieve a knowledge chunk: the record built for it is
    accepted by the filter of a user and an intent exactly when the user
    belongs to the chunk's company, is assigned the chunk's play, and the
    intent is not [performance_history]. *)
Theorem knowledge_record_visibility (chunk : gmap str pyval)
    (company asset play : str) (rep : option str)
    (asset_type play_title rep_title company_name : str)
    (d : gmap str pyval) (ctx : UserContext) (intent : str) :
  build_knowledge_metadata chunk company asset play rep asset_type
    play_title rep_title company_name = Ok d →
  matches_filter (to_metadata d) (build_pinecone_filter ctx intent) = true
  ↔ company = company_id ctx
    ∧ play ∈ assigned_play_ids ctx
    ∧ intent ≠ lit "performance_history".
Proof.
  intros H.
  apply build_knowledge_metadata_Ok in H
    as (full & index & _ & _ & Hc & Ht & Hp & _).
  destruct (knowledge_record_fields d company play ctx Hc Ht Hp) as [Hk Hs].
  destruct (build_cases ctx intent) as [[-> E] | [[-> E] | (N1 & N2 & E)]];
    rewrite E.
  - rewrite Hs. split; [discriminate|]. intros (_ & _ & N). contradiction.
  - rewrite combined_filter_union, Hs, orb_false_r, Hk.
    split; [intros [? ?]|intros (? & ? & _)]; repeat split; auto.
  - rewrite Hk. tauto.
Qed.

(** X26. Who can retrieve a submission chunk: the record built for it is
    accepted exactly when the user belongs to the submission's company,
    is the user who submitted, and the intent is [performance_history]
    or [combined]. *)
Theorem submission_record_visibility (chunk : gmap str pyval)
    (company asset play rep user submission : str)
    (asset_type play_title rep_title company_name : str)
    (d : gmap str pyval) (ctx : UserContext) (intent : str) :
  build_submission_metadata chunk company asset play rep user submission
    asset_type play_title rep_title company_name = Ok d →
  matches_filter (to_metadata d) (build_pinecone_filter ctx intent) = true
  ↔ company = company_id ctx
    ∧ user = user_id ctx
    ∧ (intent = lit "performance_history" ∨ intent = lit "combined").
Proof.
  intros H.
  apply build_submission_metadata_Ok in H
    as (full & index & _ & _ & Hc & Ht & _ & Hu & _).
  destruct (submission_record_fields d company user ctx Hc Ht Hu) as [Hs Hk].
  destruct (build_cases ctx intent) as [[-> E] | [[-> E] | (N1 & N2 & E)]];
    rewrite E.
  - rewrite Hs. tauto.
  - rewrite combined_filter_union, Hk, orb_false_l, Hs. tauto.
  - rewrite Hk. split; [discriminate|]. intros (_ & _ & [N | N]); contradiction.
Qed.

(** ** Identity *)

Lemma collect_assigned_plays_ids dir assignments :
  map ap_play_id (collect_assigned_plays dir assignments)
  = filter (λ p, is_Some (get_play dir p)) (map a_play_id assignments).
Proof.
  induction assignments as [|a rest IH]; [reflexivity|].
  cbn [collect_assigned_plays map].
  destruct (get_play dir (a_play_id a)) as [play|] eqn:E.
  - rewrite filter_cons_True by (rewrite E; eauto).
    cbn [map]. by rewrite IH.
  - rewrite filter_cons_False; [exact IH|].
    rewrite E. by intros [? ?].
Qed.

Lemma collect_assigned_plays_elem dir assignments ap :
  ap ∈ collect_assigned_plays dir assignments →
  ∃ asgn play,
    asgn ∈ assignments
    ∧ get_play dir (a_play_id asgn) = Some play
    ∧ ap = {| ap_play_id := a_play_id asgn;
              ap_play_title := p_title play;
              ap_status := a_status asgn;
              ap_completed_at := a_completed_at asgn |}.
Proof.
  induction assignments as [|a rest IH]; cbn [collect_assigned_plays].
  - intros H. by apply elem_of_nil in H.
  - destruct (get_play dir (a_play_id a)) as [play|] eqn:E.
    + intros H. apply elem_of_cons in H as [-> | H].
      * exists a, play. split; [left|]. by split.
      * destruct (IH H) as (asgn & p & ? & ? & ?).
        exists asgn, p. split; [by right|]. by split.
    + intros H. destruct (IH H) as (asgn & p & ? & ? & ?).
      exists asgn, p. split; [by right|]. by split.
Qed.

Lemma build_user_context_Returned uid cid dir ctx :
  build_user_context uid cid dir = Returned ctx →
  ∃ user,
    get_user dir uid = Some user
    ∧ user_id ctx = uid
    ∧ company_id ctx = cid
    ∧ username ctx = u_username user
    ∧ display_name ctx = u_display_name user
    ∧ assigned_plays ctx
      = collect_assigned_plays dir (get_assignments_for_user dir uid).
Proof.
  unfold build_user_context.
  destruct (get_user dir uid) as [user|]; [|discriminate].
  destruct (company_name_of _ _) as [name|]; [|discriminate].
  intros [= <-]. exists user. by repeat split.
Qed.

(** X27. The context of a user is built from the store alone: it fails with a
    [ValueError] exactly when the user id is unknown, and otherwise lists,
    in the order of the assignment table, the plays of the user's own
    assignments whose play exists, each with the title of that play. *)
Theorem user_context_lists_existing_assigned_plays (uid cid : str)
    (dir : Directory) :
  ((∃ msg, build_user_context uid cid dir = Failed (ValueError msg))
   ↔ get_user dir uid = None)
  ∧ ∀ ctx,
      build_user_context uid cid dir = Returned ctx →
      user_id ctx = uid
      ∧ company_id ctx = cid
      ∧ assigned_play_ids ctx
        = filter (λ p, is_Some (get_play dir p))
            (map a_play_id (filter (λ a, a_user_id a = uid) (_assignments dir)))
      ∧ ∀ ap, ap ∈ assigned_plays ctx →
          ∃ asgn play,
            asgn ∈ _assignments dir
            ∧ a_user_id asgn = uid
            ∧ a_play_id asgn = ap_play_id ap
            ∧ get_play dir (ap_play_id ap) = Some play
            ∧ ap_play_title ap = p_title play
            ∧ ap_status ap = a_status asgn.
Proof.
  split.
  - unfold build_user_context.
    destruct (get_user dir uid) as [user|].
    + split; [|discriminate].
      intros [msg E]. unfold company_name_of in E.
      destruct (get_company dir cid) as [c|]; [|discriminate E].
      destruct (bool_decide (c = ∅)); [discriminate E|].
      destruct (c !! lit "name"); discriminate E.
    + split; eauto.
  - intros ctx H.
    apply build_user_context_Returned in H as (user & _ & ? & ? & _ & _ & Hp).
    repeat split; try assumption.
    + unfold assigned_play_ids. rewrite Hp.
      apply collect_assigned_plays_ids.
    + intros ap Hap. rewrite Hp in Hap.
      apply collect_assigned_plays_elem in Hap as (asgn & play & Hin & Hg & ->).
      apply list_elem_of_filter in Hin as [Hu Hin].
      exists asgn, play. by repeat split.
Qed.

Section SecurityFacts.

Variable jwt_encode : str → str → Z → Z → str.
Variable jwt_decode : str → option (gmap str str).

Lemma get_current_user_Answered token dir ctx :
  get_current_user jwt_decode token dir = Answered ctx →
  ∃ payload,
    jwt_decode token = Some payload
    ∧ payload !! lit "sub" = Some (user_id ctx)
    ∧ payload !! lit "company_id" = Some (company_id ctx)
    ∧ build_user_context (user_id ctx) (company_id ctx) dir = Returned ctx.
Proof.
  unfold get_current_user, verify_access_token.
  destruct (jwt_decode token) as [payload|]; [|discriminate].
  destruct (payload !! lit "sub") as [uid|] eqn:Es; [|discriminate].
  destruct (payload !! lit "company_id") as [cid|] eqn:Ec; [|discriminate].
  destruct (build_user_context uid cid dir) as [c|[m|k]] eqn:E;
    try discriminate.
  intros [= ->].
  destruct (build_user_context_Returned _ _ _ _ E) as (_ & _ & <- & <- & _).
  exists payload. by repeat split.
Qed.

End SecurityFacts.

(** X28. A request is given a user context only when its token verifies and
    names a user of the store. The context's user and company are the
    token's [sub] and [company_id] claims (the company is not compared
    with the company of the user's record), so every index filter built
    from the context is fenced to the company named by the token. *)
Theorem authenticated_context_follows_token
    (jwt_decode : str → option (gmap str str)) (token : str)
    (dir : Directory) (ctx : UserContext) :
  get_current_user jwt_decode token dir = Answered ctx →
  ∃ payload user,
    jwt_decode token = Some payload
    ∧ payload !! lit "sub" = Some (user_id ctx)
    ∧ payload !! lit "company_id" = Some (company_id ctx)
    ∧ get_user dir (user_id ctx) = Some user
    ∧ username ctx = u_username user
    ∧ ∀ intent, ∃ cid,
        payload !! lit "company_id" = Some cid
        ∧ fenced cid (build_pinecone_filter ctx intent).
Proof.
  intros H.
  apply get_current_user_Answered in H as (payload & Hd & Hs & Hc & Hb).
  apply build_user_context_Returned in Hb as (user & Hu & _ & _ & Hn & _).
  exists payload, user. repeat split; try assumption.
  intros intent. exists (company_id ctx). split; [assumption|].
  apply fenced_build.
Qed.

Lemma find_username_Some (users : list User) name user :
  find (λ u, bool_decide (u_username u = name)) users = Some user →
  user ∈ users ∧ u_username user = name.
Proof.
  intros H. apply find_some in H as [Hin Hb].
  split; [by apply list_elem_of_In|].
  by apply bool_decide_eq_true in Hb.
Qed.

(** X29. The login issues a token only to a user of the store who is active
    and only for the demo password; the token is made for that user's own
    id and company. Every other attempt is answered with the same 401
    and the same detail. *)
Theorem login_issues_token_only_for_active_user
    (jwt_encode : str → str → Z → Z → str)
    (hours now : Z) (demo_password name password : str) (dir : Directory) :
  (∀ token,
      login jwt_encode hours now demo_password name password dir
      = Answered token →
      password = demo_password
      ∧ ∃ user,
          user ∈ map snd (_users dir)
          ∧ u_username user = name
          ∧ u_is_active user = true
          ∧ token = create_access_token jwt_encode hours now
                      (u_id user) (u_company_id user))
  ∧ ((∀ token,
        login jwt_encode hours now demo_password name password dir
        ≠ Answered token) →
     login jwt_encode hours now demo_password name password dir
     = HTTPException 401 (lit "Invalid credentials")).
Proof.
  unfold login.
  destruct (get_user_by_username dir name) as [user|] eqn:E.
  - apply find_username_Some in E as [Hin Hn].
    destruct (u_is_active user) eqn:Ha; cbn [negb].
    + case_bool_decide as Hp.
      * split; [discriminate|reflexivity].
      * split.
        -- intros token [= <-]. split; [by destruct (decide (password = demo_password))|].
           exists user. by repeat split.
        -- intros N. by destruct (N _ eq_refl).
    + split; [discriminate|reflexivity].
  - split; [discriminate|reflexivity].
Qed.

(** X30. Logging in and then presenting the token: when the token library
    gives back the claims it signed, the request runs in the context of
    the user who logged in and of the company of that user's record. *)
Theorem login_then_request_is_own_company
    (jwt_encode : str → str → Z → Z → str)
    (jwt_decode : str → option (gmap str str))
    (hours now : Z) (demo_password name password : str) (dir : Directory)
    (token : str) (ctx : UserContext) :
  (∀ uid cid exp iat,
      jwt_decode (jwt_encode uid cid exp iat)
      = Some {[ lit "sub" := uid; lit "company_id" := cid ]}) →
  login jwt_encode hours now demo_password name password dir = Answered token →
  get_current_user jwt_decode token dir = Answered ctx →
  ∃ user,
    user ∈ map snd (_users dir)
    ∧ u_username user = name
    ∧ user_id ctx = u_id user
    ∧ company_id ctx = u_company_id user.
Proof.
  intros Hjwt Hl Hg.
  unfold login in Hl.
  destruct (get_user_by_username dir name) as [user|] eqn:E; [|discriminate].
  apply find_username_Some in E as [Hin Hn].
  destruct (u_is_active user); [|discriminate]. cbn [negb] in Hl.
  case_bool_decide; [discriminate|].
  injection Hl as <-.
  apply get_current_user_Answered in Hg as (payload & Hd & Hs & Hc & _).
  unfold create_access_token in Hd. rewrite Hjwt in Hd.
  injection Hd as <-.
  exists user. repeat split; try assumption.
  - rewrite lookup_insert_eq in Hs. congruence.
  - rewrite lookup_insert_ne in Hc
      by (intros NE; vm_compute in NE; discriminate NE).
    rewrite lookup_singleton_eq in Hc. congruence.
Qed.

(** ** The scenarios at work *)

Lemma refusing_run_eq :
  run (env := Scenarios.env_refusing) Scenarios.query_weather
    (Some (lit "auto")) Fixtures.ctx_veldra Scenarios.start_refusing
  = Scenarios.refusing_run.
Proof. vm_compute. reflexivity. Qed.

Lemma general_run_eq :
  run (env := Scenarios.env_general) Scenarios.query_coaching None
    Fixtures.ctx_veldra Scenarios.start_general
  = Scenarios.general_run.
Proof. vm_compute. reflexivity. Qed.

Lemma grounded_run_eq :
  run (env := Scenarios.env_grounded) Fixtures.query_gridmaster
    (Some (lit "knowledge")) Scenarios.ctx_two_plays Scenarios.start_grounded
  = Scenarios.grounded_run.
Proof. vm_compute. reflexivity. Qed.

Lemma sentinel_run_eq :
  run (env := Fixtures.env_sentinel) Fixtures.query_gridmaster None
    Fixtures.ctx_veldra Fixtures.start_sentinel
  = Scenarios.sentinel_run.
Proof. vm_compute. reflexivity. Qed.

Lemma grounded_retrieval_eq :
  retrieve_chunks (env := Fixtures.env_answering) Fixtures.query_gridmaster
    Fixtures.ctx_veldra (lit "assigned_knowledge") Fixtures.start_answering
  = Scenarios.grounded_retrieval.
Proof. vm_compute. reflexivity. Qed.

Lemma general_classification_eq :
  classify_intent (env := Scenarios.env_general) Scenarios.query_coaching
    Scenarios.start_general
  = Scenarios.general_classification.
Proof. vm_compute. reflexivity. Qed.

Lemma failing_classification_eq :
  classify_intent (env := Scenarios.env_stream_fails) Fixtures.query_gridmaster
    Scenarios.start_stream_fails
  = Scenarios.failing_classification.
Proof. vm_compute. reflexivity. Qed.

Lemma failing_retrieval_eq :
  retrieve_chunks (env := Scenarios.env_stream_fails) Fixtures.query_gridmaster
    Fixtures.ctx_veldra (lit "assigned_knowledge")
    (snd Scenarios.failing_classification)
  = Scenarios.failing_retrieval.
Proof. vm_compute. reflexivity. Qed.

Lemma two_plays_recommendations_eq :
  get_recommendations (env := Fixtures.env_answering) Scenarios.ctx_two_plays
    {[ lit "play-001" ]} Scenarios.store_with_reps 3
    (Some Fixtures.query_gridmaster)
  = Scenarios.two_plays_recommendations.
Proof. vm_compute. reflexivity. Qed.

Lemma knowledge_record_eq :
  build_knowledge_metadata Scenarios.pdf_chunk (lit "comp-veldra-001")
    (lit "asset-001") (lit "play-001") None (lit "pdf")
    (lit "GridMaster Basics") (lit "Overview") (lit "Veldra")
  = Scenarios.knowledge_record.
Proof. vm_compute. reflexivity. Qed.

Lemma submission_record_eq :
  build_submission_metadata Scenarios.pdf_chunk (lit "comp-veldra-001")
    (lit "asset-009") (lit "play-001") (lit "rep-001")
    (lit "user-test-001") (lit "sub-001") (lit "video")
    (lit "GridMaster Basics") (lit "Overview") (lit "Veldra")
  = Scenarios.submission_record.
Proof. vm_compute. reflexivity. Qed.

Lemma maya_request_eq :
  get_current_user Scenarios.mock_jwt_decode Scenarios.maya_token
    Scenarios.directory
  = Scenarios.maya_request.
Proof. vm_compute. reflexivity. Qed.

Lemma mock_jwt_round_trip (uid cid : str) (exp iat : Z) :
  Scenarios.mock_jwt_decode (Scenarios.mock_jwt_encode uid cid exp iat)
  = Some {[ lit "sub" := uid; lit "company_id" := cid ]}.
Proof.
  unfold Scenarios.mock_jwt_decode, Scenarios.mock_jwt_encode.
  by rewrite Nat2N.id, take_app_length, drop_app_length.
Qed.

Lemma retrieved_chunks_meet_threshold_witness :
  ∃ (chunks : list SourceChunk) (s' : @state Fixtures.env_answering),
    retrieve_chunks (env := Fixtures.env_answering) Fixtures.query_gridmaster
      Fixtures.ctx_veldra (lit "assigned_knowledge") Fixtures.start_answering
    = (Ok chunks, s')
    ∧ length chunks = 2%nat
    ∧ Forall (λ c, ∃ sc : float,
                score c = Some sc ∧ PrimFloat.ltb sc 0.35%float = false)
             chunks.
Proof.
  pose proof grounded_retrieval_eq as E.
  unfold Scenarios.grounded_retrieval in E.
  eexists _, _. split; [exact E|]. split; [reflexivity|].
  exact (retrieved_chunks_meet_threshold (env := Fixtures.env_answering)
           _ _ _ _ _ _ E).
Defined.

Lemma retrieval_failure_propagates_witness :
  ∃ s' : @state Scenarios.env_embedding_down,
    retrieve_chunks (env := Scenarios.env_embedding_down)
      Fixtures.query_gridmaster Fixtures.ctx_veldra (lit "assigned_knowledge")
      Scenarios.start_embedding_down
    = (Raised Scenarios.embedding_down, s')
    ∧ trace s'
      = [ EmbeddingsCreate (lit "text-embedding-3-large")
            Fixtures.query_gridmaster 3072 ].
Proof.
  destruct (retrieval_failure_propagates (env := Scenarios.env_embedding_down)
              Fixtures.query_gridmaster Fixtures.ctx_veldra
              (lit "assigned_knowledge") Scenarios.start_embedding_down)
    as [H _].
  - intros [N _]. vm_compute in N. discriminate N.
  - apply (H Scenarios.embedding_down 1%nat). reflexivity.
Defined.

Lemma recommended_rep_selection_witness :
  ∃ rec : Recommendation,
    get_recommendations (env := Fixtures.env_answering)
      Scenarios.ctx_two_plays {[ lit "play-001" ]} Scenarios.store_with_reps 3
      (Some Fixtures.query_gridmaster)
    = [rec]
    ∧ rec_play_id rec = lit "play-002"
    ∧ rec_rep_id rec = Some (lit "rep-002")
    ∧ rec_rep_title rec = Some (lit "Watch the demo").
Proof.
  pose proof two_plays_recommendations_eq as E.
  unfold Scenarios.two_plays_recommendations in E.
  eexists. split; [exact E|]. split; [reflexivity|].
  eapply (proj1 (proj2
            (recommended_rep_selection (env := Fixtures.env_answering)
               Scenarios.ctx_two_plays {[ lit "play-001" ]}
               Scenarios.store_with_reps 3 (Some Fixtures.query_gridmaster)
               _ _))
            [Scenarios.make_rep "rep-001" "play-002" "read" "Read the brief"]
            (Scenarios.make_rep "rep-002" "play-002" "watch" "Watch the demo")
            []).
  - reflexivity.
  - reflexivity.
  - intros r Hr. apply list_elem_of_singleton in Hr as ->.
    vm_compute. discriminate.
  Unshelve.
  rewrite E. apply list_elem_of_singleton. reflexivity.
Defined.

Lemma explicit_mode_forces_retrieval_witness :
  ∃ (resp : SearchResponse) (s' : @state Scenarios.env_grounded),
    run (env := Scenarios.env_grounded) Fixtures.query_gridmaster
      (Some (lit "knowledge")) Scenarios.ctx_two_plays Scenarios.start_grounded
    = (Ok resp, s')
    ∧ (response_tier resp = tier3 ∨ response_tier resp = grounded)
    ∧ intent (sr_intent resp) = lit "assigned_knowledge".
Proof.
  pose proof grounded_run_eq as E. unfold Scenarios.grounded_run in E.
  eexists _, _. split; [exact E|].
  exact (explicit_mode_forces_retrieval (env := Scenarios.env_grounded)
           _ (lit "knowledge") _ _ _ _ (or_introl eq_refl) E).
Defined.

Lemma tier_follows_intent_witness :
  ∃ (resp : SearchResponse) (s' : @state Scenarios.env_refusing),
    run (env := Scenarios.env_refusing) Scenarios.query_weather
      (Some (lit "auto")) Fixtures.ctx_veldra Scenarios.start_refusing
    = (Ok resp, s')
    ∧ (response_tier resp = tier1 ↔ intent (sr_intent resp) = lit "out_of_scope")
    ∧ (response_tier resp = tier2
       ↔ intent (sr_intent resp) = lit "general_professional")
    ∧ (response_tier resp = tier1 →
         answer resp = OUT_OF_SCOPE_ANSWER ∧ recommendations resp = [])
    ∧ (response_tier resp = tier3 → answer resp = TIER3_ANSWER).
Proof.
  pose proof refusing_run_eq as E. unfold Scenarios.refusing_run in E.
  eexists _, _. split; [exact E|].
  exact (tier_follows_intent (env := Scenarios.env_refusing) _ _ _ _ _ _ E).
Defined.

Lemma refusal_and_general_make_no_retrieval_witness :
  ∃ (resp : SearchResponse) (s' : @state Scenarios.env_general),
    run (env := Scenarios.env_general) Scenarios.query_coaching None
      Fixtures.ctx_veldra Scenarios.start_general
    = (Ok resp, s')
    ∧ response_tier resp = tier2
    ∧ ∃ llm1 llm2,
        trace s'
        = [ LLMInvoke llm1
              (classifier_messages (env := Scenarios.env_general)
                 Scenarios.query_coaching);
            LLMInvoke llm2
              (general_messages (env := Scenarios.env_general)
                 Scenarios.query_coaching);
            Recommend ∅ ].
Proof.
  pose proof general_run_eq as E. unfold Scenarios.general_run in E.
  eexists _, _. split; [exact E|]. split; [reflexivity|].
  exact (proj2 (refusal_and_general_make_no_retrieval
                  (env := Scenarios.env_general) _ _ _ _ _ _ E) eq_refl).
Defined.

Lemma sentinel_never_leaks_witness :
  ∃ (resp : SearchResponse) (s' : @state Fixtures.env_sentinel),
    run (env := Fixtures.env_sentinel) Fixtures.query_gridmaster None
      Fixtures.ctx_veldra Fixtures.start_sentinel
    = (Ok resp, s')
    ∧ response_tier resp = tier3
    ∧ answer resp ≠ lit "INSUFFICIENT_CONTEXT".
Proof.
  pose proof sentinel_run_eq as E. unfold Scenarios.sentinel_run in E.
  eexists _, _. split; [exact E|]. split; [reflexivity|].
  apply (proj1 (sentinel_never_leaks (env := Fixtures.env_sentinel)
                  _ _ _ _ _ _ E)).
  discriminate.
Defined.

Lemma grounded_recommendations_skip_sources_witness :
  ∃ (resp : SearchResponse) (s' : @state Scenarios.env_grounded),
    run (env := Scenarios.env_grounded) Fixtures.query_gridmaster
      (Some (lit "knowledge")) Scenarios.ctx_two_plays Scenarios.start_grounded
    = (Ok resp, s')
    ∧ map rec_play_id (recommendations resp) = [lit "play-002"]
    ∧ ∀ rec c p,
        rec ∈ recommendations resp → c ∈ sources resp →
        play_id c = Some p → p ≠ [] →
        rec_play_id rec ≠ p.
Proof.
  pose proof grounded_run_eq as E. unfold Scenarios.grounded_run in E.
  eexists _, _. split; [exact E|]. split; [reflexivity|].
  exact (grounded_recommendations_skip_sources (env := Scenarios.env_grounded)
           _ _ _ _ _ _ E eq_refl).
Defined.

Lemma surfaces_agree_on_fixed_answers_witness :
  ∃ (resp : SearchResponse) (s' s'' : @state Scenarios.env_refusing),
    run (env := Scenarios.env_refusing) Scenarios.query_weather
      (Some (lit "auto")) Fixtures.ctx_veldra Scenarios.start_refusing
    = (Ok resp, s')
    ∧ run_stream (env := Scenarios.env_refusing) Scenarios.query_weather
        (Some (lit "auto")) Fixtures.ctx_veldra Scenarios.start_refusing
      = (Ok tt, s'')
    ∧ world s'' = world s'
    ∧ emitted (trace s'')
      = [ _sse (env := Scenarios.env_refusing) (MetaEvent (sr_intent resp) tier1 [] []);
          _sse (env := Scenarios.env_refusing) (ChunkEvent OUT_OF_SCOPE_ANSWER);
          _sse (env := Scenarios.env_refusing) (DoneEvent false) ].
Proof.
  pose proof refusing_run_eq as E. unfold Scenarios.refusing_run in E.
  destruct (surfaces_agree_on_fixed_answers (env := Scenarios.env_refusing)
              _ _ _ _ _ _ E (or_introl eq_refl)) as (s'' & Hs & Hw & He).
  eexists _, _, s''. split; [exact E|]. split; [exact Hs|].
  split; [exact Hw|exact He].
Defined.

Lemma stream_general_answer_is_relayed_witness :
  ∃ (s' : @state Scenarios.env_general) (meta : str),
    run_stream (env := Scenarios.env_general) Scenarios.query_coaching None
      Fixtures.ctx_veldra Scenarios.start_general
    = (Ok tt, s')
    ∧ emitted (trace s')
      = [ meta;
          _sse (env := Scenarios.env_general) (ChunkEvent (lit "Ask "));
          _sse (env := Scenarios.env_general) (ChunkEvent (lit "open questions."));
          _sse (env := Scenarios.env_general) (DoneEvent false) ].
Proof.
  pose proof general_classification_eq as E.
  unfold Scenarios.general_classification in E.
  destruct (stream_general_answer_is_relayed (env := Scenarios.env_general)
              Scenarios.query_coaching None Fixtures.ctx_veldra
              Scenarios.start_general _ _
              {| cm_provider := ChatOpenAI; cm_model := lit "gpt-4o-mini";
                 cm_api_key := lit "sk-test"; cm_max_tokens := 512;
                 cm_temperature := 0.3%float |}
              _ [lit "Ask "; lit ""; lit "open questions."] None 2%nat
              E eq_refl eq_refl eq_refl)
    as (s' & Hrun & Ht).
  exists s'. eexists. split; [exact Hrun|].
  rewrite Ht. reflexivity.
Defined.

Lemma stream_grounded_failure_drops_buffer_witness :
  ∃ (s' : @state Scenarios.env_stream_fails) (meta : str),
    run_stream (env := Scenarios.env_stream_fails) Fixtures.query_gridmaster
      None Fixtures.ctx_veldra Scenarios.start_stream_fails
    = (Ok tt, s')
    ∧ emitted (trace s')
      = [ meta; _sse (env := Scenarios.env_stream_fails) (ErrorEvent (lit "connection reset")) ].
Proof.
  pose proof failing_classification_eq as E1.
  pose proof failing_retrieval_eq as E2.
  unfold Scenarios.failing_retrieval in E2.
  unfold Scenarios.failing_classification in E1, E2.
  cbn [snd] in E2.
  assert (N1 : lit "assigned_knowledge" ≠ lit "out_of_scope")
    by (vm_compute; discriminate).
  assert (N2 : lit "assigned_knowledge" ≠ lit "general_professional")
    by (vm_compute; discriminate).
  match type of E2 with
  | _ = (Ok ?chunks, _) => assert (N3 : chunks ≠ []) by discriminate
  end.
  destruct (stream_grounded_failure_drops_buffer
              (env := Scenarios.env_stream_fails)
              Fixtures.query_gridmaster None Fixtures.ctx_veldra
              Scenarios.start_stream_fails _ _ _ _
              {| cm_provider := ChatOpenAI; cm_model := lit "gpt-4o-mini";
                 cm_api_key := lit "sk-test"; cm_max_tokens := 1024;
                 cm_temperature := 0.1%float |}
              _ [lit "GridMaster is "] Scenarios.connection_reset 4%nat
              E1 N1 N2 E2 N3 eq_refl eq_refl)
    as (s' & Hrun & _ & He).
  exists s'. eexists. split; [exact Hrun|]. exact He.
Defined.

Lemma knowledge_record_visibility_witness :
  ∃ d : gmap str pyval,
    build_knowledge_metadata Scenarios.pdf_chunk (lit "comp-veldra-001")
      (lit "asset-001") (lit "play-001") None (lit "pdf")
      (lit "GridMaster Basics") (lit "Overview") (lit "Veldra")
    = Ok d
    ∧ matches_filter (to_metadata d)
        (build_pinecone_filter Fixtures.ctx_veldra (lit "assigned_knowledge"))
      = true
    ∧ matches_filter (to_metadata d)
        (build_pinecone_filter Fixtures.ctx_aetheris (lit "combined"))
      = false.
Proof.
  pose proof knowledge_record_eq as E. unfold Scenarios.knowledge_record in E.
  eexists. split; [exact E|]. split.
  - apply (knowledge_record_visibility _ _ _ _ _ _ _ _ _ _
             Fixtures.ctx_veldra (lit "assigned_knowledge") E).
    split; [reflexivity|]. split.
    + apply list_elem_of_singleton. reflexivity.
    + vm_compute. discriminate.
  - apply not_true_is_false. intros H.
    apply (knowledge_record_visibility _ _ _ _ _ _ _ _ _ _
             Fixtures.ctx_aetheris (lit "combined") E) in H as [N _].
    vm_compute in N. discriminate N.
Defined.

Lemma submission_record_visibility_witness :
  ∃ d : gmap str pyval,
    build_submission_metadata Scenarios.pdf_chunk (lit "comp-veldra-001")
      (lit "asset-009") (lit "play-001") (lit "rep-001")
      (lit "user-test-001") (lit "sub-001") (lit "video")
      (lit "GridMaster Basics") (lit "Overview") (lit "Veldra")
    = Ok d
    ∧ matches_filter (to_metadata d)
        (build_pinecone_filter Fixtures.ctx_veldra (lit "performance_history"))
      = true
    ∧ matches_filter (to_metadata d)
        (build_pinecone_filter Fixtures.ctx_unassigned (lit "combined"))
      = false.
Proof.
  pose proof submission_record_eq as E. unfold Scenarios.submission_record in E.
  eexists. split; [exact E|]. split.
  - apply (submission_record_visibility _ _ _ _ _ _ _ _ _ _ _ _
             Fixtures.ctx_veldra (lit "performance_history") E).
    split; [reflexivity|]. split; [reflexivity|]. by left.
  - apply not_true_is_false. intros H.
    apply (submission_record_visibility _ _ _ _ _ _ _ _ _ _ _ _
             Fixtures.ctx_unassigned (lit "combined") E) in H as (_ & N & _).
    vm_compute in N. discriminate N.
Defined.

Lemma authenticated_context_follows_token_witness :
  ∃ ctx : UserContext,
    get_current_user Scenarios.mock_jwt_decode Scenarios.maya_token
      Scenarios.directory
    = Answered ctx
    ∧ assigned_play_ids ctx = [lit "play-001"]
    ∧ ∃ user, get_user Scenarios.directory (lit "user-001") = Some user
              ∧ username ctx = u_username user.
Proof.
  pose proof maya_request_eq as E. unfold Scenarios.maya_request in E.
  destruct (authenticated_context_follows_token _ _ _ _ E)
    as (payload & user & _ & _ & _ & Hu & Hn & _).
  eexists. split; [exact E|]. split; [reflexivity|].
  exists user. split; [exact Hu|exact Hn].
Defined.

Lemma login_then_request_is_own_company_witness :
  ∃ (token : str) (ctx : UserContext) (user : User),
    login Scenarios.mock_jwt_encode 1 0 (lit "demo") (lit "maya") (lit "demo")
      Scenarios.directory
    = Answered token
    ∧ get_current_user Scenarios.mock_jwt_decode token Scenarios.directory
      = Answered ctx
    ∧ user ∈ map snd (_users Scenarios.directory)
    ∧ u_username user = lit "maya"
    ∧ user_id ctx = u_id user
    ∧ company_id ctx = u_company_id user.
Proof.
  pose proof maya_request_eq as E. unfold Scenarios.maya_request in E.
  destruct (login_then_request_is_own_company
              Scenarios.mock_jwt_encode Scenarios.mock_jwt_decode 1 0
              (lit "demo") (lit "maya") (lit "demo") Scenarios.directory
              Scenarios.maya_token _ mock_jwt_round_trip eq_refl E)
    as (user & Hin & Hn & Hu & Hc).
  exists Scenarios.maya_token. eexists. exists user.
  split; [reflexivity|]. split; [exact E|]. by repeat split.
Defined.
